(** * mpy-audio-player: the streaming WAVE player of [audio_player.py]

    A shallow embedding of the class [AUDIO_PLAYER] (MicroPython, STM32):
    its constructor, [begin], [play], [stop], the three volume controls and
    the two streaming loops [_play8] and [_play16], run in a state and
    exception monad over the player object, the log of the values handed to
    the output peripherals and the log of the reads made on the WAVE file. *)

From Stdlib Require Import String ZArith List Lia Bool.
From Stdlib.Strings Require Import Byte.
From Stdlib Require SpecFloat.
Import ListNotations.
Open Scope Z_scope.

(** ** Fragments of Python used by the player *)

Module Py.

Inductive exn : Type :=
| IndexError | AttributeError | ZeroDivisionError | ValueError | OSError | WaveError.

(** [l[i]]: a negative index counts from the end; out of range is an
    [IndexError] (here [None]). *)
Definition index {A : Type} (l : list A) (i : Z) : option A :=
  let n := Z.of_nat (length l) in
  if 0 <=? i then nth_error l (Z.to_nat i)
  else if - n <=? i then nth_error l (Z.to_nat (n + i))
  else None.

(** Number of elements of [range(start, stop, step)]. *)
Definition range_len (start stop step : Z) : Z :=
  if 0 <? step then
    if start <? stop then (stop - start - 1) / step + 1 else 0
  else if step <? 0 then
    if stop <? start then (start - stop - 1) / (- step) + 1 else 0
  else 0.

(** [range(start, stop, step)]; a zero step is a [ValueError] ([None]). *)
Definition range (start stop step : Z) : option (list Z) :=
  if step =? 0 then None
  else Some (map (fun k => start + Z.of_nat k * step)
                 (seq 0 (Z.to_nat (range_len start stop step)))).

(** [a // b]: floor division, which is what [Z.div] computes. *)
Definition floordiv (a b : Z) : option Z :=
  if b =? 0 then None else Some (a / b).

(** Truth value of an attribute that holds [None] or an object. *)
Definition truthy {A : Type} (o : option A) : bool :=
  match o with Some _ => true | None => false end.

Definition byte_val (b : byte) : Z := Z.of_N (Byte.to_N b).

(** [array.array('B', data)]: one unsigned item per byte. *)
Definition array_B (data : list byte) : list Z := map byte_val data.

Definition sint16 (u : Z) : Z := if u <? 32768 then u else u - 65536.

(** [array.array('h', data)]: signed 16-bit items, least significant byte
    first (the STM32 is little-endian); MicroPython rounds the length down
    to a whole number of items. *)
Fixpoint array_h (data : list byte) : list Z :=
  match data with
  | lo :: hi :: rest => sint16 (byte_val lo + 256 * byte_val hi) :: array_h rest
  | _ => []
  end.

End Py.

(** ** The WAVE reader *)

Module Wave.

(** Modelled from the spec: the [wave] library (class [Wave_read]) is an
    external collaborator that is not part of the repository.  Following
    the Sample Source contract, a mono PCM file is its header values, its
    data bytes and a read cursor counted in frames; one frame is
    [sampwidth] bytes. *)
Record Wave_read : Type := mk {
  sampwidth : Z;
  framerate : Z;
  nframes : Z;
  data : list byte;
  soundpos : Z
}.

Definition getsampwidth (f : Wave_read) : Z := sampwidth f.
Definition getnframes (f : Wave_read) : Z := nframes f.
Definition getframerate (f : Wave_read) : Z := framerate f.

Definition at_pos (f : Wave_read) (p : Z) : Wave_read :=
  mk (sampwidth f) (framerate f) (nframes f) (data f) p.

(** Modelled from the spec: [readframes(n)] returns up to [n] frames
    starting at the cursor, fewer at the end of the data, and advances the
    cursor by the number of frames returned. *)
Definition readframes (f : Wave_read) (n : Z) : list byte * Wave_read :=
  let rest := skipn (Z.to_nat (soundpos f * sampwidth f)) (data f) in
  let got := if n <? 0 then rest else firstn (Z.to_nat (n * sampwidth f)) rest in
  (got, at_pos f (soundpos f + Z.of_nat (length got) / sampwidth f)).

(** Modelled from the spec: [setpos(p)] repositions the cursor; a position
    outside [0, nframes] is refused. *)
Definition setpos (f : Wave_read) (p : Z) : option Wave_read :=
  if (p <? 0) || (nframes f <? p) then None else Some (at_pos f p).

(** The frames [lo, hi) of the file, as bytes. *)
Definition frames (f : Wave_read) (lo hi : Z) : list byte :=
  firstn (Z.to_nat ((hi - lo) * sampwidth f))
         (skipn (Z.to_nat (lo * sampwidth f)) (data f)).

(** A file whose header agrees with its data. *)
Definition well_formed (f : Wave_read) : Prop :=
  0 < sampwidth f /\ 0 <= nframes f /\
  Z.of_nat (length (data f)) = nframes f * sampwidth f.

End Wave.

(** ** Peripherals *)

Definition _TIMER : Z := 2.
Definition _CHANNEL : Z := 4.
Definition _PIN : string := "A3"%string.
Definition _DAC : Z := 1.
Definition _FREQ : Z := 120000.

Record DAC : Type := mkDAC { dac_port : Z; dac_bits : Z; dac_buffering : bool }.
Record Timer : Type := mkTimer { tim_id : Z; tim_prescaler : Z; tim_period : Z }.
Record Channel : Type := mkChannel {
  ch_timer : Timer; ch_id : Z; ch_pin : string; ch_pulse_width_percent : Z
}.

(** What the program hands to the output peripherals, in order. *)
Inductive hw_event : Type :=
| DacWrite (value : Z)
| DacWriteTimed (buf : list byte) (freq : Z)
| PulseWidth (value : Z)
| Udelay (us : Z).

(** What the program asks of the WAVE reader, in order: a read of
    [requested] frames issued with the cursor at [cursor] that returned
    [returned] bytes, or a [setpos]. *)
Inductive file_op : Type :=
| ReadFrames (cursor requested : Z) (returned : list byte)
| SetPos (frame : Z).

(** ** The player object *)

Record Player : Type := mkPlayer {
  filename : string;
  pwm_mode : bool;
  loop : bool;
  dac : option DAC;
  pwm_out : option Channel;
  timer : option Timer;
  audiofile : option Wave.Wave_read;
  adatawidth : Z;
  framedata : option (list byte);
  buffersize : Z;
  ready : bool;
  threading : bool;
  pthread : option unit;
  volumes : list Z;
  volume : Z;
  fstop : bool;
  total_frames : option Z;
  framerate : option Z;
  period : option Z
}.

(** [AUDIO_PLAYER(filename, pwm, loop, thread)]: the constructor. *)
Definition AUDIO_PLAYER (fname : string) (pwm lp thread : bool) : Player :=
  {| filename := fname;
     pwm_mode := pwm;
     loop := lp;
     dac := None;
     pwm_out := None;
     timer := None;
     audiofile := None;
     adatawidth := 8;
     framedata := None;
     buffersize := 2048;
     ready := false;
     threading := thread;
     pthread := None;
     volumes := [49;31;21;15;11;9;7;6;5;4;3;2;1];
     volume := 10;
     fstop := true;
     total_frames := None;
     framerate := None;
     period := None |}.

Definition with_dac (x : option DAC) (p : Player) : Player :=
  mkPlayer (filename p) (pwm_mode p) (loop p) x (pwm_out p) (timer p)
    (audiofile p) (adatawidth p) (framedata p) (buffersize p) (ready p)
    (threading p) (pthread p) (volumes p) (volume p) (fstop p)
    (total_frames p) (framerate p) (period p).

Definition with_pwm_out (x : option Channel) (p : Player) : Player :=
  mkPlayer (filename p) (pwm_mode p) (loop p) (dac p) x (timer p)
    (audiofile p) (adatawidth p) (framedata p) (buffersize p) (ready p)
    (threading p) (pthread p) (volumes p) (volume p) (fstop p)
    (total_frames p) (framerate p) (period p).

Definition with_timer (x : option Timer) (p : Player) : Player :=
  mkPlayer (filename p) (pwm_mode p) (loop p) (dac p) (pwm_out p) x
    (audiofile p) (adatawidth p) (framedata p) (buffersize p) (ready p)
    (threading p) (pthread p) (volumes p) (volume p) (fstop p)
    (total_frames p) (framerate p) (period p).

Definition with_audiofile (x : option Wave.Wave_read) (p : Player) : Player :=
  mkPlayer (filename p) (pwm_mode p) (loop p) (dac p) (pwm_out p) (timer p)
    x (adatawidth p) (framedata p) (buffersize p) (ready p)
    (threading p) (pthread p) (volumes p) (volume p) (fstop p)
    (total_frames p) (framerate p) (period p).

Definition with_adatawidth (x : Z) (p : Player) : Player :=
  mkPlayer (filename p) (pwm_mode p) (loop p) (dac p) (pwm_out p) (timer p)
    (audiofile p) x (framedata p) (buffersize p) (ready p)
    (threading p) (pthread p) (volumes p) (volume p) (fstop p)
    (total_frames p) (framerate p) (period p).

Definition with_framedata (x : option (list byte)) (p : Player) : Player :=
  mkPlayer (filename p) (pwm_mode p) (loop p) (dac p) (pwm_out p) (timer p)
    (audiofile p) (adatawidth p) x (buffersize p) (ready p)
    (threading p) (pthread p) (volumes p) (volume p) (fstop p)
    (total_frames p) (framerate p) (period p).

Definition with_ready (x : bool) (p : Player) : Player :=
  mkPlayer (filename p) (pwm_mode p) (loop p) (dac p) (pwm_out p) (timer p)
    (audiofile p) (adatawidth p) (framedata p) (buffersize p) x
    (threading p) (pthread p) (volumes p) (volume p) (fstop p)
    (total_frames p) (framerate p) (period p).

Definition with_pthread (x : option unit) (p : Player) : Player :=
  mkPlayer (filename p) (pwm_mode p) (loop p) (dac p) (pwm_out p) (timer p)
    (audiofile p) (adatawidth p) (framedata p) (buffersize p) (ready p)
    (threading p) x (volumes p) (volume p) (fstop p)
    (total_frames p) (framerate p) (period p).

Definition with_volume (x : Z) (p : Player) : Player :=
  mkPlayer (filename p) (pwm_mode p) (loop p) (dac p) (pwm_out p) (timer p)
    (audiofile p) (adatawidth p) (framedata p) (buffersize p) (ready p)
    (threading p) (pthread p) (volumes p) x (fstop p)
    (total_frames p) (framerate p) (period p).

Definition with_fstop (x : bool) (p : Player) : Player :=
  mkPlayer (filename p) (pwm_mode p) (loop p) (dac p) (pwm_out p) (timer p)
    (audiofile p) (adatawidth p) (framedata p) (buffersize p) (ready p)
    (threading p) (pthread p) (volumes p) (volume p) x
    (total_frames p) (framerate p) (period p).

Definition with_total_frames (x : option Z) (p : Player) : Player :=
  mkPlayer (filename p) (pwm_mode p) (loop p) (dac p) (pwm_out p) (timer p)
    (audiofile p) (adatawidth p) (framedata p) (buffersize p) (ready p)
    (threading p) (pthread p) (volumes p) (volume p) (fstop p)
    x (framerate p) (period p).

Definition with_framerate (x : option Z) (p : Player) : Player :=
  mkPlayer (filename p) (pwm_mode p) (loop p) (dac p) (pwm_out p) (timer p)
    (audiofile p) (adatawidth p) (framedata p) (buffersize p) (ready p)
    (threading p) (pthread p) (volumes p) (volume p) (fstop p)
    (total_frames p) x (period p).

Definition with_period (x : option Z) (p : Player) : Player :=
  mkPlayer (filename p) (pwm_mode p) (loop p) (dac p) (pwm_out p) (timer p)
    (audiofile p) (adatawidth p) (framedata p) (buffersize p) (ready p)
    (threading p) (pthread p) (volumes p) (volume p) (fstop p)
    (total_frames p) (framerate p) x.

(** ** The monad of the methods *)

(** The player object together with the two logs. *)
Record World : Type := mkWorld {
  self : Player;
  hw : list hw_event;
  io : list file_op
}.

Definition boot (p : Player) : World := mkWorld p [] [].

(** A method either returns or raises; the world it leaves is kept in both
    cases. *)
Inductive outcome (A : Type) : Type :=
| Return (a : A) (w : World)
| Raise (e : Py.exn) (w : World).
Arguments Return {A} a w.
Arguments Raise {A} e w.

Definition world_of {A : Type} (o : outcome A) : World :=
  match o with Return _ w => w | Raise _ w => w end.

Definition returns {A : Type} (o : outcome A) : bool :=
  match o with Return _ _ => true | Raise _ _ => false end.

Definition M (A : Type) : Type := World -> outcome A.

Definition ret {A : Type} (a : A) : M A := fun w => Return a w.

Definition bind {A B : Type} (m : M A) (k : A -> M B) : M B :=
  fun w => match m w with
           | Return a w' => k a w'
           | Raise e w' => Raise e w'
           end.

Definition raise {A : Type} (e : Py.exn) : M A := fun w => Raise e w.

Declare Scope py_scope.
Delimit Scope py_scope with py.
Notation "x <- m ;; k" := (bind m (fun x => k))
  (at level 100, m at next level, right associativity) : py_scope.
Notation "m ;; k" := (bind m (fun _ => k))
  (at level 100, right associativity) : py_scope.
Open Scope py_scope.

(** Reading an attribute of [self]. *)
Definition attr {A : Type} (f : Player -> A) : M A := fun w => Return (f (self w)) w.

(** Reading an attribute and using the object it holds: [None] has no
    attributes and no items, which surface as [e]. *)
Definition deref {A : Type} (e : Py.exn) (f : Player -> option A) : M A :=
  fun w => match f (self w) with
           | Some a => Return a w
           | None => Raise e w
           end.

(** Assigning an attribute of [self]. *)
Definition assign (f : Player -> Player) : M unit :=
  fun w => Return tt (mkWorld (f (self w)) (hw w) (io w)).

Definition emit (e : hw_event) : M unit :=
  fun w => Return tt (mkWorld (self w) (hw w ++ [e]) (io w)).

Definition log (o : file_op) : M unit :=
  fun w => Return tt (mkWorld (self w) (hw w) (io w ++ [o])).

Definition lift {A : Type} (e : Py.exn) (o : option A) : M A :=
  match o with Some a => ret a | None => raise e end.

(** [custom_delay(t)]: [udelay(t)]. *)
Definition custom_delay (t : Z) : M unit := emit (Udelay t).

(** [self.audiofile.readframes(n)] *)
Definition audiofile_readframes (n : Z) : M (list byte) :=
  f <- deref Py.AttributeError audiofile ;;
  let r := Wave.readframes f n in
  assign (with_audiofile (Some (snd r))) ;;
  log (ReadFrames (Wave.soundpos f) n (fst r)) ;;
  ret (fst r).

(** [self.audiofile.setpos(p)] *)
Definition audiofile_setpos (p : Z) : M unit :=
  f <- deref Py.AttributeError audiofile ;;
  f' <- lift Py.WaveError (Wave.setpos f p) ;;
  assign (with_audiofile (Some f')) ;;
  log (SetPos p).

(** [self.dac.write(v)] *)
Definition dac_write (v : Z) : M unit :=
  _ <- deref Py.AttributeError dac ;; emit (DacWrite v).

(** [self.pwm_out.pulse_width(v)] *)
Definition pwm_out_pulse_width (v : Z) : M unit :=
  _ <- deref Py.AttributeError pwm_out ;; emit (PulseWidth v).

(** ** The controls *)

Definition volume_up : M unit :=
  v <- attr volume ;;
  if v <? 12 then assign (with_volume (v + 1)) else ret tt.

Definition volume_down : M unit :=
  v <- attr volume ;;
  if v >? 0 then assign (with_volume (v - 1)) else ret tt.

Definition set_volume (v : Z) : M unit :=
  if (0 <=? v) && (v <=? 12) then assign (with_volume v) else ret tt.

Definition stop : M unit :=
  r <- attr ready ;;
  if negb r then ret tt else
  assign (with_fstop true) ;;
  l <- attr loop ;;
  if l then dac_write 0 else ret tt.

(** What another execution context may call while the streaming loop runs. *)
Inductive command : Type :=
| Stop | VolumeUp | VolumeDown | SetVolume (v : Z).

Definition call (c : command) : M unit :=
  match c with
  | Stop => stop
  | VolumeUp => volume_up
  | VolumeDown => volume_down
  | SetVolume v => set_volume v
  end.

(** The calls [cs] made by the other context, one after the other; an
    exception raised there stays there. *)
Definition interleave (cs : list command) : M unit :=
  fun w => Return tt (fold_left (fun w' c => world_of (call c w')) cs w).

(** The calls of the other context that land before the stop test of the
    chunk numbered [k] and between that test and the volume snapshot of the
    same chunk.  Calls made while the samples of a chunk are written are
    seen at the next stop test, and belong to [before_test (k+1)]. *)
Record schedule : Type := mkSchedule {
  before_test : nat -> list command;
  before_snapshot : nat -> list command
}.

(** Nothing else runs: the loop runs in the caller's context. *)
Definition alone : schedule := mkSchedule (fun _ => []) (fun _ => []).

(** ** The methods that touch the board *)

(** The methods name [pyb], [machine] and [micropython], which the module
    does not import itself: they are taken to be bound in the globals the
    script runs in, as they are after the board's [boot.py], and the
    peripheral constructors are taken to succeed. *)

Section Board.

(** [pyb.freq()[2]], the clock the timer prescaler is derived from. *)
Variable pclk1 : Z.

(** The WAVE files of the flash, by name, as [wave.open] finds them. *)
Variable disk : string -> option Wave.Wave_read.

(** The exception [wave.open] raises for a name it cannot open: [OSError]
    when there is no such file, [wave.Error] when the file is there and is
    not a WAVE file. *)
Variable open_error : string -> Py.exn.

(** [pace rate f] stands for [int((1 / rate * 1000000) * (f / 100))] as the
    board's floating-point unit evaluates it; the streaming loops only pass
    the result on to [custom_delay]. *)
Variable pace : Z -> Z -> Z.

(** [wave.open(name, 'r')]: a reader with its cursor on the first frame,
    or the exception of the library. *)
Definition wave_open (name : string) : M Wave.Wave_read :=
  lift (open_error name) (option_map (fun f => Wave.at_pos f 0) (disk name)).

Definition begin : M unit :=
  name <- attr filename ;;
  f <- wave_open name ;;
  assign (with_audiofile (Some f)) ;;
  assign (with_adatawidth (if Wave.getsampwidth f >? 1 then 12 else 8)) ;;
  pwm <- attr pwm_mode ;;
  (if pwm then
     let pr := pclk1 * 2 / 255 / _FREQ in
     let t := mkTimer _TIMER pr 255 in
     assign (with_timer (Some t)) ;;
     assign (with_pwm_out (Some (mkChannel t _CHANNEL _PIN 50)))
   else
     bits <- attr adatawidth ;;
     assign (with_dac (Some (mkDAC _DAC bits true)))) ;;
  assign (with_total_frames (Some (Wave.getnframes f))) ;;
  assign (with_framerate (Some (Wave.getframerate f))) ;;
  assign (with_ready true).

(** The inner loop of [_play16], [for i in range(self.buffersize)], over
    the indices still to visit. *)
Fixpoint _play16_samples (idx : list Z) (buf : list Z) (vol : Z) : M unit :=
  match idx with
  | [] => ret tt
  | i :: idx' =>
      out <- attr pwm_out ;;
      (if Py.truthy out then
         s <- lift Py.IndexError (Py.index buf i) ;;
         q <- lift Py.ZeroDivisionError (Py.floordiv s vol) ;;
         pwm_out_pulse_width (128 + q)
       else
         s <- lift Py.IndexError (Py.index buf i) ;;
         q <- lift Py.ZeroDivisionError (Py.floordiv s vol) ;;
         dac_write (2048 + q)) ;;
      t <- deref Py.AttributeError period ;;
      custom_delay t ;;
      _play16_samples idx' buf vol
  end.

(** The outer loop of [_play16] over the positions still to visit; [k]
    numbers the chunks from 0. *)
Fixpoint _play16_chunks (sch : schedule) (k : nat) (positions : list Z) : M unit :=
  match positions with
  | [] => ret tt
  | position :: rest =>
      interleave (before_test sch k) ;;
      halt <- attr fstop ;;
      if halt then ret tt else
      n <- attr buffersize ;;
      bytes <- audiofile_readframes n ;;
      assign (with_framedata (Some bytes)) ;;
      let buf := Py.array_h bytes in
      audiofile_setpos position ;;
      interleave (before_snapshot sch k) ;;
      v <- attr volume ;;
      table <- attr volumes ;;
      vol <- lift Py.IndexError (Py.index table v) ;;
      out <- attr pwm_out ;;
      let vol := vol * (if Py.truthy out then 128 else 16) in
      m <- attr buffersize ;;
      idx <- lift Py.ValueError (Py.range 0 m 1) ;;
      _play16_samples idx buf vol ;;
      _play16_chunks sch (S k) rest
  end.

Definition _play16 (sch : schedule) : M unit :=
  rate <- deref Py.AttributeError framerate ;;
  (if rate =? 0 then raise Py.ZeroDivisionError
   else assign (with_period (Some (pace rate 95)))) ;;
  n <- attr buffersize ;;
  total <- deref Py.AttributeError total_frames ;;
  positions <- lift Py.ValueError (Py.range n total n) ;;
  _play16_chunks sch 0 positions.

(** The inner loop of [_play8]. *)
Fixpoint _play8_samples (idx : list Z) (buf : list Z) (vol : Z) : M unit :=
  match idx with
  | [] => ret tt
  | i :: idx' =>
      s <- lift Py.IndexError (Py.index buf i) ;;
      sample <- lift Py.ZeroDivisionError (Py.floordiv s vol) ;;
      out <- attr pwm_out ;;
      (if Py.truthy out then pwm_out_pulse_width sample
       else dac_write sample) ;;
      t <- deref Py.AttributeError period ;;
      custom_delay t ;;
      _play8_samples idx' buf vol
  end.

(** The outer loop of [_play8]. *)
Fixpoint _play8_chunks (sch : schedule) (k : nat) (positions : list Z) : M unit :=
  match positions with
  | [] => ret tt
  | position :: rest =>
      interleave (before_test sch k) ;;
      halt <- attr fstop ;;
      if halt then ret tt else
      n <- attr buffersize ;;
      bytes <- audiofile_readframes n ;;
      assign (with_framedata (Some bytes)) ;;
      let buf := Py.array_B bytes in
      audiofile_setpos position ;;
      interleave (before_snapshot sch k) ;;
      v <- attr volume ;;
      table <- attr volumes ;;
      vol <- lift Py.IndexError (Py.index table v) ;;
      m <- attr buffersize ;;
      idx <- lift Py.ValueError (Py.range 0 m 1) ;;
      _play8_samples idx buf vol ;;
      _play8_chunks sch (S k) rest
  end.

Definition _play8 (sch : schedule) : M unit :=
  rate <- deref Py.AttributeError framerate ;;
  (if rate =? 0 then raise Py.ZeroDivisionError
   else assign (with_period (Some (pace rate 90)))) ;;
  n <- attr buffersize ;;
  total <- deref Py.AttributeError total_frames ;;
  positions <- lift Py.ValueError (Py.range n total n) ;;
  _play8_chunks sch 0 positions.

(** [_thread.start_new_thread(body, ())]: the caller gets a handle back at
    once and [body] runs in its own context, where the calls of [sch] reach
    it; an exception ends the thread and is not seen by the caller.  The
    world returned is the one left when the thread has ended. *)
Definition start_new_thread (body : M unit) : M unit :=
  fun w =>
    let w' := world_of (body w) in
    Return tt (mkWorld (with_pthread (Some tt) (self w')) (hw w') (io w')).

(** [play()], with [sch] the calls made by the caller while the player
    thread runs; without a thread nothing else runs until it returns. *)
Definition play (sch : schedule) : M unit :=
  r <- attr ready ;;
  if negb r then ret tt else
  assign (with_fstop false) ;;
  l <- attr loop ;;
  if l then
    total <- deref Py.AttributeError total_frames ;;
    bytes <- audiofile_readframes total ;;
    assign (with_framedata (Some bytes)) ;;
    _ <- deref Py.AttributeError dac ;;
    rate <- deref Py.AttributeError framerate ;;
    emit (DacWriteTimed bytes rate)
  else
    width <- attr adatawidth ;;
    thread <- attr threading ;;
    if width =? 8 then
      if thread then start_new_thread (_play8 sch) else _play8 alone
    else
      if thread then start_new_thread (_play16 sch) else _play16 alone.

End Board.

(** ** The period in floating point *)

(** The streaming methods compute the period as
    [int((1 / self.framerate * 1000000) * 0.95)] ([0.90] in [_play8]).
    The division of the two integers is a float division, the products
    are float products, evaluated from left to right, and [int] truncates
    towards zero.  The arithmetic is the IEEE 754 binary arithmetic of the
    build, with round to nearest even: binary32 on the boards with a
    single-precision unit, binary64 where MicroPython is built with
    doubles, as in CPython. *)
Module Fp.

(** A binary format: the bits of precision and the bound of the exponent. *)
Record format : Type := mkFormat { prec : Z; emax : Z }.


(** An integer as a float of the format, rounded if it has to be. *)
Definition of_int (fmt : format) (n : Z) : SpecFloat.spec_float :=
  SpecFloat.binary_normalize (prec fmt) (emax fmt) n 0 false.

Definition div (fmt : format) (x y : SpecFloat.spec_float) : SpecFloat.spec_float :=
  SpecFloat.SFdiv (prec fmt) (emax fmt) x y.

Definition mul (fmt : format) (x y : SpecFloat.spec_float) : SpecFloat.spec_float :=
  SpecFloat.SFmul (prec fmt) (emax fmt) x y.

(** The decimal literals [0.95] and [0.90]: the float nearest to
    [hundredths / 100], which the correctly rounded quotient of the two
    integers is. *)
Definition literal (fmt : format) (hundredths : Z) : SpecFloat.spec_float :=
  div fmt (of_int fmt hundredths) (of_int fmt 100).

(** [int(x)]: truncation towards zero; an infinity or a NaN has no integer
    value. *)
Definition to_int (x : SpecFloat.spec_float) : option Z :=
  match x with
  | SpecFloat.S754_zero _ => Some 0
  | SpecFloat.S754_finite s m e =>
      let a := if 0 <=? e then Z.shiftl (Zpos m) e
               else Z.shiftr (Zpos m) (- e) in
      Some (if s then - a else a)
  | SpecFloat.S754_infinity _ | SpecFloat.S754_nan => None
  end.

(** [(1 / rate * 1000000) * factor] as the code evaluates it, with
    [factor] in hundredths. *)
Definition product (fmt : format) (rate hundredths : Z) : SpecFloat.spec_float :=
  mul fmt (mul fmt (div fmt (of_int fmt 1) (of_int fmt rate))
                   (of_int fmt 1000000))
          (literal fmt hundredths).

(** [int((1 / rate * 1000000) * factor)].  The streaming methods are past
    [1 / rate] when they get here, so [rate] is not 0 and the product is
    finite; [period] is 0 where there is no integer value. *)
Definition period (fmt : format) (rate hundredths : Z) : Z :=
  match to_int (product fmt rate hundredths) with
  | Some n => n
  | None => 0
  end.





End Fp.

(** ** The streaming loops, said in the words of the design *)

(** The two attributes the other context and the loop share: the volume
    level and the stop flag. *)
Definition control : Type := (Z * bool)%type.

Definition control_of (p : Player) : control := (volume p, fstop p).

(** The effect of a call on the volume level and the stop flag of a player
    that is ready and not in loop mode. *)
Definition after_call (c : command) (s : control) : control :=
  match c with
  | Stop => (fst s, true)
  | VolumeUp => (if fst s <? 12 then fst s + 1 else fst s, snd s)
  | VolumeDown => (if fst s >? 0 then fst s - 1 else fst s, snd s)
  | SetVolume v => (if (0 <=? v) && (v <=? 12) then v else fst s, snd s)
  end.

Definition after_calls (cs : list command) (s : control) : control :=
  fold_left (fun s' c => after_call c s') cs s.

(** Volume level and stop flag when the stop test of chunk [k] runs, for a
    loop entered with [s]. *)
Fixpoint at_test (sch : schedule) (s : control) (k : nat) : control :=
  match k with
  | O => after_calls (before_test sch O) s
  | S k' =>
      after_calls (before_test sch k)
        (after_calls (before_snapshot sch k') (at_test sch s k'))
  end.

(** Volume level and stop flag when chunk [k] snapshots the volume. *)
Definition at_snapshot (sch : schedule) (s : control) (k : nat) : control :=
  after_calls (before_snapshot sch k) (at_test sch s k).

(** Volume level and stop flag when iteration [k] of the loop starts. *)
Definition at_entry (sch : schedule) (s : control) (k : nat) : control :=
  match k with
  | O => s
  | S k' => at_snapshot sch s k'
  end.

(** How many of the chunks [k], [k+1], ..., [k+n-1] are streamed: the loop
    ends at the first stop test that finds the flag set. *)
Fixpoint streamed_from (sch : schedule) (s : control) (k n : nat) : nat :=
  match n with
  | O => O
  | S n' => if snd (at_test sch s k) then O
            else S (streamed_from sch s (S k) n')
  end.

(** The positions the loops visit: [range(b, total, b)]. *)
Definition position (b : Z) (j : nat) : Z := b + Z.of_nat j * b.

Definition chunk_count (b total : Z) : nat := Z.to_nat (Py.range_len b total b).

(** The frame the read of chunk [j] is issued at: the first read finds the
    cursor where the open file has it, every later one where the re-seek of
    the previous iteration has put it, at [position j - b]. *)
Definition chunk_start (f : Wave.Wave_read) (b : Z) (j : nat) : Z :=
  match j with
  | O => Wave.soundpos f
  | S _ => position b j - b
  end.

(** The bytes of chunk [j]: the frames from [chunk_start j] on, [b] of them
    or as many as the file has left. *)
Definition chunk (f : Wave.Wave_read) (b : Z) (j : nat) : list byte :=
  Wave.frames f (chunk_start f b j) (chunk_start f b j + b).

(** Whether the file has [b] frames from [chunk_start j] on. *)
Definition full (f : Wave.Wave_read) (b : Z) (j : nat) : bool :=
  chunk_start f b j + b <=? Wave.nframes f.

(** The divisor of a volume level. *)
Definition divisor (v : Z) : Z :=
  nth (Z.to_nat v) [49;31;21;15;11;9;7;6;5;4;3;2;1] 0.

(** A value written to the backend selected in [begin]. *)
Definition write (pwm : bool) (v : Z) : hw_event :=
  if pwm then PulseWidth v else DacWrite v.

(** The 16-bit path: centre offset plus the sample divided by the divisor
    scaled by 128 (pulse) or 16 (converter), then the pacing delay. *)
Definition expected16 (pwm : bool) (t v : Z) (samples : list Z) : list hw_event :=
  flat_map (fun s =>
    [ (if pwm then PulseWidth (128 + s / (divisor v * 128))
       else DacWrite (2048 + s / (divisor v * 16)));
      Udelay t ]) samples.

(** The 8-bit path: the sample divided by the divisor, no centre offset. *)
Definition expected8 (pwm : bool) (t v : Z) (samples : list Z) : list hw_event :=
  flat_map (fun s => [write pwm (s / divisor v); Udelay t]) samples.

(** The output of the first [m] chunks, each with the volume level of its
    own snapshot. *)
Definition expected_output
    (render : Z -> list Z -> list hw_event) (decode : list byte -> list Z)
    (sch : schedule) (s : control) (f : Wave.Wave_read) (b : Z) (m : nat)
  : list hw_event :=
  flat_map (fun j => render (fst (at_snapshot sch s j)) (decode (chunk f b j)))
           (seq 0 m).

(** The file operations of chunk [j]: one read of [b] frames made with the
    cursor at [chunk_start j] that returns the chunk, and the re-seek to
    [position j]. *)
Definition chunk_ops (f : Wave.Wave_read) (b : Z) (j : nat) : list file_op :=
  [ReadFrames (chunk_start f b j) b (chunk f b j); SetPos (position b j)].

(** The file operations of the first [m] chunks. *)
Definition expected_reads (f : Wave.Wave_read) (b : Z) (m : nat) : list file_op :=
  flat_map (chunk_ops f b) (seq 0 m).

(** How many stop tests a loop entered with [s] passes on a file of
    [total] frames. *)
Definition streamed (sch : schedule) (s : control) (b total : Z) : nat :=
  streamed_from sch s 0 (chunk_count b total).

(** How many of the chunks [k], ..., [k+n-1] reach the output: a chunk
    that is not full is written as far as it goes and is the last one. *)
Fixpoint written_from (sch : schedule) (s : control) (f : Wave.Wave_read)
    (b : Z) (k n : nat) : nat :=
  match n with
  | O => O
  | S n' =>
      if snd (at_test sch s k) then O
      else if full f b k then S (written_from sch s f b (S k) n')
      else 1%nat
  end.

(** Whether the loop over the chunks [k], ..., [k+n-1] returns: it raises
    [IndexError] on a chunk that is not full. *)
Fixpoint completes_from (sch : schedule) (s : control) (f : Wave.Wave_read)
    (b : Z) (k n : nat) : bool :=
  match n with
  | O => true
  | S n' =>
      if snd (at_test sch s k) then true
      else if full f b k then completes_from sch s f b (S k) n'
      else false
  end.

Definition written (sch : schedule) (s : control) (f : Wave.Wave_read) (b : Z) : nat :=
  written_from sch s f b 0 (chunk_count b (Wave.nframes f)).

Definition completes (sch : schedule) (s : control) (f : Wave.Wave_read) (b : Z) : bool :=
  completes_from sch s f b 0 (chunk_count b (Wave.nframes f)).

(** The outcome of a streaming method: it returns, or raises [IndexError]. *)
Definition finish (ok : bool) (w : World) : outcome unit :=
  if ok then Return tt w else Raise Py.IndexError w.

(** The world after the events [l] have been handed to the peripherals. *)
Definition wrote (l : list hw_event) (w : World) : World :=
  mkWorld (self w) (hw w ++ l) (io w).

(** The output writes of a log, without the delays. *)
Definition is_write (e : hw_event) : bool :=
  match e with
  | DacWrite _ | PulseWidth _ => true
  | DacWriteTimed _ _ | Udelay _ => false
  end.

Definition writes (l : list hw_event) : list hw_event := filter is_write l.

(** A player on which [begin] has succeeded, in non-loop mode: [f] is its
    open file, with the cursor anywhere in it, [b] its buffer size, and
    [pwm] tells which backend [begin] configured. *)
Record ready_to_stream (f : Wave.Wave_read) (b : Z) (pwm : bool) (w : World) : Prop := {
  rs_ready : ready (self w) = true;
  rs_loop : loop (self w) = false;
  rs_buffersize : buffersize (self w) = b;
  rs_positive : 0 < b;
  rs_volumes : volumes (self w) = [49;31;21;15;11;9;7;6;5;4;3;2;1];
  rs_volume : 0 <= volume (self w) <= 12;
  rs_audiofile : audiofile (self w) = Some f;
  rs_cursor : 0 <= Wave.soundpos f <= Wave.nframes f;
  rs_well_formed : Wave.well_formed f;
  rs_total_frames : total_frames (self w) = Some (Wave.nframes f);
  rs_framerate : framerate (self w) = Some (Wave.framerate f);
  rs_rate : Wave.framerate f <> 0;
  rs_adatawidth : adatawidth (self w) = if Wave.sampwidth f >? 1 then 12 else 8;
  rs_pwm_out : Py.truthy (pwm_out (self w)) = pwm;
  rs_dac : pwm = false -> dac (self w) <> None
}.

(** The same player inside a streaming loop: the period is set and the
    cursor is at frame [c]. *)
Record streaming (f : Wave.Wave_read) (b : Z) (pwm : bool) (t : Z)
    (s : control) (c : Z) (w : World) : Prop := {
  st_ready : ready (self w) = true;
  st_loop : loop (self w) = false;
  st_buffersize : buffersize (self w) = b;
  st_volumes : volumes (self w) = [49;31;21;15;11;9;7;6;5;4;3;2;1];
  st_control : control_of (self w) = s;
  st_audiofile : audiofile (self w) = Some (Wave.at_pos f c);
  st_period : period (self w) = Some t;
  st_pwm_out : Py.truthy (pwm_out (self w)) = pwm;
  st_dac : pwm = false -> dac (self w) <> None
}.

(** The schedule that reaches the streaming loop started by [play]: the
    caller's calls when the loop runs in a thread of its own, none when it
    runs in the caller's context. *)
Definition effective (w : World) (sch : schedule) : schedule :=
  if threading (self w) then sch else alone.

(** What [play] hands to the backend in non-loop mode: the path is chosen
    by the sample width, as [begin] derived it. *)
Definition expected_play (pace : Z -> Z -> Z) (pwm : bool) (sch : schedule)
    (s : control) (f : Wave.Wave_read) (b : Z) (m : nat) : list hw_event :=
  if Wave.sampwidth f >? 1 then
    expected_output (expected16 pwm (pace (Wave.framerate f) 95)) Py.array_h
      sch s f b m
  else
    expected_output (expected8 pwm (pace (Wave.framerate f) 90)) Py.array_B
      sch s f b m.

(** [n] calls of a method in a row. *)
Fixpoint times (n : nat) (m : M unit) : M unit :=
  match n with
  | O => ret tt
  | S n' => m ;; times n' m
  end.

(** ** Sample sessions *)

Module Demo.

(** A pacing function to run the model with: the period in microseconds
    computed in exact arithmetic and truncated. *)
Definition pace (rate factor : Z) : Z := 1000000 * factor / (rate * 100).

Definition pclk1 : Z := 42000000.

Definition ramp (n : nat) : list byte :=
  flat_map (fun _ => [x00; x40; x80; xff]) (seq 0 n).

(** An 8-bit file of 5000 frames: two full chunks of 2048 and 904 more. *)
Definition tone8 : Wave.Wave_read := Wave.mk 1 8000 5000 (ramp 1250) 0.

(** A 16-bit file of 5000 frames. *)
Definition tone16 : Wave.Wave_read := Wave.mk 2 11025 5000 (ramp 2500) 0.

(** An 8-bit file of exactly two chunks of 2048 frames. *)
Definition pair8 : Wave.Wave_read := Wave.mk 1 8000 4096 (ramp 1024) 0.

(** An 8-bit file shorter than one chunk. *)
Definition short8 : Wave.Wave_read := Wave.mk 1 8000 1000 (ramp 250) 0.

(** Every file of this flash is a WAVE file: a name [wave.open] cannot
    open is a name that is not there. *)
Definition open_error (name : string) : Py.exn := Py.OSError.

Definition disk (name : string) : option Wave.Wave_read :=
  if String.eqb name "tone8.wav" then Some tone8
  else if String.eqb name "tone16.wav" then Some tone16
  else if String.eqb name "pair8.wav" then Some pair8
  else if String.eqb name "short8.wav" then Some short8
  else None.

(** The world after [AUDIO_PLAYER(name, pwm, loop, thread)] and [begin()]. *)
Definition started (name : string) (pwm lp thread : bool) : World :=
  world_of (begin pclk1 disk open_error (boot (AUDIO_PLAYER name pwm lp thread))).

(** The same player on the 8-bit file of 5000 frames after a first
    [play()] in the caller's context. *)
Definition played8 : World :=
  world_of (play pace alone (started "tone8.wav" true false false)).

(** The caller turns the volume up while the first chunk is read and
    calls [stop()] while the first chunk is written. *)
Definition stop_after_first : schedule :=
  mkSchedule (fun k => if Nat.eqb k 1 then [Stop] else [])
             (fun k => if Nat.eqb k 0 then [VolumeUp] else []).

End Demo.

(** ** Reading the output log *)

(** The values a log puts in the output registers, in order. *)
Definition values (l : list hw_event) : list Z :=
  flat_map (fun e => match e with
                     | DacWrite v | PulseWidth v => [v]
                     | DacWriteTimed _ _ | Udelay _ => []
                     end) l.

(** The delays of a log, in order. *)
Definition delays (l : list hw_event) : list Z :=
  flat_map (fun e => match e with
                     | Udelay t => [t]
                     | DacWrite _ | PulseWidth _ | DacWriteTimed _ _ => []
                     end) l.

(** A higher level moves a value away from the centre [c], or leaves it. *)
Definition not_quieter (c : Z) (low high : Z) : Prop :=
  (c <= low -> low <= high) /\ (low < c -> high <= low).

(** ** What the streaming leaves alone *)

(** The player without what a playback moves: the level and the stop flag,
    the buffer, the period, the thread handle and the cursor of the open
    file.  What is left is what the constructor and [begin] have set. *)
Definition settings (p : Player) : Player :=
  with_audiofile (option_map (fun f => Wave.at_pos f 0) (audiofile p))
    (with_framedata None (with_period None (with_pthread None
      (with_fstop false (with_volume 0 p))))).

(** A method that leaves the settings as it finds them, whether it returns
    or raises. *)
Definition keeps {A : Type} (m : M A) : Prop :=
  forall w, settings (self (world_of (m w))) = settings (self w).

(** ** More sample sessions *)

Module Bench.

(** An 8-bit file whose header gives a sample rate of 0. *)
Definition still8 : Wave.Wave_read := Wave.mk 1 0 5000 (Demo.ramp 1250) 0.

(** A 16-bit file at 7600 Hz, and 8-bit files at 28125 Hz and 15000 Hz,
    of 2100 frames each: one chunk of 2048 and 52 more. *)
Definition slow16 : Wave.Wave_read := Wave.mk 2 7600 2100 (Demo.ramp 1050) 0.
Definition fast8 : Wave.Wave_read := Wave.mk 1 28125 2100 (Demo.ramp 525) 0.
Definition mid8 : Wave.Wave_read := Wave.mk 1 15000 2100 (Demo.ramp 525) 0.

Definition disk (name : string) : option Wave.Wave_read :=
  if String.eqb name "still8.wav" then Some still8
  else if String.eqb name "slow16.wav" then Some slow16
  else if String.eqb name "fast8.wav" then Some fast8
  else if String.eqb name "mid8.wav" then Some mid8
  else Demo.disk name.

(** This flash also holds [notes.txt], which is not a WAVE file. *)
Definition open_error (name : string) : Py.exn :=
  if String.eqb name "notes.txt" then Py.WaveError else Py.OSError.

Definition started (name : string) (pwm lp thread : bool) : World :=
  world_of (begin Demo.pclk1 disk open_error (boot (AUDIO_PLAYER name pwm lp thread))).

(** The world in which [play] enters a streaming method: [begin] has
    succeeded and [play] has cleared the stop flag. *)
Definition entered (name : string) (pwm thread : bool) : World :=
  world_of (assign (with_fstop false) (Demo.started name pwm false thread)).

(** The caller sets the level to 12 before the first stop test. *)
Definition loudest : schedule :=
  mkSchedule (fun k => if Nat.eqb k 0 then [SetVolume 12] else [])
             (fun _ => []).

End Bench.

(** * Proofs *)

(** ** The controls *)

Lemma after_call_range (c : command) (s : control) :
  0 <= fst s <= 12 -> 0 <= fst (after_call c s) <= 12.
Proof.
  intros H. destruct c; cbn; try assumption.
  - destruct (Z.ltb_spec (fst s) 12); lia.
  - destruct (Z.gtb_spec (fst s) 0); lia.
  - destruct (Z.leb_spec 0 v), (Z.leb_spec v 12); cbn; lia.
Qed.

Lemma after_calls_range (cs : list command) (s : control) :
  0 <= fst s <= 12 -> 0 <= fst (after_calls cs s) <= 12.
Proof.
  revert s. induction cs as [|c cs IH]; intros s H; cbn.
  - assumption.
  - apply IH, after_call_range, H.
Qed.

Lemma at_test_range (sch : schedule) (s : control) (k : nat) :
  0 <= fst s <= 12 -> 0 <= fst (at_test sch s k) <= 12.
Proof.
  intros H. induction k as [|k IH]; cbn.
  - apply after_calls_range, H.
  - apply after_calls_range, after_calls_range, IH.
Qed.

Lemma at_snapshot_range (sch : schedule) (s : control) (k : nat) :
  0 <= fst s <= 12 -> 0 <= fst (at_snapshot sch s k) <= 12.
Proof.
  intros H. apply after_calls_range, at_test_range, H.
Qed.

Lemma at_test_entry (sch : schedule) (s : control) (k : nat) :
  at_test sch s k = after_calls (before_test sch k) (at_entry sch s k).
Proof. destruct k; reflexivity. Qed.

(** A call of the other context changes nothing but the volume level and
    the stop flag, and changes them as [after_call] says. *)
Lemma call_streaming f b pwm t s c (cmd : command) (w : World) :
  streaming f b pwm t s c w ->
  streaming f b pwm t (after_call cmd s) c (world_of (call cmd w)) /\
  hw (world_of (call cmd w)) = hw w /\ io (world_of (call cmd w)) = io w.
Proof.
  intros [Hr Hl Hb Hv Hc Ha Hp Ho Hd].
  destruct w as [p h l]. cbn in *.
  unfold control_of in Hc. subst s.
  destruct cmd; cbn.
  - unfold stop, bind, attr, assign. cbn. rewrite Hr. cbn. rewrite Hl. cbn.
    repeat split; cbn; auto.
  - unfold volume_up, bind, attr, assign. cbn.
    destruct (volume p <? 12); cbn; repeat split; cbn; auto.
  - unfold volume_down, bind, attr, assign. cbn.
    destruct (volume p >? 0); cbn; repeat split; cbn; auto.
  - unfold set_volume, assign, ret.
    destruct ((0 <=? v) && (v <=? 12)); cbn; repeat split; cbn; auto.
Qed.

Lemma interleave_streaming f b pwm t s c (cs : list command) (w : World) :
  streaming f b pwm t s c w ->
  exists w', interleave cs w = Return tt w' /\
    streaming f b pwm t (after_calls cs s) c w' /\
    hw w' = hw w /\ io w' = io w.
Proof.
  unfold interleave. intros H. eexists. split; [reflexivity|].
  revert s w H. induction cs as [|cmd cs IH]; intros s w H; cbn.
  - auto.
  - destruct (call_streaming f b pwm t s c cmd w H) as (H1 & H2 & H3).
    destruct (IH _ _ H1) as (H4 & H5 & H6).
    split; [exact H4|]. split; congruence.
Qed.

(** ** Lists, ranges and chunks *)

Lemma skipn_cons_nth_error {A : Type} (l : list A) (i : nat) :
  (i < length l)%nat ->
  exists x, nth_error l i = Some x /\ skipn i l = x :: skipn (S i) l.
Proof.
  revert i. induction l as [|a l IH]; intros i H; cbn in H.
  - lia.
  - destruct i as [|i].
    + exists a. split; reflexivity.
    + destruct (IH i) as (x & H1 & H2); [lia|].
      exists x. split; [exact H1|exact H2].
Qed.

Lemma index_of_nat {A : Type} (l : list A) (i : nat) :
  Py.index l (Z.of_nat i) = nth_error l i.
Proof.
  unfold Py.index.
  destruct (Z.leb_spec 0 (Z.of_nat i)); [|lia].
  now rewrite Nat2Z.id.
Qed.

Lemma range_from_zero (m : Z) :
  0 < m -> Py.range 0 m 1 = Some (map Z.of_nat (seq 0 (Z.to_nat m))).
Proof.
  intros H. unfold Py.range, Py.range_len. cbn [Z.eqb Z.ltb Z.compare].
  destruct (Z.ltb_spec 0 m); [|lia].
  rewrite Z.div_1_r. replace (m - 0 - 1 + 1) with m by lia.
  f_equal. apply map_ext. intros k. lia.
Qed.

Lemma range_positions (b total : Z) :
  0 < b ->
  Py.range b total b = Some (map (position b) (seq 0 (chunk_count b total))).
Proof.
  intros H. unfold Py.range.
  destruct (Z.eqb_spec b 0); [lia|]. reflexivity.
Qed.

(** Every position visited is strictly below the total. *)
Lemma position_below (b total : Z) (j : nat) :
  0 < b -> (j < chunk_count b total)%nat -> position b j < total.
Proof.
  unfold chunk_count, Py.range_len, position. intros Hb Hj.
  destruct (Z.ltb_spec 0 b); [|lia].
  destruct (Z.ltb_spec b total); [|cbn in Hj; lia].
  assert (Hq : Z.of_nat j <= (total - b - 1) / b) by lia.
  assert (Hm : b * ((total - b - 1) / b) <= total - b - 1)
    by (apply Z.mul_div_le; lia).
  nia.
Qed.

(** For a positive total the loop visits [(total - 1) / b] positions. *)
Lemma chunk_count_eq (b total : Z) :
  0 < b -> 0 < total -> Z.of_nat (chunk_count b total) = (total - 1) / b.
Proof.
  unfold chunk_count, Py.range_len. intros Hb Ht.
  destruct (Z.ltb_spec 0 b); [|lia].
  destruct (Z.ltb_spec b total).
  - replace (total - 1) with ((total - b - 1) + 1 * b) by lia.
    rewrite Z.div_add by lia.
    assert (0 <= (total - b - 1) / b) by (apply Z.div_pos; lia). lia.
  - cbn. symmetry. apply Z.div_small. lia.
Qed.

Lemma chunk_count_short (b total : Z) :
  0 < b -> total <= b -> chunk_count b total = O.
Proof.
  unfold chunk_count, Py.range_len. intros Hb H.
  destruct (Z.ltb_spec 0 b); [|lia].
  destruct (Z.ltb_spec b total); [lia|reflexivity].
Qed.

Lemma length_array_B (l : list byte) : length (Py.array_B l) = length l.
Proof. apply length_map. Qed.

Lemma length_array_h (n : nat) (l : list byte) :
  length l = (2 * n)%nat -> length (Py.array_h l) = n.
Proof.
  revert l. induction n as [|n IH]; intros l H.
  - destruct l; [reflexivity|discriminate].
  - destruct l as [|lo [|hi l]]; cbn in H; try lia.
    cbn [Py.array_h length]. f_equal. apply IH. lia.
Qed.

(** The frames [c, c + n) of a file are [n] frames, or the frames the file
    has from [c] on when it has fewer. *)
Lemma length_frames (f : Wave.Wave_read) (c n : Z) :
  Wave.well_formed f -> 0 <= c <= Wave.nframes f -> 0 <= n ->
  Z.of_nat (length (Wave.frames f c (c + n))) =
    Z.min n (Wave.nframes f - c) * Wave.sampwidth f.
Proof.
  intros (Hs & Hn & Hd) Hc Hlen. unfold Wave.frames.
  rewrite length_firstn, length_skipn. nia.
Qed.

(** Reading [n] frames with the cursor at [c] returns the frames
    [c, c + n) that exist and leaves the cursor after them. *)
Lemma readframes_at (f : Wave.Wave_read) (c n : Z) :
  Wave.well_formed f -> 0 <= c <= Wave.nframes f -> 0 <= n ->
  Wave.readframes (Wave.at_pos f c) n =
    (Wave.frames f c (c + n),
     Wave.at_pos f (c + Z.min n (Wave.nframes f - c))).
Proof.
  intros Hwf Hc Hn.
  pose proof (length_frames f c n Hwf Hc Hn) as Hlen.
  destruct Hwf as (Hs & _ & _).
  unfold Wave.readframes, Wave.frames in *.
  cbn [Wave.at_pos Wave.soundpos Wave.sampwidth Wave.data].
  destruct (Z.ltb_spec n 0); [lia|].
  replace (c + n - c) with n in * by lia.
  rewrite Hlen, Z.div_mul by lia. reflexivity.
Qed.

(** ** The inner loops *)

Lemma wrote_nil (w : World) : wrote [] w = w.
Proof. destruct w. unfold wrote. cbn. now rewrite app_nil_r. Qed.

Lemma wrote_wrote (l l' : list hw_event) (w : World) :
  wrote l' (wrote l w) = wrote (l ++ l') w.
Proof. unfold wrote. cbn. now rewrite app_assoc. Qed.

Lemma emit_wrote (e : hw_event) (w : World) :
  emit e w = Return tt (wrote [e] w).
Proof. reflexivity. Qed.

Section InnerLoops.

Variables (pwm : bool) (t : Z) (buf : list Z) (vol : Z).
Hypothesis vol_nonzero : vol <> 0.

Let configured (w : World) : Prop :=
  period (self w) = Some t /\ Py.truthy (pwm_out (self w)) = pwm /\
  (pwm = false -> dac (self w) <> None).

(** The inner loop of [_play8] over the indices [i, i + n): it writes the
    samples that exist, in order, and raises [IndexError] at the first
    index past the end of the buffer. *)
Lemma _play8_samples_run (n i : nat) (w : World) :
  configured w -> (i <= length buf)%nat ->
  _play8_samples (map Z.of_nat (seq i n)) buf vol w =
    finish (i + n <=? length buf)%nat
      (wrote (flat_map (fun s => [write pwm (s / vol); Udelay t])
                       (firstn n (skipn i buf))) w).
Proof.
  revert i w. induction n as [|n IH]; intros i w Hw Hlen.
  - rewrite Nat.add_0_r, (proj2 (Nat.leb_le _ _) Hlen).
    cbn. unfold ret. now rewrite wrote_nil.
  - destruct Hw as (Hp & Ho & Hd).
    cbn [seq map _play8_samples]. unfold bind at 1.
    rewrite index_of_nat.
    destruct (Nat.eq_dec i (length buf)) as [Hend|Hin].
    + rewrite (proj2 (nth_error_None buf i)) by lia. cbn [lift].
      rewrite skipn_all2 by lia.
      rewrite (proj2 (Nat.leb_gt _ _)) by lia.
      cbn. unfold raise. now rewrite wrote_nil.
    + destruct (skipn_cons_nth_error buf i ltac:(lia)) as (x & Hx & Hs).
      rewrite Hx. cbn [lift]. unfold ret at 1. unfold bind at 1.
      unfold Py.floordiv. destruct (Z.eqb_spec vol 0) as [|_]; [contradiction|].
      cbn [lift]. unfold ret at 1. unfold bind at 1, attr at 1. unfold bind at 1.
      rewrite Hs. cbn [firstn flat_map app].
      replace (i + S n)%nat with (S i + n)%nat by lia.
      assert (Hstep : forall w', configured w' ->
                (t0 <- deref Py.AttributeError period ;;
                 custom_delay t0 ;;
                 _play8_samples (map Z.of_nat (seq (S i) n)) buf vol) w' =
                finish (S i + n <=? length buf)%nat (wrote (Udelay t ::
                  flat_map (fun s => [write pwm (s / vol); Udelay t])
                           (firstn n (skipn (S i) buf))) w')).
      { intros w' Hw'. destruct Hw' as (Hp' & Ho' & Hd').
        unfold bind at 1, deref at 1. rewrite Hp'.
        unfold bind at 1, custom_delay. rewrite emit_wrote.
        rewrite IH by (try lia; repeat split; assumption).
        rewrite wrote_wrote. reflexivity. }
      destruct pwm eqn:Epwm.
      * rewrite Ho. unfold pwm_out_pulse_width, bind at 1, deref at 1.
        destruct (pwm_out (self w)) eqn:Eout; [|discriminate].
        rewrite emit_wrote.
        rewrite Hstep by (try split; try split; cbn; try rewrite Eout; auto).
        rewrite wrote_wrote. reflexivity.
      * rewrite Ho. unfold dac_write, bind at 1, deref at 1.
        destruct (dac (self w)) eqn:Edac; [|exfalso; now apply Hd].
        rewrite emit_wrote.
        rewrite Hstep by (try split; try split; cbn; try rewrite Edac; auto; discriminate).
        rewrite wrote_wrote. reflexivity.
Qed.

(** The inner loop of [_play16], likewise. *)
Lemma _play16_samples_run (n i : nat) (w : World) :
  configured w -> (i <= length buf)%nat ->
  _play16_samples (map Z.of_nat (seq i n)) buf vol w =
    finish (i + n <=? length buf)%nat
      (wrote (flat_map (fun s =>
                [ (if pwm then PulseWidth (128 + s / vol)
                   else DacWrite (2048 + s / vol));
                  Udelay t ])
                (firstn n (skipn i buf))) w).
Proof.
  revert i w. induction n as [|n IH]; intros i w Hw Hlen.
  - rewrite Nat.add_0_r, (proj2 (Nat.leb_le _ _) Hlen).
    cbn. unfold ret. now rewrite wrote_nil.
  - destruct Hw as (Hp & Ho & Hd).
    cbn [seq map _play16_samples]. unfold bind at 1, attr at 1.
    rewrite Ho. unfold bind at 1.
    destruct (Nat.eq_dec i (length buf)) as [Hend|Hin].
    + rewrite skipn_all2 by lia.
      rewrite (proj2 (Nat.leb_gt _ _)) by lia.
      cbn [firstn flat_map finish]. rewrite wrote_nil.
      destruct pwm; unfold bind at 1; rewrite index_of_nat;
        rewrite (proj2 (nth_error_None buf i)) by lia; reflexivity.
    + destruct (skipn_cons_nth_error buf i ltac:(lia)) as (x & Hx & Hs).
      rewrite Hs. cbn [firstn flat_map app].
      replace (i + S n)%nat with (S i + n)%nat by lia.
      assert (Hstep : forall w', configured w' ->
                (t0 <- deref Py.AttributeError period ;;
                 custom_delay t0 ;;
                 _play16_samples (map Z.of_nat (seq (S i) n)) buf vol) w' =
                finish (S i + n <=? length buf)%nat (wrote (Udelay t ::
                  flat_map (fun s =>
                              [ (if pwm then PulseWidth (128 + s / vol)
                                 else DacWrite (2048 + s / vol));
                                Udelay t ])
                           (firstn n (skipn (S i) buf))) w')).
      { intros w' Hw'. destruct Hw' as (Hp' & Ho' & Hd').
        unfold bind at 1, deref at 1. rewrite Hp'.
        unfold bind at 1, custom_delay. rewrite emit_wrote.
        rewrite IH by (try lia; repeat split; assumption).
        rewrite wrote_wrote. reflexivity. }
      destruct pwm eqn:Epwm.
      * unfold bind at 1. rewrite index_of_nat, Hx. cbn [lift].
        unfold ret at 1. unfold bind at 1, Py.floordiv.
        destruct (Z.eqb_spec vol 0) as [|_]; [contradiction|].
        cbn [lift]. unfold ret at 1.
        unfold pwm_out_pulse_width, bind at 1, deref at 1.
        destruct (pwm_out (self w)) eqn:Eout; [|discriminate].
        rewrite emit_wrote.
        rewrite Hstep by (try split; try split; cbn; try rewrite Eout; auto).
        rewrite wrote_wrote. reflexivity.
      * unfold bind at 1. rewrite index_of_nat, Hx. cbn [lift].
        unfold ret at 1. unfold bind at 1, Py.floordiv.
        destruct (Z.eqb_spec vol 0) as [|_]; [contradiction|].
        cbn [lift]. unfold ret at 1.
        unfold dac_write, bind at 1, deref at 1.
        destruct (dac (self w)) eqn:Edac; [|exfalso; now apply Hd].
        rewrite emit_wrote.
        rewrite Hstep by (try split; try split; cbn; try rewrite Edac; auto; discriminate).
        rewrite wrote_wrote. reflexivity.
Qed.

End InnerLoops.

(** ** The steps of one chunk *)

Lemma index_volumes (v : Z) :
  0 <= v <= 12 ->
  Py.index [49;31;21;15;11;9;7;6;5;4;3;2;1] v = Some (divisor v) /\ 0 < divisor v.
Proof.
  intros H.
  assert (Hv : In v [0;1;2;3;4;5;6;7;8;9;10;11;12]) by (cbn; lia).
  cbn in Hv.
  repeat (destruct Hv as [<-|Hv]; [split; [reflexivity|reflexivity]|]).
  contradiction.
Qed.

Section Steps.

Variables (f : Wave.Wave_read) (b : Z) (pwm : bool) (t : Z).
Hypothesis file_ok : Wave.well_formed f.

Lemma streaming_wrote s c (l : list hw_event) (w : World) :
  streaming f b pwm t s c w -> streaming f b pwm t s c (wrote l w).
Proof. intros []. split; assumption. Qed.

Lemma audiofile_readframes_streaming s c (n : Z) (w : World) :
  streaming f b pwm t s c w ->
  0 <= c <= Wave.nframes f -> 0 <= n ->
  exists w',
    audiofile_readframes n w = Return (Wave.frames f c (c + n)) w' /\
    streaming f b pwm t s (c + Z.min n (Wave.nframes f - c)) w' /\
    hw w' = hw w /\
    io w' = io w ++ [ReadFrames c n (Wave.frames f c (c + n))].
Proof.
  intros [Hr Hl Hb Hv Hc Ha Hp Ho Hd] H0 H1.
  unfold audiofile_readframes, bind, deref, assign, log, ret.
  rewrite Ha, readframes_at by assumption.
  cbn [fst snd self hw io Wave.at_pos Wave.soundpos].
  eexists. split; [reflexivity|].
  split; [split; cbn; first [assumption | reflexivity]|]. split; reflexivity.
Qed.

Lemma assign_framedata_streaming s c (x : option (list byte)) (w : World) :
  streaming f b pwm t s c w ->
  exists w', assign (with_framedata x) w = Return tt w' /\
    streaming f b pwm t s c w' /\ hw w' = hw w /\ io w' = io w.
Proof.
  intros []. unfold assign. eexists. split; [reflexivity|].
  split; [split; cbn; first [assumption | reflexivity]|]. split; reflexivity.
Qed.

Lemma audiofile_setpos_streaming s c (p : Z) (w : World) :
  streaming f b pwm t s c w -> 0 <= p <= Wave.nframes f ->
  exists w', audiofile_setpos p w = Return tt w' /\
    streaming f b pwm t s p w' /\
    hw w' = hw w /\ io w' = io w ++ [SetPos p].
Proof.
  intros [Hr Hl Hb Hv Hc Ha Hp Ho Hd] H0.
  unfold audiofile_setpos, bind, deref, assign, log, ret.
  rewrite Ha. unfold Wave.setpos. cbn [Wave.at_pos Wave.nframes].
  destruct (Z.ltb_spec p 0); [lia|].
  destruct (Z.ltb_spec (Wave.nframes f) p); [lia|].
  cbn [orb lift ret self hw io].
  eexists. split; [reflexivity|].
  split; [split; cbn; first [assumption | reflexivity]|]. split; reflexivity.
Qed.

Lemma streaming_fstop s c (w : World) :
  streaming f b pwm t s c w -> fstop (self w) = snd s.
Proof. intros [_ _ _ _ Hc _ _ _ _]. now rewrite <- Hc. Qed.

Lemma streaming_volume s c (w : World) :
  streaming f b pwm t s c w -> volume (self w) = fst s.
Proof. intros [_ _ _ _ Hc _ _ _ _]. now rewrite <- Hc. Qed.

Lemma streaming_configured s c (w : World) :
  streaming f b pwm t s c w ->
  period (self w) = Some t /\ Py.truthy (pwm_out (self w)) = pwm /\
  (pwm = false -> dac (self w) <> None).
Proof. intros []. auto. Qed.

End Steps.

(** ** The outer loops *)

Lemma position_succ (b : Z) (k : nat) : position b (S k) - b = position b k.
Proof. unfold position. lia. Qed.

Lemma chunk_start_succ (f : Wave.Wave_read) (b : Z) (k : nat) :
  chunk_start f b (S k) = position b k.
Proof. apply position_succ. Qed.

(** Every chunk but the first is full. *)
Lemma full_succ (f : Wave.Wave_read) (b : Z) (k : nat) :
  position b (S k) <= Wave.nframes f -> full f b (S k) = true.
Proof.
  intros H. unfold full. cbn [chunk_start].
  apply Z.leb_le. lia.
Qed.

(** The first chunk is full when the cursor is on the first frame. *)
Lemma full_first (f : Wave.Wave_read) (b : Z) :
  Wave.soundpos f = 0 -> position b 0 <= Wave.nframes f -> full f b 0 = true.
Proof.
  intros Hc H. unfold full. cbn [chunk_start]. rewrite Hc.
  apply Z.leb_le. unfold position in H. lia.
Qed.

Lemma chunk_start_aligned (f : Wave.Wave_read) (b : Z) (k : nat) :
  Wave.soundpos f = 0 -> chunk_start f b k = position b k - b.
Proof.
  intros Hc. destruct k; [|reflexivity].
  cbn [chunk_start]. unfold position. lia.
Qed.

Section OuterLoops.

Variables (f : Wave.Wave_read) (b : Z) (pwm : bool) (t : Z).
Variables (sch : schedule) (s0 : control).
Hypothesis file_ok : Wave.well_formed f.
Hypothesis cursor_ok : 0 <= Wave.soundpos f <= Wave.nframes f.
Hypothesis b_positive : 0 < b.
Hypothesis level_ok : 0 <= fst s0 <= 12.

Lemma chunk_start_range (k : nat) :
  position b k <= Wave.nframes f -> 0 <= chunk_start f b k <= Wave.nframes f.
Proof.
  intros H. destruct k; cbn [chunk_start]; [assumption|].
  unfold position in *. nia.
Qed.

Lemma chunk_frames (k : nat) :
  position b k <= Wave.nframes f ->
  Z.of_nat (length (chunk f b k)) =
    Z.min b (Wave.nframes f - chunk_start f b k) * Wave.sampwidth f.
Proof.
  intros H. unfold chunk.
  apply length_frames; [assumption|now apply chunk_start_range|lia].
Qed.

(** The stop test, the read and the re-seek of iteration [k], up to the
    volume snapshot. *)
Lemma chunk_prologue (k : nat) (w : World) :
  streaming f b pwm t (at_entry sch s0 k) (chunk_start f b k) w ->
  position b k <= Wave.nframes f ->
  snd (at_test sch s0 k) = false ->
  exists w1 w2 w3 w4,
    interleave (before_test sch k) w = Return tt w1 /\
    fstop (self w1) = false /\ buffersize (self w1) = b /\
    audiofile_readframes b w1 = Return (chunk f b k) w2 /\
    assign (with_framedata (Some (chunk f b k))) w2 = Return tt w3 /\
    audiofile_setpos (position b k) w3 = Return tt w4 /\
    streaming f b pwm t (at_test sch s0 k) (position b k) w4 /\
    hw w4 = hw w /\
    io w4 = io w ++ chunk_ops f b k.
Proof.
  intros Hw Hpos Hgo.
  pose proof (chunk_start_range k Hpos) as Hc.
  assert (Hp : 0 <= position b k) by (unfold position; nia).
  destruct (interleave_streaming _ _ _ _ _ _ (before_test sch k) w Hw)
    as (w1 & E1 & S1 & H1 & I1).
  rewrite <- at_test_entry in S1.
  destruct (audiofile_readframes_streaming f b pwm t file_ok _ _ b w1 S1)
    as (w2 & E2 & S2 & H2 & I2); try lia.
  destruct (assign_framedata_streaming f b pwm t _ _
              (Some (chunk f b k)) w2 S2) as (w3 & E3 & S3 & H3 & I3).
  destruct (audiofile_setpos_streaming f b pwm t _ _ (position b k) w3 S3)
    as (w4 & E4 & S4 & H4 & I4); try lia.
  exists w1, w2, w3, w4.
  split; [exact E1|].
  split; [rewrite (streaming_fstop _ _ _ _ _ _ _ S1); exact Hgo|].
  split; [exact (st_buffersize _ _ _ _ _ _ _ S1)|].
  split; [exact E2|]. split; [exact E3|]. split; [exact E4|].
  split; [exact S4|]. split; [congruence|].
  rewrite I4, I3, I2, I1, <- app_assoc. reflexivity.
Qed.

(** The outer loop of [_play8] from iteration [k] on. *)
Lemma _play8_chunks_run (n k : nat) (w : World) :
  Wave.sampwidth f = 1 ->
  streaming f b pwm t (at_entry sch s0 k) (chunk_start f b k) w ->
  (forall j, (j < k + n)%nat -> position b j < Wave.nframes f) ->
  exists w',
    _play8_chunks sch k (map (position b) (seq k n)) w =
      finish (completes_from sch s0 f b k n) w' /\
    hw w' = hw w ++
      flat_map (fun j => expected8 pwm t (fst (at_snapshot sch s0 j))
                           (Py.array_B (chunk f b j)))
               (seq k (written_from sch s0 f b k n)) /\
    io w' = io w ++ flat_map (chunk_ops f b) (seq k (written_from sch s0 f b k n)).
Proof.
  intros Hsw. revert k w. induction n as [|n IH]; intros k w Hw Hpos.
  - exists w. cbn. now rewrite !app_nil_r.
  - cbn [seq map _play8_chunks written_from completes_from].
    destruct (snd (at_test sch s0 k)) eqn:Hgo.
    + destruct (interleave_streaming _ _ _ _ _ _ (before_test sch k) w Hw)
        as (w1 & E1 & S1 & H1 & I1).
      rewrite <- at_test_entry in S1.
      apply streaming_fstop in S1. rewrite Hgo in S1.
      unfold bind at 1. rewrite E1. unfold bind at 1, attr at 1.
      rewrite S1. exists w1. cbn. rewrite !app_nil_r. auto.
    + assert (Hk : position b k < Wave.nframes f) by (apply Hpos; lia).
      destruct (chunk_prologue k w Hw ltac:(lia) Hgo)
        as (w1 & w2 & w3 & w4 & E1 & F1 & B1 & E2 & E3 & E4 & S4 & H4 & I4).
      destruct (interleave_streaming _ _ _ _ _ _ (before_snapshot sch k) w4 S4)
        as (w5 & E5 & S5 & H5 & I5).
      fold (at_snapshot sch s0 k) in S5.
      pose proof (at_snapshot_range sch s0 k level_ok) as Hv.
      destruct (index_volumes _ Hv) as [Hdiv Hpos'].
      pose proof (chunk_frames k ltac:(lia)) as Hlen. rewrite Hsw in Hlen.
      pose proof (chunk_start_range k ltac:(lia)) as Hc.
      unfold bind at 1. rewrite E1. unfold bind at 1, attr at 1. rewrite F1.
      unfold bind at 1, attr at 1. rewrite B1.
      unfold bind at 1. rewrite E2. unfold bind at 1. rewrite E3.
      unfold bind at 1. rewrite E4. unfold bind at 1. rewrite E5.
      unfold bind at 1, attr at 1. unfold bind at 1, attr at 1.
      rewrite (streaming_volume _ _ _ _ _ _ _ S5).
      pose proof (st_volumes _ _ _ _ _ _ _ S5) as Hv5.
      pose proof (st_buffersize _ _ _ _ _ _ _ S5) as Hb5.
      rewrite Hv5, Hdiv. cbn [lift]. unfold bind at 1, ret at 1.
      unfold bind at 1, attr at 1. rewrite Hb5, range_from_zero by assumption.
      cbn [lift]. unfold bind at 1, ret at 1. unfold bind at 1.
      rewrite (_play8_samples_run pwm t);
        [ | lia | exact (streaming_configured _ _ _ _ _ _ _ S5) | lia ].
      cbn [skipn]. rewrite firstn_all2 by (rewrite length_array_B; lia).
      rewrite length_array_B. unfold full.
      destruct (Z.leb_spec (chunk_start f b k + b) (Wave.nframes f)) as [Hfull|Hshort].
      * rewrite (proj2 (Nat.leb_le _ _)) by lia. cbn [finish].
        match goal with
        | |- context [wrote ?l w5] =>
            destruct (IH (S k) (wrote l w5)) as (w' & E' & H' & I');
            [ apply streaming_wrote; rewrite chunk_start_succ; exact S5
            | intros j Hj; apply Hpos; lia | ]
        end.
        exists w'. split; [exact E'|].
        cbn [hw io wrote] in H', I'.
        cbn [seq flat_map]. split.
        -- rewrite H', H5, H4, <- app_assoc. reflexivity.
        -- rewrite I', I5, I4, <- app_assoc. reflexivity.
      * rewrite (proj2 (Nat.leb_gt _ _)) by lia. cbn [finish].
        eexists. split; [reflexivity|].
        cbn [hw io wrote seq flat_map]. rewrite !app_nil_r. split.
        -- rewrite H5, H4. reflexivity.
        -- rewrite I5, I4. reflexivity.
Qed.

(** The outer loop of [_play16] from iteration [k] on. *)
Lemma _play16_chunks_run (n k : nat) (w : World) :
  Wave.sampwidth f = 2 ->
  streaming f b pwm t (at_entry sch s0 k) (chunk_start f b k) w ->
  (forall j, (j < k + n)%nat -> position b j < Wave.nframes f) ->
  exists w',
    _play16_chunks sch k (map (position b) (seq k n)) w =
      finish (completes_from sch s0 f b k n) w' /\
    hw w' = hw w ++
      flat_map (fun j => expected16 pwm t (fst (at_snapshot sch s0 j))
                           (Py.array_h (chunk f b j)))
               (seq k (written_from sch s0 f b k n)) /\
    io w' = io w ++ flat_map (chunk_ops f b) (seq k (written_from sch s0 f b k n)).
Proof.
  intros Hsw. revert k w. induction n as [|n IH]; intros k w Hw Hpos.
  - exists w. cbn. now rewrite !app_nil_r.
  - cbn [seq map _play16_chunks written_from completes_from].
    destruct (snd (at_test sch s0 k)) eqn:Hgo.
    + destruct (interleave_streaming _ _ _ _ _ _ (before_test sch k) w Hw)
        as (w1 & E1 & S1 & H1 & I1).
      rewrite <- at_test_entry in S1.
      apply streaming_fstop in S1. rewrite Hgo in S1.
      unfold bind at 1. rewrite E1. unfold bind at 1, attr at 1.
      rewrite S1. exists w1. cbn. rewrite !app_nil_r. auto.
    + assert (Hk : position b k < Wave.nframes f) by (apply Hpos; lia).
      destruct (chunk_prologue k w Hw ltac:(lia) Hgo)
        as (w1 & w2 & w3 & w4 & E1 & F1 & B1 & E2 & E3 & E4 & S4 & H4 & I4).
      destruct (interleave_streaming _ _ _ _ _ _ (before_snapshot sch k) w4 S4)
        as (w5 & E5 & S5 & H5 & I5).
      fold (at_snapshot sch s0 k) in S5.
      pose proof (at_snapshot_range sch s0 k level_ok) as Hv.
      destruct (index_volumes _ Hv) as [Hdiv Hpos'].
      pose proof (chunk_frames k ltac:(lia)) as Hlen. rewrite Hsw in Hlen.
      pose proof (chunk_start_range k ltac:(lia)) as Hc.
      assert (Hbuf : length (Py.array_h (chunk f b k)) =
                     Z.to_nat (Z.min b (Wave.nframes f - chunk_start f b k)))
        by (apply length_array_h; lia).
      unfold bind at 1. rewrite E1. unfold bind at 1, attr at 1. rewrite F1.
      unfold bind at 1, attr at 1. rewrite B1.
      unfold bind at 1. rewrite E2. unfold bind at 1. rewrite E3.
      unfold bind at 1. rewrite E4. unfold bind at 1. rewrite E5.
      unfold bind at 1, attr at 1. unfold bind at 1, attr at 1.
      rewrite (streaming_volume _ _ _ _ _ _ _ S5).
      pose proof (st_volumes _ _ _ _ _ _ _ S5) as Hv5.
      pose proof (st_buffersize _ _ _ _ _ _ _ S5) as Hb5.
      pose proof (st_pwm_out _ _ _ _ _ _ _ S5) as Ho5.
      rewrite Hv5, Hdiv. cbn [lift]. unfold bind at 1, ret at 1.
      unfold bind at 1, attr at 1. rewrite Ho5.
      unfold bind at 1, attr at 1. rewrite Hb5, range_from_zero by assumption.
      cbn [lift]. unfold bind at 1, ret at 1. unfold bind at 1.
      rewrite (_play16_samples_run pwm t);
        [ | destruct pwm; lia | exact (streaming_configured _ _ _ _ _ _ _ S5) | lia ].
      cbn [skipn]. rewrite firstn_all2 by lia.
      rewrite Hbuf. unfold full.
      assert (Hrender :
        flat_map (fun s =>
          [ (if pwm
             then PulseWidth (128 + s / (divisor (fst (at_snapshot sch s0 k))
                                         * (if pwm then 128 else 16)))
             else DacWrite (2048 + s / (divisor (fst (at_snapshot sch s0 k))
                                        * (if pwm then 128 else 16))));
            Udelay t ]) (Py.array_h (chunk f b k)) =
        expected16 pwm t (fst (at_snapshot sch s0 k)) (Py.array_h (chunk f b k)))
        by (unfold expected16; destruct pwm; reflexivity).
      rewrite Hrender.
      destruct (Z.leb_spec (chunk_start f b k + b) (Wave.nframes f)) as [Hfull|Hshort].
      * rewrite (proj2 (Nat.leb_le _ _)) by lia. cbn [finish].
        match goal with
        | |- context [wrote ?l w5] =>
            destruct (IH (S k) (wrote l w5)) as (w' & E' & H' & I');
            [ apply streaming_wrote; rewrite chunk_start_succ; exact S5
            | intros j Hj; apply Hpos; lia | ]
        end.
        exists w'. split; [exact E'|].
        cbn [hw io wrote] in H', I'.
        cbn [seq flat_map]. split.
        -- rewrite H', H5, H4, <- app_assoc. reflexivity.
        -- rewrite I', I5, I4, <- app_assoc. reflexivity.
      * rewrite (proj2 (Nat.leb_gt _ _)) by lia. cbn [finish].
        eexists. split; [reflexivity|].
        cbn [hw io wrote seq flat_map]. rewrite !app_nil_r. split.
        -- rewrite H5, H4. reflexivity.
        -- rewrite I5, I4. reflexivity.
Qed.

End OuterLoops.

(** ** The streaming methods *)

Lemma at_pos_cursor (f : Wave.Wave_read) : Wave.at_pos f (Wave.soundpos f) = f.
Proof. destruct f. reflexivity. Qed.

Section Streaming.

Variable pace : Z -> Z -> Z.
Variables (f : Wave.Wave_read) (b : Z) (pwm : bool) (sch : schedule).

(** Entering a streaming method: the period is computed and stored. *)
Lemma enter_streaming (factor : Z) (w : World) :
  ready_to_stream f b pwm w ->
  streaming f b pwm (pace (Wave.framerate f) factor) (control_of (self w))
    (chunk_start f b 0)
    (mkWorld (with_period (Some (pace (Wave.framerate f) factor)) (self w))
             (hw w) (io w)).
Proof.
  intros [Hr Hl Hb Hpos Hvs Hv Ha Hc Hwf Htf Hfr Hrate Hw Ho Hd].
  cbn [chunk_start].
  split; cbn; try rewrite at_pos_cursor; first [assumption | reflexivity].
Qed.

Lemma _play8_run (w : World) :
  ready_to_stream f b pwm w -> Wave.sampwidth f = 1 ->
  exists w',
    _play8 pace sch w = finish (completes sch (control_of (self w)) f b) w' /\
    hw w' = hw w ++
      expected_output (expected8 pwm (pace (Wave.framerate f) 90)) Py.array_B
        sch (control_of (self w)) f b
        (written sch (control_of (self w)) f b) /\
    io w' = io w ++
      expected_reads f b (written sch (control_of (self w)) f b).
Proof.
  intros Hw Hsw.
  pose proof (enter_streaming 90 w Hw) as Hs.
  destruct Hw as [Hr Hl Hb Hpos Hvs Hv Ha Hc Hwf Htf Hfr Hrate Hwd Ho Hd].
  unfold _play8. unfold bind at 1, deref at 1. rewrite Hfr.
  destruct (Z.eqb_spec (Wave.framerate f) 0) as [|_]; [contradiction|].
  unfold bind at 1, assign at 1. unfold bind at 1, attr at 1.
  cbn [self with_period buffersize]. rewrite Hb.
  unfold bind at 1, deref at 1. cbn [self total_frames with_period].
  rewrite Htf, range_positions by assumption.
  cbn [lift]. unfold bind at 1, ret at 1.
  destruct (_play8_chunks_run f b pwm _ sch (control_of (self w))
              Hwf Hc Hpos Hv
              (chunk_count b (Wave.nframes f)) 0 _ Hsw Hs)
    as (w' & E & H & I).
  { intros j Hj. apply position_below; [assumption|lia]. }
  exists w'. split; [exact E|]. split; [exact H|exact I].
Qed.

Lemma _play16_run (w : World) :
  ready_to_stream f b pwm w -> Wave.sampwidth f = 2 ->
  exists w',
    _play16 pace sch w = finish (completes sch (control_of (self w)) f b) w' /\
    hw w' = hw w ++
      expected_output (expected16 pwm (pace (Wave.framerate f) 95)) Py.array_h
        sch (control_of (self w)) f b
        (written sch (control_of (self w)) f b) /\
    io w' = io w ++
      expected_reads f b (written sch (control_of (self w)) f b).
Proof.
  intros Hw Hsw.
  pose proof (enter_streaming 95 w Hw) as Hs.
  destruct Hw as [Hr Hl Hb Hpos Hvs Hv Ha Hc Hwf Htf Hfr Hrate Hwd Ho Hd].
  unfold _play16. unfold bind at 1, deref at 1. rewrite Hfr.
  destruct (Z.eqb_spec (Wave.framerate f) 0) as [|_]; [contradiction|].
  unfold bind at 1, assign at 1. unfold bind at 1, attr at 1.
  cbn [self with_period buffersize]. rewrite Hb.
  unfold bind at 1, deref at 1. cbn [self total_frames with_period].
  rewrite Htf, range_positions by assumption.
  cbn [lift]. unfold bind at 1, ret at 1.
  destruct (_play16_chunks_run f b pwm _ sch (control_of (self w))
              Hwf Hc Hpos Hv
              (chunk_count b (Wave.nframes f)) 0 _ Hsw Hs)
    as (w' & E & H & I).
  { intros j Hj. apply position_below; [assumption|lia]. }
  exists w'. split; [exact E|]. split; [exact H|exact I].
Qed.

End Streaming.

(** ** How many chunks are streamed *)

Lemma streamed_from_le (sch : schedule) (s : control) (n k : nat) :
  (streamed_from sch s k n <= n)%nat.
Proof.
  revert k. induction n as [|n IH]; intros k; cbn.
  - lia.
  - destruct (snd (at_test sch s k)); [lia|]. specialize (IH (S k)). lia.
Qed.

Lemma after_calls_stopped (cs : list command) (s : control) :
  snd s = true -> snd (after_calls cs s) = true.
Proof.
  revert s. induction cs as [|c cs IH]; intros s H; cbn.
  - exact H.
  - apply IH. destruct c; cbn; auto.
Qed.

(** The stop flag, once seen at a stop test, is seen at every later one:
    none of the controls clears it. *)
Lemma at_test_stopped (sch : schedule) (s : control) (k j : nat) :
  snd (at_test sch s k) = true -> (k <= j)%nat -> snd (at_test sch s j) = true.
Proof.
  intros H Hle. induction Hle as [|j Hle IH].
  - exact H.
  - cbn. now apply after_calls_stopped, after_calls_stopped.
Qed.

(** A stop flag found set by the test of chunk [k] ends the loop there at
    the latest. *)
Lemma streamed_from_stop (sch : schedule) (s : control) (n k0 k : nat) :
  snd (at_test sch s k) = true -> (k0 <= k)%nat ->
  (k0 + streamed_from sch s k0 n <= k)%nat.
Proof.
  revert k0. induction n as [|n IH]; intros k0 H Hle; cbn.
  - lia.
  - destruct (snd (at_test sch s k0)) eqn:E; [lia|].
    assert (k0 <> k) by congruence.
    specialize (IH (S k0) H ltac:(lia)). lia.
Qed.

(** While no stop test finds the flag set, every test is passed. *)
Lemma streamed_from_go (sch : schedule) (s : control) (n k0 : nat) :
  (forall j, (k0 <= j < k0 + n)%nat -> snd (at_test sch s j) = false) ->
  streamed_from sch s k0 n = n.
Proof.
  revert k0. induction n as [|n IH]; intros k0 H; cbn.
  - reflexivity.
  - rewrite H by lia. f_equal. apply IH. intros j Hj. apply H. lia.
Qed.

(** The loop ends exactly at the first stop test that finds the flag set. *)
Lemma streamed_from_first (sch : schedule) (s : control) (n k0 k : nat) :
  snd (at_test sch s k) = true ->
  (forall j, (k0 <= j < k)%nat -> snd (at_test sch s j) = false) ->
  (k0 <= k < k0 + n)%nat ->
  (k0 + streamed_from sch s k0 n = k)%nat.
Proof.
  revert k0. induction n as [|n IH]; intros k0 H Hgo Hk; cbn.
  - lia.
  - destruct (Nat.eq_dec k0 k) as [->|Hne].
    + rewrite H. lia.
    + rewrite Hgo by lia.
      specialize (IH (S k0) H). rewrite <- IH; try lia.
      intros j Hj. apply Hgo. lia.
Qed.

Lemma at_test_alone (s : control) (k : nat) : at_test alone s k = s.
Proof. induction k as [|k IH]; cbn; [reflexivity|exact IH]. Qed.

Lemma at_snapshot_alone (s : control) (k : nat) : at_snapshot alone s k = s.
Proof. unfold at_snapshot. cbn. apply at_test_alone. Qed.

(** With nothing else running and the flag clear, every test is passed. *)
Lemma streamed_alone (v b total : Z) :
  streamed alone (v, false) b total = chunk_count b total.
Proof.
  unfold streamed. apply streamed_from_go. intros j _.
  now rewrite at_test_alone.
Qed.

Lemma streamed_le (sch : schedule) (s : control) (b total : Z) :
  (streamed sch s b total <= chunk_count b total)%nat.
Proof. apply streamed_from_le. Qed.

(** The chunks whose stop test is passed end at or before the last
    multiple of [b] that is strictly below the total. *)
Lemma streamed_below (sch : schedule) (s : control) (b total : Z) :
  0 < b -> 0 < total ->
  Z.of_nat (streamed sch s b total) * b <= b * ((total - 1) / b) /\
  b * ((total - 1) / b) < total.
Proof.
  intros Hb Ht.
  pose proof (streamed_le sch s b total) as Hle.
  pose proof (chunk_count_eq b total Hb Ht) as Hc.
  pose proof (Z.mul_div_le (total - 1) b Hb). nia.
Qed.

(** No more chunks reach the output than stop tests are passed. *)
Lemma written_from_le (sch : schedule) (s : control) f b (n k : nat) :
  (written_from sch s f b k n <= streamed_from sch s k n)%nat.
Proof.
  revert k. induction n as [|n IH]; intros k; cbn.
  - lia.
  - destruct (snd (at_test sch s k)); [lia|].
    destruct (full f b k); [specialize (IH (S k))|]; lia.
Qed.

Lemma written_le (sch : schedule) (s : control) f b :
  (written sch s f b <= streamed sch s b (Wave.nframes f))%nat.
Proof. apply written_from_le. Qed.

(** When every chunk is full, every chunk whose stop test is passed
    reaches the output and the loop returns. *)
Lemma written_from_full (sch : schedule) (s : control) f b (n k : nat) :
  (forall j, (k <= j < k + n)%nat -> full f b j = true) ->
  written_from sch s f b k n = streamed_from sch s k n /\
  completes_from sch s f b k n = true.
Proof.
  revert k. induction n as [|n IH]; intros k H; cbn.
  - auto.
  - destruct (snd (at_test sch s k)); [auto|].
    rewrite H by lia.
    destruct (IH (S k)) as [H1 H2]; [intros j Hj; apply H; lia|].
    rewrite H1. auto.
Qed.

(** That is the case of a file whose cursor is on the first frame. *)
Lemma written_first_pass (sch : schedule) (s : control) f b :
  0 < b -> Wave.soundpos f = 0 ->
  written sch s f b = streamed sch s b (Wave.nframes f) /\
  completes sch s f b = true.
Proof.
  intros Hb Hc. apply written_from_full. intros j Hj.
  assert (Hp : position b j < Wave.nframes f)
    by (apply position_below; [assumption|lia]).
  destruct j; [apply full_first|apply full_succ]; try assumption; lia.
Qed.

(** ** Counting the writes *)

Lemma writes_app (l l' : list hw_event) : writes (l ++ l') = writes l ++ writes l'.
Proof. apply filter_app. Qed.

Lemma length_writes_expected8 pwm t v (samples : list Z) :
  length (writes (expected8 pwm t v samples)) = length samples.
Proof.
  induction samples as [|s l IH]; [reflexivity|].
  unfold expected8, writes in *. cbn [flat_map].
  rewrite filter_app, length_app, IH. destruct pwm; reflexivity.
Qed.

Lemma length_writes_expected16 pwm t v (samples : list Z) :
  length (writes (expected16 pwm t v samples)) = length samples.
Proof.
  induction samples as [|s l IH]; [reflexivity|].
  unfold expected16, writes in *. cbn [flat_map].
  rewrite filter_app, length_app, IH. destruct pwm; reflexivity.
Qed.

(** ** [begin] and [play] *)

(** [begin] on a freshly constructed non-loop player leaves it ready to
    stream, with the buffer size 2048 set by the constructor and the cursor
    on the first frame. *)
Lemma begin_ready_to_stream pclk1 disk open_error (name : string) (pwm thread : bool)
    (f0 : Wave.Wave_read) :
  disk name = Some f0 -> Wave.well_formed f0 -> Wave.framerate f0 <> 0 ->
  exists w,
    begin pclk1 disk open_error (boot (AUDIO_PLAYER name pwm false thread)) = Return tt w /\
    ready_to_stream (Wave.at_pos f0 0) 2048 pwm w /\
    hw w = [] /\ io w = [] /\ threading (self w) = thread.
Proof.
  intros Hd Hwf Hrate.
  pose proof Hwf as (Hs & Hn & Hl).
  unfold begin, bind, attr, wave_open, assign, boot. cbn [self filename AUDIO_PLAYER].
  rewrite Hd. cbn [option_map lift ret self hw io pwm_mode with_audiofile with_adatawidth].
  destruct pwm; cbn; (eexists; split; [reflexivity|]);
    (split; [split; cbn; try first [assumption | reflexivity | lia | discriminate]|auto]).
Qed.

Lemma ready_to_stream_fstop f b pwm (x : bool) (w : World) :
  ready_to_stream f b pwm w ->
  ready_to_stream f b pwm (mkWorld (with_fstop x (self w)) (hw w) (io w)).
Proof. intros []. split; cbn; assumption. Qed.

(** In non-loop mode [play] clears the stop flag and enters the streaming
    method of the sample width. *)
Lemma play_dispatch pace sch f b pwm (w : World) :
  ready_to_stream f b pwm w ->
  play pace sch w =
    let w0 := mkWorld (with_fstop false (self w)) (hw w) (io w) in
    if Wave.sampwidth f >? 1 then
      if threading (self w) then start_new_thread (_play16 pace sch) w0
      else _play16 pace alone w0
    else
      if threading (self w) then start_new_thread (_play8 pace sch) w0
      else _play8 pace alone w0.
Proof.
  intros [Hr Hl Hb Hpos Hvs Hv Ha Hc Hwf Htf Hfr Hrate Hwd Ho Hd].
  unfold play. unfold bind at 1, attr at 1. rewrite Hr. cbn [negb].
  unfold bind at 1, assign at 1. unfold bind at 1, attr at 1.
  cbn [self with_fstop loop]. rewrite Hl.
  unfold bind at 1, attr at 1. unfold bind at 1, attr at 1.
  cbn [self with_fstop adatawidth threading]. rewrite Hwd.
  cbv zeta.
  destruct (Wave.sampwidth f >? 1); destruct (threading (self w)); reflexivity.
Qed.

(** [play] in non-loop mode: what reaches the backend and the file, and
    whether the caller sees it return.  An exception of the player thread
    is not seen by the caller. *)
Lemma play_run pace sch f b pwm (w : World) :
  ready_to_stream f b pwm w ->
  Wave.sampwidth f = 1 \/ Wave.sampwidth f = 2 ->
  let s := (volume (self w), false) in
  returns (play pace sch w) =
    threading (self w) || completes (effective w sch) s f b /\
  hw (world_of (play pace sch w)) = hw w ++
    expected_play pace pwm (effective w sch) s f b
      (written (effective w sch) s f b) /\
  io (world_of (play pace sch w)) = io w ++
    expected_reads f b (written (effective w sch) s f b).
Proof.
  intros Hw Hsw. rewrite (play_dispatch pace sch f b pwm w Hw). cbv zeta.
  pose proof (ready_to_stream_fstop f b pwm false w Hw) as Hw0.
  unfold expected_play, effective, start_new_thread.
  destruct Hsw as [Hsw|Hsw]; rewrite Hsw;
    [change (1 >? 1) with false|change (2 >? 1) with true];
    cbv iota; destruct (threading (self w)); cbn [orb].
  - destruct (_play8_run pace f b pwm sch _ Hw0 Hsw) as (w' & E & H & I).
    rewrite E. cbn [self with_fstop control_of volume fstop] in *.
    destruct (completes sch _ f b); cbn [finish world_of returns hw io];
      auto.
  - destruct (_play8_run pace f b pwm alone _ Hw0 Hsw) as (w' & E & H & I).
    rewrite E. cbn [self with_fstop control_of volume fstop] in *.
    destruct (completes alone _ f b); cbn [finish world_of returns hw io];
      auto.
  - destruct (_play16_run pace f b pwm sch _ Hw0 Hsw) as (w' & E & H & I).
    rewrite E. cbn [self with_fstop control_of volume fstop] in *.
    destruct (completes sch _ f b); cbn [finish world_of returns hw io];
      auto.
  - destruct (_play16_run pace f b pwm alone _ Hw0 Hsw) as (w' & E & H & I).
    rewrite E. cbn [self with_fstop control_of volume fstop] in *.
    destruct (completes alone _ f b); cbn [finish world_of returns hw io];
      auto.
Qed.
(** * Properties of the player *)

(** ** Volume table and volume controls *)

(** C7: the volume table set by the constructor is exactly
    [49,31,21,15,11,9,7,6,5,4,3,2,1]: 13 positive divisors, strictly
    decreasing, [volumes[i] > volumes[i+1]] for every [i] in [0,11]. *)
Theorem volume_table_strictly_decreasing (name : string) (pwm lp thread : bool) :
  let table := volumes (AUDIO_PLAYER name pwm lp thread) in
  table = [49;31;21;15;11;9;7;6;5;4;3;2;1] /\
  length table = 13%nat /\
  Forall (fun d => 0 < d) table /\
  forall i, 0 <= i <= 11 ->
    exists d d', Py.index table i = Some d /\
                 Py.index table (i + 1) = Some d' /\ d > d'.
Proof.
  cbn [volumes AUDIO_PLAYER]. repeat split.
  - repeat constructor.
  - intros i Hi.
    assert (Hv : In i [0;1;2;3;4;5;6;7;8;9;10;11]) by (cbn; lia).
    cbn in Hv.
    repeat (destruct Hv as [<-|Hv];
            [do 2 eexists; split; [reflexivity|split; [reflexivity|reflexivity]]|]).
    contradiction.
Qed.

(** C8: [set_volume(v)] with [v] outside [0,12] returns without changing
    anything, whatever the level was, and with [v] in [0,12] sets the level
    to [v]; [set_volume(13)] after [set_volume(5)] leaves the level at 5. *)
Theorem set_volume_in_and_out_of_range (v : Z) (w : World) :
  (v < 0 \/ 12 < v -> set_volume v w = Return tt w) /\
  (0 <= v <= 12 ->
   set_volume v w = Return tt (mkWorld (with_volume v (self w)) (hw w) (io w))) /\
  volume (self (world_of (set_volume 13 (world_of (set_volume 5 w))))) = 5.
Proof.
  unfold set_volume. repeat split.
  - intros H. destruct (Z.leb_spec 0 v), (Z.leb_spec v 12); cbn; try reflexivity; lia.
  - intros H. destruct (Z.leb_spec 0 v), (Z.leb_spec v 12); cbn; try reflexivity; lia.
Qed.

(** C9: from a level in [0,12], [volume_up] adds one unless the level is
    12 and [volume_down] subtracts one unless it is 0, so the level stays
    in [0,12]; 20 calls of [volume_up] from 0 end at 12 and 20 calls of
    [volume_down] from 12 end at 0. *)
Theorem volume_up_down_saturate (w : World) :
  0 <= volume (self w) <= 12 ->
  let v := volume (self w) in
  (v < 12 -> volume_up w = Return tt (mkWorld (with_volume (v + 1) (self w)) (hw w) (io w))) /\
  (v = 12 -> volume_up w = Return tt w) /\
  (0 < v -> volume_down w = Return tt (mkWorld (with_volume (v - 1) (self w)) (hw w) (io w))) /\
  (v = 0 -> volume_down w = Return tt w) /\
  0 <= volume (self (world_of (volume_up w))) <= 12 /\
  0 <= volume (self (world_of (volume_down w))) <= 12 /\
  (v = 0 -> volume (self (world_of (times 20 volume_up w))) = 12) /\
  (v = 12 -> volume (self (world_of (times 20 volume_down w))) = 0).
Proof.
  intros H v. subst v. unfold volume_up, volume_down, bind, attr, assign.
  repeat split.
  - intros Hv. destruct (Z.ltb_spec (volume (self w)) 12); [reflexivity|lia].
  - intros Hv. destruct (Z.ltb_spec (volume (self w)) 12); [lia|reflexivity].
  - intros Hv. destruct (Z.gtb_spec (volume (self w)) 0); [reflexivity|lia].
  - intros Hv. destruct (Z.gtb_spec (volume (self w)) 0); [lia|reflexivity].
  - destruct (Z.ltb_spec (volume (self w)) 12); cbn; lia.
  - destruct (Z.ltb_spec (volume (self w)) 12); cbn; lia.
  - destruct (Z.gtb_spec (volume (self w)) 0); cbn; lia.
  - destruct (Z.gtb_spec (volume (self w)) 0); cbn; lia.
  - intros Hv. destruct w as [p h l]. destruct p. cbn in Hv. subst. reflexivity.
  - intros Hv. destruct w as [p h l]. destruct p. cbn in Hv. subst. reflexivity.
Qed.

(** ** The streaming loops *)

(** C1: every chunk [j] streamed in non-loop mode is written sample by
    sample with the volume level [v] of its own snapshot: on the 16-bit
    path [128 + s // (volumes[v] * 128)] goes to the pulse-width output
    when one is configured and [2048 + s // (volumes[v] * 16)] to the
    converter otherwise; on the 8-bit path [s // volumes[v]] goes to the
    backend with no centre offset.  [s] ranges over the samples of the
    chunk, that is of the bytes its read returned, in order, and each
    write is followed by the pacing delay. *)
Theorem streamed_sample_values pace sch f b pwm (w : World) :
  ready_to_stream f b pwm w ->
  let s0 := control_of (self w) in
  let m := written sch s0 f b in
  let level j := fst (at_snapshot sch s0 j) in
  let reads :=
    flat_map (fun j => [ReadFrames (chunk_start f b j) b (chunk f b j);
                        SetPos (position b j)]) (seq 0 m) in
  (forall j, Py.index (volumes (self w)) (level j) = Some (divisor (level j))) /\
  (Wave.sampwidth f = 2 ->
   io (world_of (_play16 pace sch w)) = io w ++ reads /\
   hw (world_of (_play16 pace sch w)) = hw w ++
     flat_map (fun j =>
       flat_map (fun s =>
         [ (if pwm then PulseWidth (128 + s / (divisor (level j) * 128))
            else DacWrite (2048 + s / (divisor (level j) * 16)));
           Udelay (pace (Wave.framerate f) 95) ])
         (Py.array_h (chunk f b j)))
       (seq 0 m)) /\
  (Wave.sampwidth f = 1 ->
   io (world_of (_play8 pace sch w)) = io w ++ reads /\
   hw (world_of (_play8 pace sch w)) = hw w ++
     flat_map (fun j =>
       flat_map (fun s =>
         [ (if pwm then PulseWidth (s / divisor (level j))
            else DacWrite (s / divisor (level j)));
           Udelay (pace (Wave.framerate f) 90) ])
         (Py.array_B (chunk f b j)))
       (seq 0 m)).
Proof.
  intros Hw s0 m level reads. split; [|split].
  - intros j. rewrite (rs_volumes _ _ _ _ Hw).
    apply index_volumes, at_snapshot_range, (rs_volume _ _ _ _ Hw).
  - intros Hsw.
    destruct (_play16_run pace f b pwm sch w Hw Hsw) as (w' & E & H & I).
    rewrite E. unfold finish.
    destruct (completes sch (control_of (self w)) f b); split; assumption.
  - intros Hsw.
    destruct (_play8_run pace f b pwm sch w Hw Hsw) as (w' & E & H & I).
    rewrite E. unfold finish.
    destruct (completes sch (control_of (self w)) f b); split; assumption.
Qed.

Lemma div_of_partial (b total : Z) :
  0 < b -> total mod b <> 0 -> (total - 1) / b = total / b.
Proof.
  intros Hb Hm.
  pose proof (Z.div_mod total b ltac:(lia)) as Hd.
  pose proof (Z.mod_pos_bound total b Hb) as Hr.
  symmetry. apply Z.div_unique with (r := total mod b - 1); lia.
Qed.

Lemma position_streamed (sch : schedule) (s : control) (b total : Z) (j : nat) :
  0 < b -> 0 < total -> (j < streamed sch s b total)%nat ->
  position b j <= b * ((total - 1) / b).
Proof.
  intros Hb Ht Hj.
  pose proof (streamed_below sch s b total Hb Ht) as [Hle _].
  unfold position. nia.
Qed.

(** C2, with the cursor on the first frame: in non-loop mode, when
    [total_frames < buffersize] the body of the streaming loop never runs
    and [play] makes no read and no write.  When the loop is entered with
    the cursor on the first frame, as after [begin], and [total_frames] is
    not a multiple of [buffersize], every chunk read and written is the
    frames [position - buffersize, position) of a position at or before the
    last multiple of [buffersize], so the frames of the final partial chunk
    are never written. *)
Theorem final_partial_chunk_not_played pace sch f b pwm (w : World) :
  ready_to_stream f b pwm w ->
  Wave.sampwidth f = 1 \/ Wave.sampwidth f = 2 ->
  let total := Wave.nframes f in
  let r := play pace sch w in
  (total < b -> hw (world_of r) = hw w /\ io (world_of r) = io w) /\
  (Wave.soundpos f = 0 -> total mod b <> 0 ->
   exists m : nat,
     (forall j, (j < m)%nat ->
        chunk_start f b j = position b j - b /\
        position b j <= b * (total / b)) /\
     b * (total / b) < total /\
     hw (world_of r) = hw w ++
       expected_play pace pwm (effective w sch) (volume (self w), false) f b m /\
     io (world_of r) = io w ++ expected_reads f b m).
Proof.
  intros Hw Hsw total r. subst total r.
  destruct (play_run pace sch f b pwm w Hw Hsw) as (_ & H & I).
  pose proof (rs_positive _ _ _ _ Hw) as Hb.
  pose proof (rs_well_formed _ _ _ _ Hw) as (_ & Hn & _).
  pose proof (written_le (effective w sch) (volume (self w), false) f b) as Hle.
  split.
  - intros Hlt.
    pose proof (streamed_le (effective w sch) (volume (self w), false) b
                  (Wave.nframes f)) as Hle'.
    rewrite chunk_count_short in Hle' by lia.
    assert (Hz : written (effective w sch) (volume (self w), false) f b = O) by lia.
    rewrite Hz in H, I. unfold expected_play, expected_output in H.
    unfold expected_reads in I. cbn [seq flat_map] in H, I.
    destruct (Wave.sampwidth f >? 1); rewrite app_nil_r in *; auto.
  - intros Hc Hm.
    assert (Ht : 0 < Wave.nframes f).
    { destruct (Z.eq_dec (Wave.nframes f) 0) as [Hz|]; [|lia].
      rewrite Hz in Hm. now rewrite Z.mod_0_l in Hm by lia. }
    exists (written (effective w sch) (volume (self w), false) f b).
    rewrite <- (div_of_partial b (Wave.nframes f) Hb Hm).
    split; [|split; [|split; assumption]].
    + intros j Hj. split; [now apply chunk_start_aligned|].
      apply position_streamed with (sch := effective w sch)
                                   (s := (volume (self w), false));
        try assumption; lia.
    + apply (streamed_below (effective w sch) (volume (self w), false)); assumption.
Qed.

(** C3, as the code has it: for an 8-bit file of exactly [2 * buffersize]
    frames, [range(buffersize, 2 * buffersize, buffersize)] holds the single
    position [buffersize], so the playback that follows [begin] returns
    after the writes of one chunk: [buffersize] writes when nothing stops
    it, never [2 * buffersize]. *)
Theorem two_chunk_file_plays_one_chunk pace sch f b pwm (w : World) :
  ready_to_stream f b pwm w ->
  Wave.soundpos f = 0 ->
  Wave.sampwidth f = 1 ->
  Wave.nframes f = 2 * b ->
  let r := play pace sch w in
  returns r = true /\
  exists out,
    hw (world_of r) = hw w ++ out /\
    Z.of_nat (length (writes out)) <= b /\
    (threading (self w) = false -> Z.of_nat (length (writes out)) = b) /\
    Z.of_nat (length (writes out)) <> 2 * b.
Proof.
  intros Hw Hcur Hsw Hn r. subst r.
  destruct (play_run pace sch f b pwm w Hw (or_introl Hsw)) as (R & H & I).
  pose proof (rs_positive _ _ _ _ Hw) as Hb.
  destruct (written_first_pass (effective w sch) (volume (self w), false) f b
              Hb Hcur) as [Hwr Hok].
  rewrite Hok, orb_true_r in R. split; [exact R|].
  assert (Hc : chunk_count b (Wave.nframes f) = 1%nat).
  { pose proof (chunk_count_eq b (2 * b) Hb ltac:(lia)) as Hq.
    rewrite Hn.
    replace (2 * b - 1) with (b - 1 + 1 * b) in Hq by lia.
    rewrite Z.div_add, Z.div_small in Hq by lia. lia. }
  assert (Hlen : Z.of_nat (length (Py.array_B (chunk f b 0))) = b).
  { rewrite length_array_B. unfold chunk. cbn [chunk_start]. rewrite Hcur.
    rewrite length_frames;
      [ | exact (rs_well_formed _ _ _ _ Hw) | lia | lia ].
    rewrite Hsw. lia. }
  eexists. split; [exact H|].
  unfold expected_play. rewrite Hsw. change (1 >? 1) with false. cbv iota.
  rewrite Hwr. unfold expected_output, streamed. rewrite Hc. cbn [streamed_from].
  destruct (snd (at_test (effective w sch) (volume (self w), false) 0)) eqn:Hstop.
  - cbn [seq flat_map]. change (Z.of_nat (length (writes []))) with 0.
    split; [lia|]. split; [|lia].
    intros Hth. unfold effective in Hstop. rewrite Hth in Hstop.
    rewrite at_test_alone in Hstop. discriminate.
  - cbn [seq flat_map]. rewrite app_nil_r, length_writes_expected8, Hlen.
    split; [lia|]. split; [reflexivity|lia].
Qed.

(** C4, with the cursor on the first frame: when the loop is entered with
    the cursor on the first frame, as after [begin], it visits the positions
    [buffersize, 2 * buffersize, ...] strictly below [total_frames]; the
    read of the iteration at [position] is issued with the cursor at
    [position - buffersize] and returns exactly the frames
    [position - buffersize, position), which lie within [0, total_frames):
    a full [buffersize] samples.  So no read goes past [total_frames] and
    [buf[i]] is in bounds for every [i < buffersize]: the method returns
    without raising. *)
Theorem chunk_reads_in_bounds pace sch f b pwm (w : World) :
  ready_to_stream f b pwm w ->
  Wave.soundpos f = 0 ->
  let s0 := control_of (self w) in
  let m := streamed sch s0 b (Wave.nframes f) in
  let reads :=
    flat_map (fun j =>
      [ReadFrames (position b j - b) b
         (Wave.frames f (position b j - b) (position b j));
       SetPos (position b j)]) (seq 0 m) in
  Py.range b (Wave.nframes f) b =
    Some (map (position b) (seq 0 (chunk_count b (Wave.nframes f)))) /\
  (m <= chunk_count b (Wave.nframes f))%nat /\
  (forall j, (j < chunk_count b (Wave.nframes f))%nat ->
     0 <= position b j - b /\ position b j < Wave.nframes f /\
     Z.of_nat (length (Wave.frames f (position b j - b) (position b j)))
       = b * Wave.sampwidth f) /\
  (Wave.sampwidth f = 1 ->
     returns (_play8 pace sch w) = true /\
     io (world_of (_play8 pace sch w)) = io w ++ reads /\
     forall j, (j < chunk_count b (Wave.nframes f))%nat ->
       Z.of_nat (length (Py.array_B
         (Wave.frames f (position b j - b) (position b j)))) = b) /\
  (Wave.sampwidth f = 2 ->
     returns (_play16 pace sch w) = true /\
     io (world_of (_play16 pace sch w)) = io w ++ reads /\
     forall j, (j < chunk_count b (Wave.nframes f))%nat ->
       Z.of_nat (length (Py.array_h
         (Wave.frames f (position b j - b) (position b j)))) = b).
Proof.
  intros Hw Hcur s0 m reads.
  pose proof (rs_positive _ _ _ _ Hw) as Hb.
  pose proof (rs_well_formed _ _ _ _ Hw) as Hwf.
  destruct (written_first_pass sch s0 f b Hb Hcur) as [Hwr Hok].
  assert (Hchunk : forall j, (j < chunk_count b (Wave.nframes f))%nat ->
            0 <= position b j - b /\ position b j < Wave.nframes f /\
            Z.of_nat (length (Wave.frames f (position b j - b) (position b j)))
              = b * Wave.sampwidth f).
  { intros j Hj.
    pose proof (position_below b (Wave.nframes f) j Hb Hj) as Hlt.
    assert (Hlo : 0 <= position b j - b) by (unfold position; nia).
    split; [exact Hlo|]. split; [exact Hlt|].
    replace (position b j) with (position b j - b + b) at 2 by lia.
    rewrite length_frames by (try assumption; lia). f_equal. lia. }
  assert (Hreads : expected_reads f b m = reads).
  { unfold expected_reads, reads, chunk_ops, chunk.
    apply flat_map_ext. intros j.
    rewrite (chunk_start_aligned f b j Hcur).
    replace (position b j - b + b) with (position b j) by lia. reflexivity. }
  split; [now apply range_positions|].
  split; [apply streamed_le|].
  split; [exact Hchunk|].
  split; intros Hsw.
  - destruct (_play8_run pace f b pwm sch w Hw Hsw) as (w' & E & _ & I).
    fold s0 in E, I. rewrite Hok in E. rewrite Hwr in I. fold m in I.
    rewrite E. cbn [finish returns world_of].
    split; [reflexivity|]. split; [now rewrite I, Hreads|].
    intros j Hj. rewrite length_array_B.
    destruct (Hchunk j Hj) as (_ & _ & ->). rewrite Hsw. lia.
  - destruct (_play16_run pace f b pwm sch w Hw Hsw) as (w' & E & _ & I).
    fold s0 in E, I. rewrite Hok in E. rewrite Hwr in I. fold m in I.
    rewrite E. cbn [finish returns world_of].
    split; [reflexivity|]. split; [now rewrite I, Hreads|].
    intros j Hj. destruct (Hchunk j Hj) as (_ & _ & Hlen).
    rewrite Hsw in Hlen.
    rewrite (length_array_h (Z.to_nat b)); lia.
Qed.

(** C5: when the stop test of chunk [k] finds the flag set, the loop ends
    there at the latest: what was written is the output of chunks before
    the first such test, and no sample of chunk [k] or of a later chunk is
    written. *)
Theorem stop_ends_streaming pace sch f b pwm (w : World) (k : nat) :
  ready_to_stream f b pwm w ->
  let s0 := control_of (self w) in
  let m := written sch s0 f b in
  snd (at_test sch s0 k) = true ->
  (m <= streamed sch s0 b (Wave.nframes f) <= k)%nat /\
  ((k < chunk_count b (Wave.nframes f))%nat ->
   (forall j, (j < k)%nat -> snd (at_test sch s0 j) = false) ->
   streamed sch s0 b (Wave.nframes f) = k) /\
  (Wave.sampwidth f = 1 ->
   hw (world_of (_play8 pace sch w)) = hw w ++
     expected_output (expected8 pwm (pace (Wave.framerate f) 90)) Py.array_B
       sch s0 f b m /\
   io (world_of (_play8 pace sch w)) = io w ++ expected_reads f b m) /\
  (Wave.sampwidth f = 2 ->
   hw (world_of (_play16 pace sch w)) = hw w ++
     expected_output (expected16 pwm (pace (Wave.framerate f) 95)) Py.array_h
       sch s0 f b m /\
   io (world_of (_play16 pace sch w)) = io w ++ expected_reads f b m).
Proof.
  intros Hw s0 m Hstop.
  split.
  { pose proof (streamed_from_stop sch s0 (chunk_count b (Wave.nframes f)) 0 k
                  Hstop ltac:(lia)) as H.
    pose proof (written_le sch s0 f b) as H'.
    unfold streamed in *. subst m. lia. }
  split.
  { intros Hk Hgo.
    apply (streamed_from_first sch s0 (chunk_count b (Wave.nframes f)) 0 k Hstop).
    - intros j Hj. apply Hgo. lia.
    - lia. }
  split; intros Hsw.
  - destruct (_play8_run pace f b pwm sch w Hw Hsw) as (w' & E & H & I).
    rewrite E. unfold finish.
    destruct (completes sch (control_of (self w)) f b); split; assumption.
  - destruct (_play16_run pace f b pwm sch w Hw Hsw) as (w' & E & H & I).
    rewrite E. unfold finish.
    destruct (completes sch (control_of (self w)) f b); split; assumption.
Qed.

(** ** Loop mode *)

(** C10: on a player constructed with [loop=True] and [pwm=True], [begin]
    configures the PWM output only and leaves [dac] at [None]; the loop
    branches of [play] and [stop] then call a method of [None] and raise.
    With [pwm=False] the converter is configured and both return. *)
Theorem loop_mode_needs_converter pclk1 disk open_error pace sch (name : string)
    (thread : bool) (f0 : Wave.Wave_read) :
  disk name = Some f0 ->
  let started pwm :=
    world_of (begin pclk1 disk open_error (boot (AUDIO_PLAYER name pwm true thread))) in
  (forall pwm,
     returns (begin pclk1 disk open_error (boot (AUDIO_PLAYER name pwm true thread))) = true /\
     ready (self (started pwm)) = true /\ loop (self (started pwm)) = true) /\
  dac (self (started true)) = None /\
  pwm_out (self (started true)) <> None /\
  (exists w', play pace sch (started true) = Raise Py.AttributeError w') /\
  (exists w', stop (started true) = Raise Py.AttributeError w') /\
  dac (self (started false)) <> None /\
  pwm_out (self (started false)) = None /\
  returns (play pace sch (started false)) = true /\
  returns (stop (started false)) = true /\
  returns (stop (world_of (play pace sch (started false)))) = true.
Proof.
  intros Hd started. subst started.
  assert (Hb : forall pwm,
    begin pclk1 disk open_error (boot (AUDIO_PLAYER name pwm true thread)) =
    Return tt (mkWorld
      (mkPlayer name pwm true
         (if pwm then None
          else Some (mkDAC _DAC (if Wave.getsampwidth (Wave.at_pos f0 0) >? 1
                                 then 12 else 8) true))
         (if pwm then
            Some (mkChannel (mkTimer _TIMER (pclk1 * 2 / 255 / _FREQ) 255)
                            _CHANNEL _PIN 50)
          else None)
         (if pwm then Some (mkTimer _TIMER (pclk1 * 2 / 255 / _FREQ) 255)
          else None)
         (Some (Wave.at_pos f0 0))
         (if Wave.getsampwidth (Wave.at_pos f0 0) >? 1 then 12 else 8)
         None 2048 true thread None [49;31;21;15;11;9;7;6;5;4;3;2;1] 10 true
         (Some (Wave.getnframes (Wave.at_pos f0 0)))
         (Some (Wave.getframerate (Wave.at_pos f0 0))) None) [] [])).
  { intros pwm.
    unfold begin, bind, attr, wave_open, assign, boot.
    cbn [self filename AUDIO_PLAYER]. rewrite Hd.
    cbn [option_map lift ret self hw io pwm_mode with_audiofile with_adatawidth].
    destruct pwm; reflexivity. }
  split.
  { intros pwm. rewrite Hb. cbn [returns world_of self ready loop]. auto. }
  rewrite !Hb. cbn [world_of self dac pwm_out].
  split; [reflexivity|]. split; [discriminate|].
  split.
  { eexists.
    cbv beta iota zeta delta
      [play bind attr deref assign emit log ret audiofile_readframes
       self hw io ready loop negb with_fstop with_framedata with_audiofile
       total_frames audiofile dac framerate fst snd].
    reflexivity. }
  split.
  { eexists.
    cbv beta iota zeta delta
      [stop bind attr deref assign emit ret dac_write
       self hw io ready loop negb with_fstop dac].
    reflexivity. }
  split; [discriminate|]. split; [reflexivity|].
  cbv beta iota zeta delta
    [play stop dac_write bind attr deref assign emit log ret audiofile_readframes
     self hw io ready loop negb with_fstop with_framedata with_audiofile
     total_frames audiofile dac framerate fst snd returns world_of].
  repeat split.
Qed.

(** * The properties on sample sessions *)

Lemma demo_ready (name : string) (pwm thread : bool) (f : Wave.Wave_read) :
  Demo.disk name = Some f -> Wave.well_formed f -> Wave.framerate f <> 0 ->
  Wave.soundpos f = 0 ->
  ready_to_stream f 2048 pwm (Demo.started name pwm false thread).
Proof.
  intros Hd Hwf Hr Hc.
  destruct (begin_ready_to_stream Demo.pclk1 Demo.disk Demo.open_error name pwm thread f Hd Hwf Hr)
    as (w & E & Hw & _).
  unfold Demo.started. rewrite E. cbn [world_of].
  rewrite <- Hc, at_pos_cursor in Hw. exact Hw.
Qed.

Lemma tone8_ready (pwm thread : bool) :
  ready_to_stream Demo.tone8 2048 pwm (Demo.started "tone8.wav" pwm false thread).
Proof.
  apply demo_ready; try reflexivity.
  - repeat split; vm_compute; congruence.
  - discriminate.
Qed.

Lemma tone16_ready (pwm thread : bool) :
  ready_to_stream Demo.tone16 2048 pwm (Demo.started "tone16.wav" pwm false thread).
Proof.
  apply demo_ready; try reflexivity.
  - repeat split; vm_compute; congruence.
  - discriminate.
Qed.

Lemma pair8_ready (pwm thread : bool) :
  ready_to_stream Demo.pair8 2048 pwm (Demo.started "pair8.wav" pwm false thread).
Proof.
  apply demo_ready; try reflexivity.
  - repeat split; vm_compute; congruence.
  - discriminate.
Qed.

Lemma short8_ready (pwm thread : bool) :
  ready_to_stream Demo.short8 2048 pwm (Demo.started "short8.wav" pwm false thread).
Proof.
  apply demo_ready; try reflexivity.
  - repeat split; vm_compute; congruence.
  - discriminate.
Qed.

(** After a first playback the player is still ready to stream, with the
    cursor of its file at frame 4096. *)
Lemma played8_ready :
  ready_to_stream (Wave.at_pos Demo.tone8 4096) 2048 true Demo.played8.
Proof.
  split; vm_compute; try reflexivity; try discriminate;
    repeat split; congruence.
Qed.

(** The same players when [play] has cleared the stop flag and enters a
    streaming method. *)
Lemma entered8_ready (pwm thread : bool) :
  ready_to_stream Demo.tone8 2048 pwm (Bench.entered "tone8.wav" pwm thread).
Proof. apply ready_to_stream_fstop, tone8_ready. Qed.

Lemma entered16_ready (pwm thread : bool) :
  ready_to_stream Demo.tone16 2048 pwm (Bench.entered "tone16.wav" pwm thread).
Proof. apply ready_to_stream_fstop, tone16_ready. Qed.

(** C1 on the three paths, each entered as [play] enters it, with the stop
    flag cleared.  The 16-bit file on the pulse output, in a thread, while
    the caller turns the volume up and then stops: one chunk at level 11,
    whose first samples 16384 and -128 give [128 + 16384 // (2 * 128)] and
    [128 + -128 // (2 * 128)].  The same file on the converter, alone: two
    chunks at level 10, starting with [2048 + 16384 // (3 * 16)] and
    [2048 + -128 // (3 * 16)].  The 8-bit file on the pulse output, alone:
    two chunks at level 10, starting with [0 // 3] and [64 // 3]. *)
Lemma streamed_sample_values_witness :
  let sch := Demo.stop_after_first in
  let p16 := Bench.entered "tone16.wav" true true in
  let d16 := Bench.entered "tone16.wav" false false in
  let w8 := Bench.entered "tone8.wav" true false in
  (ready_to_stream Demo.tone16 2048 true p16 /\
   Wave.sampwidth Demo.tone16 = 2 /\
   fstop (self p16) = false /\
   written sch (control_of (self p16)) Demo.tone16 2048 = 1%nat /\
   fst (at_snapshot sch (control_of (self p16)) 0) = 11 /\
   hw (world_of (_play16 Demo.pace sch p16)) = hw p16 ++
     flat_map (fun j =>
       flat_map (fun s =>
         [ PulseWidth
             (128 + s / (divisor (fst (at_snapshot sch (control_of (self p16)) j))
                         * 128));
           Udelay (Demo.pace (Wave.framerate Demo.tone16) 95) ])
         (Py.array_h (chunk Demo.tone16 2048 j)))
       (seq 0 (written sch (control_of (self p16)) Demo.tone16 2048)) /\
   firstn 4 (hw (world_of (_play16 Demo.pace sch p16))) =
     [PulseWidth 192; Udelay 86; PulseWidth 127; Udelay 86] /\
   length (hw (world_of (_play16 Demo.pace sch p16))) = 4096%nat) /\
  (ready_to_stream Demo.tone16 2048 false d16 /\
   written alone (control_of (self d16)) Demo.tone16 2048 = 2%nat /\
   fst (at_snapshot alone (control_of (self d16)) 0) = 10 /\
   hw (world_of (_play16 Demo.pace alone d16)) = hw d16 ++
     flat_map (fun j =>
       flat_map (fun s =>
         [ DacWrite
             (2048 + s / (divisor (fst (at_snapshot alone (control_of (self d16)) j))
                          * 16));
           Udelay (Demo.pace (Wave.framerate Demo.tone16) 95) ])
         (Py.array_h (chunk Demo.tone16 2048 j)))
       (seq 0 (written alone (control_of (self d16)) Demo.tone16 2048)) /\
   firstn 4 (hw (world_of (_play16 Demo.pace alone d16))) =
     [DacWrite 2389; Udelay 86; DacWrite 2045; Udelay 86] /\
   length (hw (world_of (_play16 Demo.pace alone d16))) = (2 * 4096)%nat) /\
  (ready_to_stream Demo.tone8 2048 true w8 /\
   Wave.sampwidth Demo.tone8 = 1 /\
   written alone (control_of (self w8)) Demo.tone8 2048 = 2%nat /\
   hw (world_of (_play8 Demo.pace alone w8)) = hw w8 ++
     flat_map (fun j =>
       flat_map (fun s =>
         [ PulseWidth
             (s / divisor (fst (at_snapshot alone (control_of (self w8)) j)));
           Udelay (Demo.pace (Wave.framerate Demo.tone8) 90) ])
         (Py.array_B (chunk Demo.tone8 2048 j)))
       (seq 0 (written alone (control_of (self w8)) Demo.tone8 2048)) /\
   firstn 4 (hw (world_of (_play8 Demo.pace alone w8))) =
     [PulseWidth 0; Udelay 112; PulseWidth 21; Udelay 112] /\
   length (hw (world_of (_play8 Demo.pace alone w8))) = (2 * 4096)%nat).
Proof.
  cbv zeta. split; [|split].
  - pose proof (proj2 (proj1 (proj2 (streamed_sample_values Demo.pace
             Demo.stop_after_first Demo.tone16 2048 true _
             (entered16_ready true true))) eq_refl)) as E.
    cbv zeta in E.
    split; [apply entered16_ready|]. split; [reflexivity|].
    split; [vm_compute; reflexivity|]. split; [vm_compute; reflexivity|].
    split; [vm_compute; reflexivity|]. split; [exact E|].
    rewrite E. split; vm_compute; reflexivity.
  - pose proof (proj2 (proj1 (proj2 (streamed_sample_values Demo.pace
             alone Demo.tone16 2048 false _
             (entered16_ready false false))) eq_refl)) as E.
    cbv zeta in E.
    split; [apply entered16_ready|].
    split; [vm_compute; reflexivity|]. split; [vm_compute; reflexivity|].
    split; [exact E|].
    rewrite E. split; vm_compute; reflexivity.
  - pose proof (proj2 (proj2 (proj2 (streamed_sample_values Demo.pace alone
             Demo.tone8 2048 true _ (entered8_ready true false)))
             eq_refl)) as E.
    cbv zeta in E.
    split; [apply entered8_ready|]. split; [reflexivity|].
    split; [vm_compute; reflexivity|]. split; [exact E|].
    rewrite E. split; vm_compute; reflexivity.
Defined.

(** C2 on a file shorter than one chunk and on a file of two chunks and a
    partial one, each played once after [begin]. *)
Lemma final_partial_chunk_not_played_witness :
  let ws := Demo.started "short8.wav" true false false in
  let wt := Demo.started "tone8.wav" true false false in
  (ready_to_stream Demo.short8 2048 true ws /\ 1000 < 2048 /\
   hw (world_of (play Demo.pace alone ws)) = hw ws /\
   io (world_of (play Demo.pace alone ws)) = io ws) /\
  (ready_to_stream Demo.tone8 2048 true wt /\
   Wave.soundpos Demo.tone8 = 0 /\ 5000 mod 2048 <> 0 /\
   exists m : nat,
     (forall j, (j < m)%nat ->
        chunk_start Demo.tone8 2048 j = position 2048 j - 2048 /\
        position 2048 j <= 2048 * (5000 / 2048)) /\
     2048 * (5000 / 2048) < 5000 /\
     hw (world_of (play Demo.pace alone wt)) = hw wt ++
       expected_play Demo.pace true (effective wt alone)
         (volume (self wt), false) Demo.tone8 2048 m /\
     io (world_of (play Demo.pace alone wt)) = io wt ++
       expected_reads Demo.tone8 2048 m).
Proof.
  split.
  - split; [apply short8_ready|]. split; [reflexivity|].
    exact (proj1 (final_partial_chunk_not_played Demo.pace alone Demo.short8
             2048 true _ (short8_ready true false) (or_introl eq_refl))
             eq_refl).
  - split; [apply tone8_ready|]. split; [reflexivity|].
    assert (H : 5000 mod 2048 <> 0) by discriminate.
    split; [exact H|].
    exact (proj2 (final_partial_chunk_not_played Demo.pace alone Demo.tone8
             2048 true _ (tone8_ready true false) (or_introl eq_refl))
             eq_refl H).
Defined.

(** C2 does not extend to a second [play()]: the cursor is where the first
    playback left it, at frame [2048 * (5000 // 2048) = 4096], and the 904
    samples of the final partial chunk are written before the loop raises. *)
Lemma second_play_writes_partial_chunk :
  5000 mod 2048 <> 0 /\
  length (Wave.frames Demo.tone8 (2048 * (5000 / 2048)) 5000) = 904%nat /\
  hw (world_of (play Demo.pace alone Demo.played8)) =
    hw Demo.played8 ++
    expected8 true (Demo.pace 8000 90) 10
      (Py.array_B (Wave.frames Demo.tone8 (2048 * (5000 / 2048)) 5000)).
Proof.
  split; [discriminate|].
  split; vm_compute; reflexivity.
Qed.

(** C3 on a file of 4096 frames with the buffer of 2048: 2048 writes. *)
Lemma two_chunk_file_plays_one_chunk_witness :
  let w := Demo.started "pair8.wav" true false false in
  ready_to_stream Demo.pair8 2048 true w /\
  Wave.soundpos Demo.pair8 = 0 /\
  Wave.sampwidth Demo.pair8 = 1 /\
  Wave.nframes Demo.pair8 = 2 * 2048 /\
  returns (play Demo.pace alone w) = true /\
  exists out,
    hw (world_of (play Demo.pace alone w)) = hw w ++ out /\
    Z.of_nat (length (writes out)) <= 2048 /\
    (threading (self w) = false -> Z.of_nat (length (writes out)) = 2048) /\
    Z.of_nat (length (writes out)) <> 2 * 2048.
Proof.
  split; [apply pair8_ready|]. split; [reflexivity|].
  split; [reflexivity|]. split; [reflexivity|].
  exact (two_chunk_file_plays_one_chunk Demo.pace alone Demo.pair8 2048 true _
           (pair8_ready true false) eq_refl eq_refl eq_refl).
Defined.

(** The same session, evaluated: the log of [play] holds 2048 writes. *)
Example pair8_writes :
  length (writes (hw (world_of
    (play Demo.pace alone (Demo.started "pair8.wav" true false false)))))
  = 2048%nat.
Proof. vm_compute. reflexivity. Qed.

(** C4 on the 8-bit and the 16-bit file of 5000 frames, each streamed
    from its first frame with the stop flag cleared, as [play] enters the
    method after [begin]: two iterations, at the positions 2048 and 4096,
    whose reads are issued at the frames 0 and 2048 and return 2048 frames
    each. *)
Lemma chunk_reads_in_bounds_witness :
  let w8 := Bench.entered "tone8.wav" true false in
  let w16 := Bench.entered "tone16.wav" false false in
  (ready_to_stream Demo.tone8 2048 true w8 /\
   Wave.soundpos Demo.tone8 = 0 /\
   Wave.sampwidth Demo.tone8 = 1 /\
   fstop (self w8) = false /\
   streamed alone (control_of (self w8)) 2048 5000 = 2%nat /\
   returns (_play8 Demo.pace alone w8) = true /\
   io (world_of (_play8 Demo.pace alone w8)) = io w8 ++
     flat_map (fun j =>
       [ReadFrames (position 2048 j - 2048) 2048
          (Wave.frames Demo.tone8 (position 2048 j - 2048) (position 2048 j));
        SetPos (position 2048 j)])
       (seq 0 (streamed alone (control_of (self w8)) 2048 5000)) /\
   io (world_of (_play8 Demo.pace alone w8)) =
     [ReadFrames 0 2048 (Wave.frames Demo.tone8 0 2048); SetPos 2048;
      ReadFrames 2048 2048 (Wave.frames Demo.tone8 2048 4096); SetPos 4096] /\
   length (Wave.frames Demo.tone8 0 2048) = 2048%nat /\
   length (Wave.frames Demo.tone8 2048 4096) = 2048%nat) /\
  (ready_to_stream Demo.tone16 2048 false w16 /\
   Wave.soundpos Demo.tone16 = 0 /\
   Wave.sampwidth Demo.tone16 = 2 /\
   fstop (self w16) = false /\
   streamed alone (control_of (self w16)) 2048 5000 = 2%nat /\
   returns (_play16 Demo.pace alone w16) = true /\
   io (world_of (_play16 Demo.pace alone w16)) = io w16 ++
     flat_map (fun j =>
       [ReadFrames (position 2048 j - 2048) 2048
          (Wave.frames Demo.tone16 (position 2048 j - 2048) (position 2048 j));
        SetPos (position 2048 j)])
       (seq 0 (streamed alone (control_of (self w16)) 2048 5000)) /\
   io (world_of (_play16 Demo.pace alone w16)) =
     [ReadFrames 0 2048 (Wave.frames Demo.tone16 0 2048); SetPos 2048;
      ReadFrames 2048 2048 (Wave.frames Demo.tone16 2048 4096); SetPos 4096] /\
   length (Py.array_h (Wave.frames Demo.tone16 0 2048)) = 2048%nat /\
   length (Py.array_h (Wave.frames Demo.tone16 2048 4096)) = 2048%nat).
Proof.
  split.
  - split; [apply entered8_ready|]. split; [reflexivity|]. split; [reflexivity|].
    split; [vm_compute; reflexivity|]. split; [vm_compute; reflexivity|].
    pose proof (proj1 (proj2 (proj2 (proj2 (chunk_reads_in_bounds Demo.pace alone
             Demo.tone8 2048 true _ (entered8_ready true false) eq_refl))))
             eq_refl)
      as (H1 & H2 & _).
    split; [exact H1|]. split; [exact H2|].
    split; [vm_compute; reflexivity|]. split; vm_compute; reflexivity.
  - split; [apply entered16_ready|]. split; [reflexivity|]. split; [reflexivity|].
    split; [vm_compute; reflexivity|]. split; [vm_compute; reflexivity|].
    pose proof (proj2 (proj2 (proj2 (proj2 (chunk_reads_in_bounds Demo.pace alone
             Demo.tone16 2048 false _ (entered16_ready false false) eq_refl))))
             eq_refl)
      as (H1 & H2 & _).
    split; [exact H1|]. split; [exact H2|].
    split; [vm_compute; reflexivity|]. split; vm_compute; reflexivity.
Defined.

(** C4 does not extend to a second [play()]: the iteration at position
    2048 reads with the cursor at frame 4096, not at [2048 - 2048]; the read
    returns the 904 frames the file has left, not 2048, and [buf[904]]
    raises [IndexError]. *)
Lemma second_play_reads_short :
  exists bytes w2,
    play Demo.pace alone Demo.played8 = Raise Py.IndexError w2 /\
    io w2 = io Demo.played8 ++ [ReadFrames 4096 2048 bytes; SetPos 2048] /\
    length bytes = 904%nat /\
    length (Py.array_B bytes) = 904%nat.
Proof.
  do 2 eexists.
  split; [vm_compute; reflexivity|].
  split; [vm_compute; reflexivity|].
  split; vm_compute; reflexivity.
Qed.

(** C5 on the 8-bit and the 16-bit file streamed in a thread, entered as
    [play] enters the method, with the stop flag cleared: the file has two
    chunks to stream; the stop test of the first finds the flag clear and
    the chunk is written, 2048 values; the caller's [stop()] lands while
    it is written and is found by the stop test of the second chunk, so
    exactly one chunk is streamed and nothing of the second reaches the
    output. *)
Lemma stop_ends_streaming_witness :
  let sch := Demo.stop_after_first in
  let w8 := Bench.entered "tone8.wav" true true in
  let w16 := Bench.entered "tone16.wav" true true in
  (ready_to_stream Demo.tone8 2048 true w8 /\
   fstop (self w8) = false /\
   chunk_count 2048 (Wave.nframes Demo.tone8) = 2%nat /\
   snd (at_test sch (control_of (self w8)) 0) = false /\
   snd (at_test sch (control_of (self w8)) 1) = true /\
   Wave.sampwidth Demo.tone8 = 1 /\
   streamed sch (control_of (self w8)) 2048 5000 = 1%nat /\
   written sch (control_of (self w8)) Demo.tone8 2048 = 1%nat /\
   hw (world_of (_play8 Demo.pace sch w8)) = hw w8 ++
     expected_output (expected8 true (Demo.pace 8000 90)) Py.array_B sch
       (control_of (self w8)) Demo.tone8 2048
       (written sch (control_of (self w8)) Demo.tone8 2048) /\
   length (writes (hw (world_of (_play8 Demo.pace sch w8)))) = 2048%nat) /\
  (ready_to_stream Demo.tone16 2048 true w16 /\
   fstop (self w16) = false /\
   chunk_count 2048 (Wave.nframes Demo.tone16) = 2%nat /\
   snd (at_test sch (control_of (self w16)) 0) = false /\
   snd (at_test sch (control_of (self w16)) 1) = true /\
   Wave.sampwidth Demo.tone16 = 2 /\
   streamed sch (control_of (self w16)) 2048 5000 = 1%nat /\
   written sch (control_of (self w16)) Demo.tone16 2048 = 1%nat /\
   hw (world_of (_play16 Demo.pace sch w16)) = hw w16 ++
     expected_output (expected16 true (Demo.pace 11025 95)) Py.array_h sch
       (control_of (self w16)) Demo.tone16 2048
       (written sch (control_of (self w16)) Demo.tone16 2048) /\
   length (writes (hw (world_of (_play16 Demo.pace sch w16)))) = 2048%nat).
Proof.
  cbv zeta. split.
  - assert (Hgo : snd (at_test Demo.stop_after_first
                         (control_of (self (Bench.entered "tone8.wav" true true)))
                         0) = false) by (vm_compute; reflexivity).
    assert (Hs : snd (at_test Demo.stop_after_first
                        (control_of (self (Bench.entered "tone8.wav" true true)))
                        1) = true) by (vm_compute; reflexivity).
    pose proof (stop_ends_streaming Demo.pace Demo.stop_after_first Demo.tone8
                  2048 true _ 1 (entered8_ready true true) Hs)
      as (H1 & H2 & H3 & _).
    pose proof (proj1 (H3 eq_refl)) as E. cbv zeta in E.
    split; [apply entered8_ready|].
    split; [vm_compute; reflexivity|]. split; [vm_compute; reflexivity|].
    split; [exact Hgo|]. split; [exact Hs|]. split; [reflexivity|].
    split.
    { apply H2; [vm_compute; apply le_n|].
      intros [|j] Hj; [exact Hgo|lia]. }
    split; [vm_compute; reflexivity|].
    split; [exact E|].
    rewrite E. vm_compute. reflexivity.
  - assert (Hgo : snd (at_test Demo.stop_after_first
                         (control_of (self (Bench.entered "tone16.wav" true true)))
                         0) = false) by (vm_compute; reflexivity).
    assert (Hs : snd (at_test Demo.stop_after_first
                        (control_of (self (Bench.entered "tone16.wav" true true)))
                        1) = true) by (vm_compute; reflexivity).
    pose proof (stop_ends_streaming Demo.pace Demo.stop_after_first Demo.tone16
                  2048 true _ 1 (entered16_ready true true) Hs)
      as (H1 & H2 & _ & H3).
    pose proof (proj1 (H3 eq_refl)) as E. cbv zeta in E.
    split; [apply entered16_ready|].
    split; [vm_compute; reflexivity|]. split; [vm_compute; reflexivity|].
    split; [exact Hgo|]. split; [exact Hs|]. split; [reflexivity|].
    split.
    { apply H2; [vm_compute; apply le_n|].
      intros [|j] Hj; [exact Hgo|lia]. }
    split; [vm_compute; reflexivity|].
    split; [exact E|].
    rewrite E. vm_compute. reflexivity.
Defined.

(** C7 at index 3: [volumes[3] > volumes[4]]. *)
Lemma volume_table_strictly_decreasing_witness :
  0 <= 3 <= 11 /\
  exists d d',
    Py.index (volumes (AUDIO_PLAYER "tone8.wav" true false false)) 3 = Some d /\
    Py.index (volumes (AUDIO_PLAYER "tone8.wav" true false false)) (3 + 1) = Some d' /\
    d > d'.
Proof.
  assert (H : 0 <= 3 <= 11) by lia.
  split; [exact H|].
  exact (proj2 (proj2 (proj2
    (volume_table_strictly_decreasing "tone8.wav" true false false))) 3 H).
Defined.

(** C8 at 13, at -1 and at 7 on a fresh player. *)
Lemma set_volume_in_and_out_of_range_witness :
  let w := boot (AUDIO_PLAYER "tone8.wav" true false false) in
  ((13 < 0 \/ 12 < 13) /\ set_volume 13 w = Return tt w) /\
  ((-1 < 0 \/ 12 < -1) /\ set_volume (-1) w = Return tt w) /\
  (0 <= 7 <= 12 /\
   set_volume 7 w = Return tt (mkWorld (with_volume 7 (self w)) (hw w) (io w))).
Proof.
  split; [|split].
  - assert (H : 13 < 0 \/ 12 < 13) by lia.
    split; [exact H|].
    exact (proj1 (set_volume_in_and_out_of_range 13 _) H).
  - assert (H : -1 < 0 \/ 12 < -1) by lia.
    split; [exact H|].
    exact (proj1 (set_volume_in_and_out_of_range (-1) _) H).
  - assert (H : 0 <= 7 <= 12) by lia.
    split; [exact H|].
    exact (proj1 (proj2 (set_volume_in_and_out_of_range 7 _)) H).
Defined.

(** C9 on a fresh player (level 10) and on players set to 0 and to 12. *)
Lemma volume_up_down_saturate_witness :
  let w10 := boot (AUDIO_PLAYER "tone8.wav" true false false) in
  let w0 := world_of (set_volume 0 w10) in
  let w12 := world_of (set_volume 12 w10) in
  (0 <= volume (self w10) <= 12 /\
   volume_up w10 = Return tt (mkWorld (with_volume 11 (self w10)) [] []) /\
   volume_down w10 = Return tt (mkWorld (with_volume 9 (self w10)) [] [])) /\
  (0 <= volume (self w0) <= 12 /\
   volume_down w0 = Return tt w0 /\
   volume (self (world_of (times 20 volume_up w0))) = 12) /\
  (0 <= volume (self w12) <= 12 /\
   volume_up w12 = Return tt w12 /\
   volume (self (world_of (times 20 volume_down w12))) = 0).
Proof.
  split; [|split].
  - assert (H : 0 <= volume (self (boot (AUDIO_PLAYER "tone8.wav" true false false))) <= 12)
      by (cbn; lia).
    split; [exact H|].
    pose proof (volume_up_down_saturate _ H) as (H1 & _ & H3 & _).
    split; [apply H1; cbn; lia|apply H3; cbn; lia].
  - assert (H : 0 <= volume (self (world_of (set_volume 0
                  (boot (AUDIO_PLAYER "tone8.wav" true false false))))) <= 12)
      by (cbn; lia).
    split; [exact H|].
    pose proof (volume_up_down_saturate _ H) as (_ & _ & _ & H4 & _ & _ & H7 & _).
    split; [apply H4; reflexivity|apply H7; reflexivity].
  - assert (H : 0 <= volume (self (world_of (set_volume 12
                  (boot (AUDIO_PLAYER "tone8.wav" true false false))))) <= 12)
      by (cbn; lia).
    split; [exact H|].
    pose proof (volume_up_down_saturate _ H) as (_ & H2 & _ & _ & _ & _ & _ & H8).
    split; [apply H2; reflexivity|apply H8; reflexivity].
Defined.

(** C10 on the 8-bit file of the sample disk. *)
Lemma loop_mode_needs_converter_witness :
  Demo.disk "tone8.wav" = Some Demo.tone8 /\
  dac (self (Demo.started "tone8.wav" true true false)) = None /\
  (exists w', play Demo.pace alone (Demo.started "tone8.wav" true true false)
              = Raise Py.AttributeError w') /\
  (exists w', stop (Demo.started "tone8.wav" true true false)
              = Raise Py.AttributeError w') /\
  returns (play Demo.pace alone (Demo.started "tone8.wav" false true false)) = true /\
  returns (stop (Demo.started "tone8.wav" false true false)) = true.
Proof.
  assert (H : Demo.disk "tone8.wav" = Some Demo.tone8) by reflexivity.
  split; [exact H|].
  pose proof (loop_mode_needs_converter Demo.pclk1 Demo.disk Demo.open_error Demo.pace alone
                "tone8.wav" false Demo.tone8 H)
    as (_ & H1 & _ & H2 & H3 & _ & _ & H4 & H5 & _).
  split; [exact H1|]. split; [exact H2|]. split; [exact H3|].
  split; [exact H4|exact H5].
Defined.


(** * Further properties of the player *)

(** ** Before [begin], and when [begin] fails *)

(** X1: when [wave.open] cannot open the file, [begin] passes on the
    exception of the library, whichever it is, before it assigns anything,
    so the player stays as constructed, not ready; [play] and [stop] on it
    return at once and touch neither the peripherals nor the stop flag. *)
Theorem failed_begin_leaves_player_inert pclk1 disk open_error pace sch
    (name : string) (pwm lp thread : bool) :
  disk name = None ->
  let w0 := boot (AUDIO_PLAYER name pwm lp thread) in
  begin pclk1 disk open_error w0 = Raise (open_error name) w0 /\
  play pace sch (world_of (begin pclk1 disk open_error w0)) = Return tt w0 /\
  stop (world_of (begin pclk1 disk open_error w0)) = Return tt w0 /\
  stop (world_of (play pace sch (world_of (begin pclk1 disk open_error w0)))) = Return tt w0.
Proof.
  intros Hd w0.
  assert (Hb : begin pclk1 disk open_error w0 = Raise (open_error name) w0).
  { unfold begin, bind, attr, wave_open. subst w0.
    cbn [boot self filename AUDIO_PLAYER]. rewrite Hd. reflexivity. }
  rewrite Hb. cbn [world_of].
  split; [reflexivity|]. split; [reflexivity|]. split; reflexivity.
Qed.

(** ** The controls *)

(** What a call of the other context may change: the level, the stop flag
    and, for [stop] in loop mode, the output log. *)
Lemma call_frame (c : command) (w : World) :
  let w' := world_of (call c w) in
  (0 <= volume (self w) <= 12 -> 0 <= volume (self w') <= 12) /\
  (fstop (self w) = true -> fstop (self w') = true) /\
  io w' = io w /\
  (loop (self w) = false -> hw w' = hw w) /\
  with_fstop false (with_volume 0 (self w')) =
    with_fstop false (with_volume 0 (self w)).
Proof.
  destruct w as [p h l]. destruct p. cbv zeta.
  destruct c; cbn [call].
  - destruct ready0, loop0, dac0; cbn;
      repeat split; auto; try discriminate; lia.
  - unfold volume_up, bind, attr, assign, ret. cbn [self volume].
    destruct (Z.ltb_spec volume0 12);
      cbn [world_of self hw io volume fstop loop with_fstop with_volume];
      repeat split; auto; lia.
  - unfold volume_down, bind, attr, assign, ret. cbn [self volume].
    destruct (Z.gtb_spec volume0 0);
      cbn [world_of self hw io volume fstop loop with_fstop with_volume];
      repeat split; auto; lia.
  - unfold set_volume, assign, ret.
    destruct (Z.leb_spec 0 v), (Z.leb_spec v 12);
      cbn [andb world_of self hw io volume fstop loop with_fstop with_volume];
      repeat split; auto; lia.
Qed.

Lemma frame_loop (p q : Player) :
  with_fstop false (with_volume 0 p) = with_fstop false (with_volume 0 q) ->
  loop p = loop q.
Proof.
  intros H. apply (f_equal loop) in H. exact H.
Qed.

(** X2: whatever calls of [stop], [volume_up], [volume_down] and
    [set_volume] are made, in any order, the level stays in [0,12], a stop
    flag that is set stays set, the file log is untouched, and no attribute
    but the level and the stop flag changes; in non-loop mode the output
    log is untouched too. *)
Theorem controls_keep_player_intact (cs : list command) (w : World) :
  0 <= volume (self w) <= 12 ->
  let w' := world_of (interleave cs w) in
  0 <= volume (self w') <= 12 /\
  (fstop (self w) = true -> fstop (self w') = true) /\
  io w' = io w /\
  (loop (self w) = false -> hw w' = hw w) /\
  with_fstop false (with_volume 0 (self w')) =
    with_fstop false (with_volume 0 (self w)).
Proof.
  unfold interleave. cbn [world_of]. revert w.
  induction cs as [|c cs IH]; intros w Hv; cbn [fold_left].
  - repeat split; auto; lia.
  - destruct (call_frame c w) as (H1 & H2 & H3 & H4 & H5).
    destruct (IH (world_of (call c w)) (H1 Hv)) as (G1 & G2 & G3 & G4 & G5).
    split; [exact G1|]. split; [auto|]. split; [congruence|].
    split; [|congruence].
    intros Hl. rewrite G4, H4; auto.
    rewrite (frame_loop _ _ H5). exact Hl.
Qed.

(** X3: [volume_down] after [volume_up] gives back the very same player
    from any level in [0,11], and [volume_up] after [volume_down] from any
    level in [1,12]; at the ends of the scale the pair moves the level by
    one: 12 becomes 11 and 0 becomes 1. *)
Theorem volume_up_down_round_trip (w : World) :
  (0 <= volume (self w) < 12 ->
   world_of (volume_down (world_of (volume_up w))) = w) /\
  (0 < volume (self w) <= 12 ->
   world_of (volume_up (world_of (volume_down w))) = w) /\
  (volume (self w) = 12 ->
   volume (self (world_of (volume_down (world_of (volume_up w))))) = 11) /\
  (volume (self w) = 0 ->
   volume (self (world_of (volume_up (world_of (volume_down w))))) = 1).
Proof.
  destruct w as [p h l]. destruct p. cbn [self volume].
  unfold volume_up, volume_down, bind, attr, assign, ret.
  cbn [self volume].
  repeat split; intros Hv.
  - destruct (Z.ltb_spec volume0 12); [|lia].
    cbn [world_of self volume with_volume].
    destruct (Z.gtb_spec (volume0 + 1) 0); [|lia].
    replace (volume0 + 1 - 1) with volume0 by lia. reflexivity.
  - destruct (Z.gtb_spec volume0 0); [|lia].
    cbn [world_of self volume with_volume].
    destruct (Z.ltb_spec (volume0 - 1) 12); [|lia].
    replace (volume0 - 1 + 1) with volume0 by lia. reflexivity.
  - subst. reflexivity.
  - subst. reflexivity.
Qed.

(** X4: on a player that is ready and not in loop mode, [stop] sets the
    stop flag and nothing else, a second [stop] changes nothing more, and
    a [stop] made before [play] is forgotten: [play] clears the flag first,
    so it does exactly what it does without that [stop]. *)
Theorem stop_before_play_is_forgotten pace sch (w : World) :
  ready (self w) = true -> loop (self w) = false ->
  stop w = Return tt (mkWorld (with_fstop true (self w)) (hw w) (io w)) /\
  stop (world_of (stop w)) = stop w /\
  play pace sch (world_of (stop w)) = play pace sch w.
Proof.
  intros Hr Hl.
  assert (Hs : stop w = Return tt (mkWorld (with_fstop true (self w)) (hw w) (io w))).
  { unfold stop, bind, attr, assign, ret. rewrite Hr. cbn [negb self loop with_fstop].
    rewrite Hl. reflexivity. }
  split; [exact Hs|]. rewrite Hs. cbn [world_of]. split.
  - unfold stop, bind, attr, assign, ret.
    cbn [self hw io ready loop with_fstop]. rewrite Hr. cbn [negb].
    cbn [self hw io loop with_fstop]. rewrite Hl. reflexivity.
  - unfold play, bind, attr, assign.
    cbn [self hw io ready with_fstop]. rewrite Hr. cbn [negb].
    reflexivity.
Qed.

(** ** A sample rate of zero *)

(** X5: with a sample rate of 0 in the header, [1 / self.framerate] raises
    [ZeroDivisionError] when a streaming method starts, before the period
    is stored and before any read or write.  [play] without a thread passes
    the exception on, having cleared the stop flag; with a thread it
    returns and nothing is played. *)
Theorem zero_rate_raises_before_any_output pace sch (w : World) :
  framerate (self w) = Some 0 ->
  _play8 pace sch w = Raise Py.ZeroDivisionError w /\
  _play16 pace sch w = Raise Py.ZeroDivisionError w /\
  (ready (self w) = true -> loop (self w) = false ->
   let w0 := mkWorld (with_fstop false (self w)) (hw w) (io w) in
   (threading (self w) = false ->
    play pace sch w = Raise Py.ZeroDivisionError w0) /\
   (threading (self w) = true ->
    play pace sch w =
      Return tt (mkWorld (with_pthread (Some tt) (self w0)) (hw w) (io w)))).
Proof.
  intros Hf.
  assert (H8 : forall s v, framerate (self v) = Some 0 ->
                 _play8 pace s v = Raise Py.ZeroDivisionError v).
  { intros s v Hv. unfold _play8, bind, deref. rewrite Hv. reflexivity. }
  assert (H16 : forall s v, framerate (self v) = Some 0 ->
                  _play16 pace s v = Raise Py.ZeroDivisionError v).
  { intros s v Hv. unfold _play16, bind, deref. rewrite Hv. reflexivity. }
  split; [now apply H8|]. split; [now apply H16|].
  intros Hr Hl w0.
  assert (Hf0 : framerate (self w0) = Some 0) by exact Hf.
  assert (Hp : play pace sch w =
               if adatawidth (self w) =? 8 then
                 if threading (self w) then start_new_thread (_play8 pace sch) w0
                 else _play8 pace alone w0
               else
                 if threading (self w) then start_new_thread (_play16 pace sch) w0
                 else _play16 pace alone w0).
  { unfold play. unfold bind at 1, attr at 1. rewrite Hr. cbn [negb].
    unfold bind at 1, assign at 1. unfold bind at 1, attr at 1.
    cbn [self with_fstop loop]. rewrite Hl.
    unfold bind at 1, attr at 1. unfold bind at 1, attr at 1.
    cbn [self with_fstop adatawidth threading].
    destruct (adatawidth (self w) =? 8); destruct (threading (self w));
      reflexivity. }
  rewrite Hp. split; intros Ht; rewrite Ht.
  - destruct (adatawidth (self w) =? 8); [now apply H8|now apply H16].
  - unfold start_new_thread.
    destruct (adatawidth (self w) =? 8);
      [rewrite (H8 sch w0 Hf0)|rewrite (H16 sch w0 Hf0)]; reflexivity.
Qed.

(** ** [begin] on any player *)

(** [begin] on a non-loop player, fresh or used: the file is opened anew
    with its cursor on the first frame; the logs, the level and the stop
    flag are left alone. *)
Lemma begin_again pclk1 disk open_error (f0 : Wave.Wave_read) (b : Z) (w : World) :
  disk (filename (self w)) = Some f0 ->
  Wave.well_formed f0 -> Wave.framerate f0 <> 0 ->
  loop (self w) = false ->
  buffersize (self w) = b -> 0 < b ->
  volumes (self w) = [49;31;21;15;11;9;7;6;5;4;3;2;1] ->
  0 <= volume (self w) <= 12 ->
  (pwm_mode (self w) = false -> pwm_out (self w) = None) ->
  exists w',
    begin pclk1 disk open_error w = Return tt w' /\
    ready_to_stream (Wave.at_pos f0 0) b (pwm_mode (self w)) w' /\
    hw w' = hw w /\ io w' = io w /\
    control_of (self w') = control_of (self w) /\
    threading (self w') = threading (self w).
Proof.
  intros Hd Hwf Hrate Hl Hb Hpos Hvs Hv Hout.
  pose proof Hwf as (Hs & Hn & Hlen).
  destruct w as [p h l]. destruct p. cbn [self] in *.
  cbn [filename loop buffersize volumes volume pwm_mode pwm_out] in *.
  unfold begin, bind, attr, wave_open, assign.
  cbn [self filename]. rewrite Hd.
  cbn [option_map lift ret self hw io pwm_mode with_audiofile with_adatawidth].
  destruct pwm_mode0.
  - eexists. split; [reflexivity|].
    split; [split; cbn; try first [assumption | reflexivity | lia | discriminate]|].
    cbn. auto.
  - rewrite (Hout eq_refl).
    eexists. split; [reflexivity|].
    split; [split; cbn; try first [assumption | reflexivity | lia | discriminate]|].
    cbn. auto.
Qed.

(** X6: [begin] can be called again on a used player: it reopens the file
    with the cursor on the first frame, so the [play] that follows streams
    the chunks [position - buffersize, position) from the start of the
    file and returns, whatever was played before; the level set earlier is
    kept. *)
Theorem begin_then_play_starts_at_first_frame pclk1 disk open_error pace sch
    (f0 : Wave.Wave_read) (b : Z) (w : World) :
  disk (filename (self w)) = Some f0 ->
  Wave.well_formed f0 -> Wave.framerate f0 <> 0 ->
  Wave.sampwidth f0 = 1 \/ Wave.sampwidth f0 = 2 ->
  loop (self w) = false ->
  buffersize (self w) = b -> 0 < b ->
  volumes (self w) = [49;31;21;15;11;9;7;6;5;4;3;2;1] ->
  0 <= volume (self w) <= 12 ->
  (pwm_mode (self w) = false -> pwm_out (self w) = None) ->
  let f := Wave.at_pos f0 0 in
  let w1 := world_of (begin pclk1 disk open_error w) in
  let s := (volume (self w), false) in
  let m := streamed (effective w sch) s b (Wave.nframes f0) in
  returns (begin pclk1 disk open_error w) = true /\
  audiofile (self w1) = Some f /\
  returns (play pace sch w1) = true /\
  (forall j, chunk_start f b j = position b j - b) /\
  hw (world_of (play pace sch w1)) = hw w ++
    expected_play pace (pwm_mode (self w)) (effective w sch) s f b m /\
  io (world_of (play pace sch w1)) = io w ++ expected_reads f b m.
Proof.
  intros Hd Hwf Hrate Hsw Hl Hb Hpos Hvs Hv Hout f w1 s m.
  destruct (begin_again pclk1 disk open_error f0 b w Hd Hwf Hrate Hl Hb Hpos Hvs Hv Hout)
    as (w' & E & Hw & Hh & Hi & Hc & Ht).
  subst w1. rewrite E. cbn [returns world_of].
  destruct (play_run pace sch (Wave.at_pos f0 0) b (pwm_mode (self w)) w' Hw Hsw)
    as (R & H & I).
  destruct (written_first_pass (effective w' sch) (volume (self w'), false)
              (Wave.at_pos f0 0) b Hpos eq_refl) as [Hwr Hok].
  assert (Hvol : volume (self w') = volume (self w))
    by (apply (f_equal fst) in Hc; exact Hc).
  assert (Heff : effective w' sch = effective w sch)
    by (unfold effective; now rewrite Ht).
  rewrite Hwr, Hvol, Heff in H, I. rewrite Hok, orb_true_r in R.
  split; [reflexivity|]. split; [exact (rs_audiofile _ _ _ _ Hw)|].
  split; [exact R|].
  split; [intros j; now apply chunk_start_aligned|].
  split; [rewrite <- Hh; exact H|rewrite <- Hi; exact I].
Qed.

(** ** Loop mode *)

Lemma frames_whole (f : Wave.Wave_read) :
  Wave.well_formed f -> Wave.frames f 0 (0 + Wave.nframes f) = Wave.data f.
Proof.
  intros (Hs & Hn & Hlen). unfold Wave.frames. cbn [Z.mul Z.to_nat skipn].
  apply firstn_all2. lia.
Qed.

Lemma frames_past_end (f : Wave.Wave_read) (n : Z) :
  Wave.well_formed f ->
  Wave.frames f (Wave.nframes f) (Wave.nframes f + n) = [].
Proof.
  intros (Hs & Hn & Hlen). unfold Wave.frames.
  rewrite skipn_all2 by lia. apply firstn_nil.
Qed.

(** [play] in loop mode with a converter: one read of [total_frames]
    frames at the cursor, handed whole to [write_timed]. *)
Lemma play_loop pace sch (f : Wave.Wave_read) (c rate : Z) (d : DAC) (w : World) :
  ready (self w) = true -> loop (self w) = true ->
  audiofile (self w) = Some (Wave.at_pos f c) ->
  Wave.well_formed f -> 0 <= c <= Wave.nframes f ->
  total_frames (self w) = Some (Wave.nframes f) ->
  framerate (self w) = Some rate ->
  dac (self w) = Some d ->
  let bytes := Wave.frames f c (c + Wave.nframes f) in
  exists w',
    play pace sch w = Return tt w' /\
    hw w' = hw w ++ [DacWriteTimed bytes rate] /\
    io w' = io w ++ [ReadFrames c (Wave.nframes f) bytes] /\
    audiofile (self w') = Some (Wave.at_pos f (Wave.nframes f)) /\
    framedata (self w') = Some bytes /\
    fstop (self w') = false /\
    ready (self w') = true /\ loop (self w') = true /\
    total_frames (self w') = Some (Wave.nframes f) /\
    framerate (self w') = Some rate /\ dac (self w') = Some d.
Proof.
  intros Hr Hl Ha Hwf Hc Ht Hf Hd bytes.
  pose proof Hwf as (_ & Hn & _).
  unfold play. unfold bind at 1, attr at 1. rewrite Hr. cbn [negb].
  unfold bind at 1, assign at 1. unfold bind at 1, attr at 1.
  cbn [self with_fstop loop]. rewrite Hl.
  unfold bind at 1, deref at 1. cbn [self with_fstop total_frames]. rewrite Ht.
  unfold bind at 1, audiofile_readframes. unfold bind at 1, deref at 1.
  cbn [self with_fstop audiofile]. rewrite Ha.
  rewrite readframes_at by (try assumption; lia).
  cbn [fst snd Wave.at_pos Wave.soundpos].
  unfold bind, assign, log, ret, deref, emit.
  cbn [self hw io dac framerate with_fstop with_audiofile with_framedata].
  rewrite Hd.
  cbn [self hw io dac framerate with_fstop with_audiofile with_framedata].
  rewrite Hf.
  eexists. split; [reflexivity|].
  cbn [self hw io audiofile framedata fstop ready loop total_frames framerate
       dac with_fstop with_audiofile with_framedata].
  replace (c + Z.min (Wave.nframes f) (Wave.nframes f - c))
    with (Wave.nframes f) by lia.
  repeat split; assumption.
Qed.

Lemma stop_loop (d : DAC) (w : World) :
  ready (self w) = true -> loop (self w) = true -> dac (self w) = Some d ->
  stop w = Return tt (mkWorld (with_fstop true (self w))
                              (hw w ++ [DacWrite 0]) (io w)).
Proof.
  intros Hr Hl Hd.
  unfold stop. unfold bind at 1, attr at 1. rewrite Hr. cbn [negb].
  unfold bind at 1, assign at 1. unfold bind at 1, attr at 1.
  cbn [self with_fstop loop]. rewrite Hl.
  unfold dac_write, bind, deref, emit. cbn [self hw io with_fstop dac].
  rewrite Hd. reflexivity.
Qed.

(** [begin] on a fresh loop-mode player with [pwm=False]. *)
Lemma begin_loop pclk1 disk open_error (name : string) (thread : bool) (f0 : Wave.Wave_read) :
  disk name = Some f0 ->
  exists w d,
    begin pclk1 disk open_error (boot (AUDIO_PLAYER name false true thread)) = Return tt w /\
    ready (self w) = true /\ loop (self w) = true /\
    audiofile (self w) = Some (Wave.at_pos f0 0) /\
    total_frames (self w) = Some (Wave.nframes f0) /\
    framerate (self w) = Some (Wave.framerate f0) /\
    dac (self w) = Some d /\ hw w = [] /\ io w = [].
Proof.
  intros Hd.
  unfold begin, bind, attr, wave_open, assign, boot.
  cbn [self filename AUDIO_PLAYER]. rewrite Hd.
  cbn [option_map lift ret self hw io pwm_mode with_audiofile with_adatawidth].
  do 2 eexists. split; [reflexivity|]. cbn. repeat split.
Qed.

(** X7: a loop-mode session with the converter, [begin(); play();
    stop()]: [play] makes one read of the whole file and hands all its data
    bytes, with the sample rate of the header, to [write_timed] in one
    call; [stop] then sets the flag and writes 0 to the converter.  Nothing
    else reaches the peripherals. *)
Theorem loop_session_log pclk1 disk open_error pace sch (name : string) (thread : bool)
    (f0 : Wave.Wave_read) :
  disk name = Some f0 -> Wave.well_formed f0 ->
  let w0 := world_of (begin pclk1 disk open_error (boot (AUDIO_PLAYER name false true thread))) in
  let w1 := world_of (play pace sch w0) in
  let w2 := world_of (stop w1) in
  returns (play pace sch w0) = true /\
  hw w1 = [DacWriteTimed (Wave.data f0) (Wave.framerate f0)] /\
  io w1 = [ReadFrames 0 (Wave.nframes f0) (Wave.data f0)] /\
  framedata (self w1) = Some (Wave.data f0) /\
  fstop (self w1) = false /\
  returns (stop w1) = true /\
  hw w2 = [DacWriteTimed (Wave.data f0) (Wave.framerate f0); DacWrite 0] /\
  io w2 = io w1 /\
  fstop (self w2) = true.
Proof.
  intros Hd Hwf w0 w1 w2.
  destruct (begin_loop pclk1 disk open_error name thread f0 Hd)
    as (w & d & E & Hr & Hl & Ha & Ht & Hf & Hdac & Hh & Hi).
  pose proof Hwf as (_ & Hn & _).
  destruct (play_loop pace sch f0 0 (Wave.framerate f0) d w Hr Hl Ha Hwf
              ltac:(lia) Ht Hf Hdac)
    as (w' & E' & Hh' & Hi' & Ha' & Hfd' & Hs' & Hr' & Hl' & _ & _ & Hd').
  rewrite frames_whole in * by assumption.
  subst w2 w1 w0. rewrite E. cbn [world_of]. rewrite E'. cbn [world_of returns].
  rewrite (stop_loop d w' Hr' Hl' Hd'). cbn [world_of returns self hw io fstop with_fstop].
  rewrite Hh', Hi', Hh, Hi. cbn [app].
  repeat split; assumption.
Qed.

(** X8: in loop mode a second [play] reads at the cursor the first one
    left at the end of the file: the read returns no byte and [write_timed]
    is handed an empty buffer. *)
Theorem loop_second_play_hands_empty_buffer pclk1 disk open_error pace sch
    (name : string) (thread : bool) (f0 : Wave.Wave_read) :
  disk name = Some f0 -> Wave.well_formed f0 ->
  let w0 := world_of (begin pclk1 disk open_error (boot (AUDIO_PLAYER name false true thread))) in
  let w1 := world_of (play pace sch w0) in
  let w2 := world_of (play pace sch w1) in
  returns (play pace sch w1) = true /\
  hw w2 = hw w1 ++ [DacWriteTimed [] (Wave.framerate f0)] /\
  io w2 = io w1 ++ [ReadFrames (Wave.nframes f0) (Wave.nframes f0) []] /\
  framedata (self w2) = Some [].
Proof.
  intros Hd Hwf w0 w1 w2.
  destruct (begin_loop pclk1 disk open_error name thread f0 Hd)
    as (w & d & E & Hr & Hl & Ha & Ht & Hf & Hdac & Hh & Hi).
  pose proof Hwf as (_ & Hn & _).
  destruct (play_loop pace sch f0 0 (Wave.framerate f0) d w Hr Hl Ha Hwf
              ltac:(lia) Ht Hf Hdac)
    as (w' & E' & Hh' & Hi' & Ha' & Hfd' & Hs' & Hr' & Hl' & Ht' & Hf' & Hd').
  destruct (play_loop pace sch f0 (Wave.nframes f0) (Wave.framerate f0) d w'
              Hr' Hl' Ha' Hwf ltac:(lia) Ht' Hf' Hd')
    as (w'' & E'' & Hh'' & Hi'' & _ & Hfd'' & _).
  rewrite frames_past_end in * by assumption.
  subst w2 w1 w0. rewrite E. cbn [world_of]. rewrite E'. cbn [world_of].
  rewrite E''. cbn [world_of returns].
  repeat split; assumption.
Qed.

(** ** What a playback without a thread plays *)

Lemma values_app (l l' : list hw_event) : values (l ++ l') = values l ++ values l'.
Proof. apply flat_map_app. Qed.

Lemma delays_app (l l' : list hw_event) : delays (l ++ l') = delays l ++ delays l'.
Proof. apply flat_map_app. Qed.

Lemma values_expected8 pwm t v (samples : list Z) :
  values (expected8 pwm t v samples) = map (fun s => s / divisor v) samples.
Proof.
  induction samples as [|s l IH]; [reflexivity|].
  unfold expected8 in *. cbn [flat_map map]. rewrite values_app, IH.
  destruct pwm; reflexivity.
Qed.

Lemma values_expected16 pwm t v (samples : list Z) :
  values (expected16 pwm t v samples) =
    map (fun s => if pwm then 128 + s / (divisor v * 128)
                  else 2048 + s / (divisor v * 16)) samples.
Proof.
  induction samples as [|s l IH]; [reflexivity|].
  unfold expected16 in *. cbn [flat_map map]. rewrite values_app, IH.
  destruct pwm; reflexivity.
Qed.

Lemma delays_expected8 pwm t v (samples : list Z) :
  delays (expected8 pwm t v samples) = map (fun _ => t) samples.
Proof.
  induction samples as [|s l IH]; [reflexivity|].
  unfold expected8 in *. cbn [flat_map map]. rewrite delays_app, IH.
  destruct pwm; reflexivity.
Qed.

Lemma delays_expected16 pwm t v (samples : list Z) :
  delays (expected16 pwm t v samples) = map (fun _ => t) samples.
Proof.
  induction samples as [|s l IH]; [reflexivity|].
  unfold expected16 in *. cbn [flat_map map]. rewrite delays_app, IH.
  destruct pwm; reflexivity.
Qed.

Lemma firstn_plus {A : Type} (x y : nat) (l : list A) :
  firstn (x + y) l = firstn x l ++ firstn y (skipn x l).
Proof.
  revert l. induction x as [|x IH]; intros l; [reflexivity|].
  destruct l as [|a l]; cbn [Nat.add firstn skipn app].
  - now rewrite firstn_nil.
  - now rewrite IH.
Qed.

(** The frames [0, a) followed by the frames [a, a + n) are the frames
    [0, a + n). *)
Lemma frames_app (f : Wave.Wave_read) (a n : Z) :
  0 < Wave.sampwidth f -> 0 <= a -> 0 <= n ->
  Wave.frames f 0 a ++ Wave.frames f a (a + n) = Wave.frames f 0 (a + n).
Proof.
  intros Hs Ha Hn. unfold Wave.frames. cbn [Z.mul Z.to_nat skipn].
  rewrite !Z.sub_0_r. replace (a + n - a) with n by lia.
  replace (Z.to_nat ((a + n) * Wave.sampwidth f))
    with (Z.to_nat (a * Wave.sampwidth f) + Z.to_nat (n * Wave.sampwidth f))%nat
    by nia.
  now rewrite firstn_plus.
Qed.

Lemma frames_none (f : Wave.Wave_read) (a : Z) : Wave.frames f a a = [].
Proof.
  unfold Wave.frames. now rewrite Z.sub_diag, Z.mul_0_l.
Qed.

Lemma array_B_app (l l' : list byte) :
  Py.array_B (l ++ l') = Py.array_B l ++ Py.array_B l'.
Proof. apply map_app. Qed.

Lemma array_h_app (n : nat) (l l' : list byte) :
  length l = (2 * n)%nat -> Py.array_h (l ++ l') = Py.array_h l ++ Py.array_h l'.
Proof.
  revert l. induction n as [|n IH]; intros l H.
  - destruct l; [reflexivity|discriminate].
  - destruct l as [|lo [|hi l]]; cbn in H; try lia.
    cbn [app Py.array_h]. f_equal. apply IH. lia.
Qed.

Lemma expected8_app pwm t v (l l' : list Z) :
  expected8 pwm t v (l ++ l') = expected8 pwm t v l ++ expected8 pwm t v l'.
Proof. apply flat_map_app. Qed.

Lemma expected16_app pwm t v (l l' : list Z) :
  expected16 pwm t v (l ++ l') = expected16 pwm t v l ++ expected16 pwm t v l'.
Proof. apply flat_map_app. Qed.

Section Prefix.

Variables (f : Wave.Wave_read) (b : Z).
Hypothesis file_ok : Wave.well_formed f.
Hypothesis b_positive : 0 < b.
Hypothesis at_start : Wave.soundpos f = 0.

Lemma chunk_aligned (j : nat) :
  chunk f b j = Wave.frames f (Z.of_nat j * b) (Z.of_nat j * b + b).
Proof.
  unfold chunk. rewrite (chunk_start_aligned f b j at_start).
  unfold position. now replace (b + Z.of_nat j * b - b) with (Z.of_nat j * b) by lia.
Qed.

Lemma frames_step (m : nat) :
  Wave.frames f 0 (Z.of_nat m * b) ++ chunk f b m =
    Wave.frames f 0 (Z.of_nat (S m) * b).
Proof.
  destruct file_ok as (Hs & _ & _).
  rewrite chunk_aligned, frames_app by (try assumption; nia).
  f_equal. lia.
Qed.

(** With one level [v] for every chunk, the output of the first [m]
    chunks of the 8-bit path is the output of the first [m * b] frames. *)
Lemma expected8_prefix pwm t sch s v (m : nat) :
  (forall j, fst (at_snapshot sch s j) = v) ->
  expected_output (expected8 pwm t) Py.array_B sch s f b m =
    expected8 pwm t v (Py.array_B (Wave.frames f 0 (Z.of_nat m * b))).
Proof.
  intros Hv. unfold expected_output.
  induction m as [|m IH].
  - change (Z.of_nat 0 * b) with 0. now rewrite frames_none.
  - rewrite seq_S, flat_map_app, IH. cbn [flat_map Nat.add]. rewrite app_nil_r.
    rewrite Hv, <- expected8_app, <- array_B_app, frames_step. reflexivity.
Qed.

Lemma expected16_prefix pwm t sch s v (m : nat) :
  Wave.sampwidth f = 2 ->
  Z.of_nat m * b <= Wave.nframes f ->
  (forall j, fst (at_snapshot sch s j) = v) ->
  expected_output (expected16 pwm t) Py.array_h sch s f b m =
    expected16 pwm t v (Py.array_h (Wave.frames f 0 (Z.of_nat m * b))).
Proof.
  intros Hsw Hm Hv. unfold expected_output.
  induction m as [|m IH].
  - change (Z.of_nat 0 * b) with 0. now rewrite frames_none.
  - rewrite seq_S, flat_map_app, IH by lia. cbn [flat_map Nat.add].
    rewrite app_nil_r, Hv, <- expected16_app.
    rewrite <- (array_h_app (Z.to_nat (Z.of_nat m * b))), frames_step;
      [reflexivity|].
    pose proof (length_frames f 0 (Z.of_nat m * b) file_ok) as Hlen.
    destruct file_ok as (_ & Hn & _).
    replace (0 + Z.of_nat m * b) with (Z.of_nat m * b) in Hlen by lia.
    specialize (Hlen ltac:(lia) ltac:(nia)). rewrite Hsw in Hlen. nia.
Qed.

End Prefix.

Lemma chunks_within (b total : Z) :
  0 < b -> 0 <= total -> Z.of_nat (chunk_count b total) * b <= total.
Proof.
  intros Hb Ht. destruct (chunk_count b total) as [|n] eqn:E; [lia|].
  pose proof (position_below b total n Hb ltac:(lia)) as H.
  unfold position in H. lia.
Qed.

(** [play] without a thread, entered with the cursor on the first frame:
    it returns, and what it hands to the backend is the output of the
    first [chunk_count * b] frames at the level [play] was called with. *)
Lemma play_alone_prefix pace sch f b pwm (w : World) :
  ready_to_stream f b pwm w ->
  Wave.soundpos f = 0 ->
  threading (self w) = false ->
  let n := chunk_count b (Wave.nframes f) in
  let v := volume (self w) in
  (Wave.sampwidth f = 1 ->
   returns (play pace sch w) = true /\
   hw (world_of (play pace sch w)) = hw w ++
     expected8 pwm (pace (Wave.framerate f) 90) v
       (Py.array_B (Wave.frames f 0 (Z.of_nat n * b)))) /\
  (Wave.sampwidth f = 2 ->
   returns (play pace sch w) = true /\
   hw (world_of (play pace sch w)) = hw w ++
     expected16 pwm (pace (Wave.framerate f) 95) v
       (Py.array_h (Wave.frames f 0 (Z.of_nat n * b)))).
Proof.
  intros Hw Hcur Hth n v.
  pose proof (rs_positive _ _ _ _ Hw) as Hb.
  pose proof (rs_well_formed _ _ _ _ Hw) as Hwf.
  pose proof Hwf as (_ & Hn & _).
  assert (Heff : effective w sch = alone) by (unfold effective; now rewrite Hth).
  destruct (written_first_pass alone (volume (self w), false) f b Hb Hcur)
    as [Hwr Hok].
  rewrite streamed_alone in Hwr.
  assert (Hsnap : forall j, fst (at_snapshot alone (volume (self w), false) j) = v)
    by (intros j; now rewrite at_snapshot_alone).
  split; intros H.
  - destruct (play_run pace sch f b pwm w Hw (or_introl H)) as (R & Hh & _).
    split; [rewrite R, Heff, Hok; apply orb_true_r|].
    rewrite Hh, Heff, Hwr. unfold expected_play. rewrite H.
    change (1 >? 1) with false. cbv iota.
    now rewrite (expected8_prefix f b Hwf Hb Hcur pwm _ alone _ v n Hsnap).
  - destruct (play_run pace sch f b pwm w Hw (or_intror H)) as (R & Hh & _).
    split; [rewrite R, Heff, Hok; apply orb_true_r|].
    rewrite Hh, Heff, Hwr. unfold expected_play. rewrite H.
    change (2 >? 1) with true. cbv iota.
    rewrite (expected16_prefix f b Hwf Hb Hcur pwm _ alone _ v n H); auto.
    apply chunks_within; assumption.
Qed.

(** X9: a [play()] without a thread on a player whose file is at its
    first frame returns, and the values it puts in the output register are
    those of the first [b * ((total - 1) // b)] frames of the file, in file
    order, all at the level the player had when [play] was called: for a
    file that is not empty, between 1 and [b] frames at its end are never
    played, and an empty file plays nothing. *)
Theorem play_plays_leading_frames pace sch f b pwm (w : World) :
  ready_to_stream f b pwm w ->
  Wave.soundpos f = 0 ->
  threading (self w) = false ->
  let total := Wave.nframes f in
  let played := Z.of_nat (chunk_count b total) * b in
  let v := volume (self w) in
  let w' := world_of (play pace sch w) in
  (0 < total -> played = b * ((total - 1) / b) /\ total - b <= played < total) /\
  (total = 0 -> played = 0) /\
  (Wave.sampwidth f = 1 ->
   returns (play pace sch w) = true /\
   values (hw w') = values (hw w) ++
     map (fun s => s / divisor v) (Py.array_B (Wave.frames f 0 played))) /\
  (Wave.sampwidth f = 2 ->
   returns (play pace sch w) = true /\
   values (hw w') = values (hw w) ++
     map (fun s => if pwm then 128 + s / (divisor v * 128)
                   else 2048 + s / (divisor v * 16))
         (Py.array_h (Wave.frames f 0 played))).
Proof.
  intros Hw Hcur Hth total played v w'.
  pose proof (rs_positive _ _ _ _ Hw) as Hb.
  destruct (play_alone_prefix pace sch f b pwm w Hw Hcur Hth) as [H8 H16].
  split; [|split; [|split]].
  - intros Ht. unfold played. rewrite (chunk_count_eq b total Hb Ht).
    split; [lia|].
    pose proof (Z.div_mod (total - 1) b ltac:(lia)) as E.
    pose proof (Z.mod_pos_bound (total - 1) b Hb) as M. lia.
  - intros Ht. unfold played. rewrite (chunk_count_short b total Hb); lia.
  - intros Hs. destruct (H8 Hs) as [R H]. split; [exact R|].
    unfold w'. rewrite H, values_app, values_expected8. reflexivity.
  - intros Hs. destruct (H16 Hs) as [R H]. split; [exact R|].
    unfold w'. rewrite H, values_app, values_expected16. reflexivity.
Qed.

Lemma map_const {A} (t : Z) (l : list A) : map (fun _ => t) l = repeat t (length l).
Proof. induction l as [|a l IH]; cbn; [reflexivity|now rewrite IH]. Qed.

Lemma length_samples8 (f : Wave.Wave_read) (n : Z) :
  Wave.well_formed f -> Wave.sampwidth f = 1 -> 0 <= n <= Wave.nframes f ->
  length (Py.array_B (Wave.frames f 0 n)) = Z.to_nat n.
Proof.
  intros Hwf Hs Hn. rewrite length_array_B.
  pose proof Hwf as (_ & Ht & _).
  pose proof (length_frames f 0 n Hwf ltac:(lia) ltac:(lia)) as H.
  rewrite Z.add_0_l, Hs in H. lia.
Qed.

Lemma length_samples16 (f : Wave.Wave_read) (n : Z) :
  Wave.well_formed f -> Wave.sampwidth f = 2 -> 0 <= n <= Wave.nframes f ->
  length (Py.array_h (Wave.frames f 0 n)) = Z.to_nat n.
Proof.
  intros Hwf Hs Hn. apply length_array_h.
  pose proof Hwf as (_ & Ht & _).
  pose proof (length_frames f 0 n Hwf ltac:(lia) ltac:(lia)) as H.
  rewrite Z.add_0_l, Hs in H. lia.
Qed.

Lemma paced_expected8 pwm t v (samples : list Z) :
  expected8 pwm t v samples =
    flat_map (fun x => [write pwm x; Udelay t])
             (values (expected8 pwm t v samples)).
Proof.
  rewrite values_expected8. unfold expected8.
  induction samples as [|s l IH]; [reflexivity|].
  cbn [flat_map map app]. now rewrite <- IH.
Qed.

Lemma paced_expected16 pwm t v (samples : list Z) :
  expected16 pwm t v samples =
    flat_map (fun x => [write pwm x; Udelay t])
             (values (expected16 pwm t v samples)).
Proof.
  rewrite values_expected16. unfold expected16.
  induction samples as [|s l IH]; [reflexivity|].
  cbn [flat_map map app]. rewrite <- IH. destruct pwm; reflexivity.
Qed.

(** X10: in the same playback the output is one value after the other,
    each followed by one delay of the period computed on entry (factor 90
    on the 8-bit path, 95 on the 16-bit path), and the number of values is
    the number of frames played, a multiple of the buffer size. *)
Theorem play_paces_every_value pace sch f b pwm (w : World) :
  ready_to_stream f b pwm w ->
  Wave.soundpos f = 0 ->
  threading (self w) = false ->
  Wave.sampwidth f = 1 \/ Wave.sampwidth f = 2 ->
  let n := (chunk_count b (Wave.nframes f) * Z.to_nat b)%nat in
  let t := pace (Wave.framerate f) (if Wave.sampwidth f =? 1 then 90 else 95) in
  exists out,
    hw (world_of (play pace sch w)) = hw w ++ out /\
    out = flat_map (fun x => [write pwm x; Udelay t]) (values out) /\
    length (values out) = n /\
    delays out = repeat t n.
Proof.
  intros Hw Hcur Hth Hsw n t.
  pose proof (rs_positive _ _ _ _ Hw) as Hb.
  pose proof (rs_well_formed _ _ _ _ Hw) as Hwf.
  pose proof Hwf as (_ & Ht & _).
  pose proof (chunks_within b (Wave.nframes f) Hb Ht) as Hin.
  assert (Hn : Z.to_nat (Z.of_nat (chunk_count b (Wave.nframes f)) * b) = n)
    by (unfold n; lia).
  destruct (play_alone_prefix pace sch f b pwm w Hw Hcur Hth) as [H8 H16].
  destruct Hsw as [Hs|Hs].
  - destruct (H8 Hs) as [_ H]. unfold t. rewrite Hs.
    change (1 =? 1) with true. cbv iota.
    eexists. split; [exact H|]. split; [apply paced_expected8|].
    rewrite values_expected8, delays_expected8, map_const, length_map.
    rewrite length_samples8, Hn by (auto; lia). split; reflexivity.
  - destruct (H16 Hs) as [_ H]. unfold t. rewrite Hs.
    change (2 =? 1) with false. cbv iota.
    eexists. split; [exact H|]. split; [apply paced_expected16|].
    rewrite values_expected16, delays_expected16, map_const, length_map.
    rewrite length_samples16, Hn by (auto; lia). split; reflexivity.
Qed.

(** ** The range of the values written *)

Lemma byte_val_range (x : byte) : 0 <= Py.byte_val x <= 255.
Proof.
  unfold Py.byte_val. pose proof (Byte.to_N_bounded x). lia.
Qed.

Lemma array_B_range (l : list byte) :
  Forall (fun s => 0 <= s <= 255) (Py.array_B l).
Proof.
  unfold Py.array_B. apply Forall_map, Forall_forall.
  intros x _. apply byte_val_range.
Qed.

Lemma array_h_range (l : list byte) :
  Forall (fun s => -32768 <= s <= 32767) (Py.array_h l).
Proof.
  assert (H : forall n l, (length l <= n)%nat ->
              Forall (fun s => -32768 <= s <= 32767) (Py.array_h l)).
  { clear l. induction n as [|n IH]; intros l Hl.
    - destruct l; [constructor|cbn in Hl; lia].
    - destruct l as [|lo [|hi l]]; cbn [Py.array_h]; try constructor.
      + pose proof (byte_val_range lo). pose proof (byte_val_range hi).
        unfold Py.sint16.
        destruct (Z.ltb_spec (Py.byte_val lo + 256 * Py.byte_val hi) 32768); lia.
      + apply IH. cbn in Hl. lia. }
  apply (H (length l)). lia.
Qed.

Lemma divisor_range (v : Z) : 0 <= v <= 12 -> 1 <= divisor v <= 49.
Proof.
  intros H.
  assert (E : v = 0 \/ v = 1 \/ v = 2 \/ v = 3 \/ v = 4 \/ v = 5 \/ v = 6 \/
              v = 7 \/ v = 8 \/ v = 9 \/ v = 10 \/ v = 11 \/ v = 12) by lia.
  repeat (destruct E as [->|E]; [vm_compute; split; discriminate|]).
  subst v. vm_compute; split; discriminate.
Qed.

Lemma divisor_below_top (v : Z) : 0 <= v <= 11 -> 2 <= divisor v.
Proof.
  intros H.
  assert (E : v = 0 \/ v = 1 \/ v = 2 \/ v = 3 \/ v = 4 \/ v = 5 \/ v = 6 \/
              v = 7 \/ v = 8 \/ v = 9 \/ v = 10 \/ v = 11) by lia.
  repeat (destruct E as [->|E]; [vm_compute; discriminate|]).
  subst v. vm_compute; discriminate.
Qed.

(** A sample in [[lo * k, hi * k)] divided by [d * k], [d >= 1], stays in
    [[lo, hi)] when [lo <= 0 <= hi]. *)
Lemma scaled_range (s d k lo hi : Z) :
  0 < k -> 1 <= d -> lo <= 0 <= hi -> lo * k <= s < hi * k ->
  lo <= s / (d * k) < hi.
Proof.
  intros Hk Hd Hz Hs. split.
  - apply Z.div_le_lower_bound; nia.
  - apply Z.div_lt_upper_bound; nia.
Qed.

Lemma Forall_values_expected_output (P : Z -> Prop) render decode sch s f b m :
  (forall j, Forall P (values (render (fst (at_snapshot sch s j))
                                      (decode (chunk f b j))))) ->
  Forall P (values (expected_output render decode sch s f b m)).
Proof.
  intros H. unfold expected_output.
  induction (seq 0 m) as [|j l IH]; [constructor|].
  cbn [flat_map]. rewrite values_app. apply Forall_app. split; [apply H|exact IH].
Qed.

(** What a non-loop [play] adds to the output log, whoever runs it. *)
Lemma play_output pace sch f b pwm (w : World) :
  ready_to_stream f b pwm w ->
  let s := (volume (self w), false) in
  let m := written (effective w sch) s f b in
  (Wave.sampwidth f = 1 ->
   hw (world_of (play pace sch w)) = hw w ++
     expected_output (expected8 pwm (pace (Wave.framerate f) 90)) Py.array_B
       (effective w sch) s f b m) /\
  (Wave.sampwidth f = 2 ->
   hw (world_of (play pace sch w)) = hw w ++
     expected_output (expected16 pwm (pace (Wave.framerate f) 95)) Py.array_h
       (effective w sch) s f b m).
Proof.
  intros Hw s m. split; intros Hs.
  - destruct (play_run pace sch f b pwm w Hw (or_introl Hs)) as (_ & H & _).
    unfold expected_play in H. rewrite Hs in H. exact H.
  - destruct (play_run pace sch f b pwm w Hw (or_intror Hs)) as (_ & H & _).
    unfold expected_play in H. rewrite Hs in H. exact H.
Qed.

(** X11: on the converter, every value a non-loop [play] writes fits the
    resolution [begin] configured it with ([bits = adatawidth]: 8 for an
    8-bit file, 12 otherwise), whatever the other context does to the
    level meanwhile and wherever the cursor of the file is. *)
Theorem converter_values_fit_resolution pace sch f b (w : World) :
  ready_to_stream f b false w ->
  Wave.sampwidth f = 1 \/ Wave.sampwidth f = 2 ->
  exists out,
    hw (world_of (play pace sch w)) = hw w ++ out /\
    Forall (fun x => 0 <= x < 2 ^ adatawidth (self w)) (values out).
Proof.
  intros Hw Hsw.
  destruct (play_output pace sch f b false w Hw) as [H8 H16].
  pose proof (rs_volume _ _ _ _ Hw) as Hv.
  rewrite (rs_adatawidth _ _ _ _ Hw).
  destruct Hsw as [Hs|Hs]; rewrite Hs.
  - eexists. split; [exact (H8 Hs)|].
    apply Forall_values_expected_output. intros j.
    rewrite values_expected8. apply Forall_map.
    eapply Forall_impl; [|apply array_B_range].
    intros s Hr. cbv beta in *.
    pose proof (divisor_range _ (at_snapshot_range (effective w sch)
      (volume (self w), false) j Hv)) as Hd.
    change (2 ^ (if 1 >? 1 then 12 else 8)) with 256.
    replace (divisor (fst (at_snapshot (effective w sch) (volume (self w), false) j)))
      with (divisor (fst (at_snapshot (effective w sch) (volume (self w), false) j)) * 1)
      by lia.
    apply (scaled_range s _ 1 0 256); lia.
  - eexists. split; [exact (H16 Hs)|].
    apply Forall_values_expected_output. intros j.
    rewrite values_expected16. apply Forall_map.
    eapply Forall_impl; [|apply array_h_range].
    intros s Hr. cbv beta in *.
    pose proof (divisor_range _ (at_snapshot_range (effective w sch)
      (volume (self w), false) j Hv)) as Hd.
    change (2 ^ (if 2 >? 1 then 12 else 8)) with 4096.
    pose proof (scaled_range s _ 16 (-2048) 2048 ltac:(lia) (proj1 Hd)
                  ltac:(lia) ltac:(lia)).
    lia.
Qed.

(** X12: on the pulse output, whose timer [begin] gives a period of 255:
    an 8-bit file only gets pulse widths in [[0, 255]]; a 16-bit file gets
    pulse widths in [[-128, 383]], and in [[0, 255]] as long as no
    snapshot of the level finds it at 12. *)
Theorem pulse_widths_range pace sch f b (w : World) :
  ready_to_stream f b true w ->
  Wave.sampwidth f = 1 \/ Wave.sampwidth f = 2 ->
  exists out,
    hw (world_of (play pace sch w)) = hw w ++ out /\
    (Wave.sampwidth f = 1 -> Forall (fun x => 0 <= x <= 255) (values out)) /\
    (Wave.sampwidth f = 2 ->
     Forall (fun x => -128 <= x <= 383) (values out) /\
     ((forall j, fst (at_snapshot (effective w sch) (volume (self w), false) j)
                 <= 11) ->
      Forall (fun x => 0 <= x <= 255) (values out))).
Proof.
  intros Hw Hsw.
  destruct (play_output pace sch f b true w Hw) as [H8 H16].
  pose proof (rs_volume _ _ _ _ Hw) as Hv.
  destruct Hsw as [Hs|Hs].
  - eexists. split; [exact (H8 Hs)|]. split; [intros _|intros H; lia].
    apply Forall_values_expected_output. intros j.
    rewrite values_expected8. apply Forall_map.
    eapply Forall_impl; [|apply array_B_range].
    intros s Hr. cbv beta in *.
    pose proof (divisor_range _ (at_snapshot_range (effective w sch)
      (volume (self w), false) j Hv)) as Hd.
    replace (divisor (fst (at_snapshot (effective w sch) (volume (self w), false) j)))
      with (divisor (fst (at_snapshot (effective w sch) (volume (self w), false) j)) * 1)
      by lia.
    pose proof (scaled_range s
      (divisor (fst (at_snapshot (effective w sch) (volume (self w), false) j)))
      1 0 256 ltac:(lia) (proj1 Hd) ltac:(lia) ltac:(lia)).
    lia.
  - eexists. split; [exact (H16 Hs)|]. split; [intros H; lia|intros _].
    split; [|intros Hlow];
      apply Forall_values_expected_output; intros j;
      rewrite values_expected16; apply Forall_map;
      (eapply Forall_impl; [|apply array_h_range]);
      intros s Hr; cbv beta in *;
      pose proof (at_snapshot_range (effective w sch)
        (volume (self w), false) j Hv) as Hj.
    + pose proof (divisor_range _ Hj) as Hd.
      pose proof (scaled_range s _ 128 (-256) 256 ltac:(lia) (proj1 Hd)
                    ltac:(lia) ltac:(lia)).
      lia.
    + pose proof (divisor_below_top _ (conj (proj1 Hj) (Hlow j))) as Hd.
      assert (Hq : -128 <= s / (divisor (fst (at_snapshot (effective w sch)
                      (volume (self w), false) j)) * 128) < 128).
      { split.
        - apply Z.div_le_lower_bound; nia.
        - apply Z.div_lt_upper_bound; nia. }
      lia.
Qed.

(** X13: at level 12 the 16-bit path scales by 128 only, and the pulse
    output leaves the timer's period: in a playback without a thread, a
    played sample of 16384 or more gives a pulse width above 255, and one
    below -16384 a negative one. *)
Theorem top_level_pulse_leaves_period pace sch f b (w : World) (s : Z) :
  ready_to_stream f b true w ->
  Wave.soundpos f = 0 ->
  threading (self w) = false ->
  Wave.sampwidth f = 2 ->
  volume (self w) = 12 ->
  In s (Py.array_h (Wave.frames f 0
          (Z.of_nat (chunk_count b (Wave.nframes f)) * b))) ->
  let out := values (hw (world_of (play pace sch w))) in
  (16384 <= s -> exists x, In x out /\ 255 < x) /\
  (s < -16384 -> exists x, In x out /\ x < 0).
Proof.
  intros Hw Hcur Hth Hs Hv Hin out.
  destruct (play_alone_prefix pace sch f b true w Hw Hcur Hth) as [_ H16].
  destruct (H16 Hs) as [_ H].
  assert (Hx : In (128 + s / 128) out).
  { unfold out. rewrite H, values_app, values_expected16, Hv.
    apply in_or_app. right.
    change (divisor 12 * 128) with 128.
    apply (in_map (fun s => 128 + s / 128)), Hin. }
  split; intros Hr; exists (128 + s / 128); (split; [exact Hx|]).
  - assert (128 <= s / 128) by (apply Z.div_le_lower_bound; lia). lia.
  - assert (s / 128 < -128) by (apply Z.div_lt_upper_bound; lia). lia.
Qed.

Lemma divisor_antitone (v1 v2 : Z) :
  0 <= v1 -> v1 <= v2 -> v2 <= 12 -> 1 <= divisor v2 <= divisor v1.
Proof.
  intros H0 H H12.
  assert (E1 : v1 = 0 \/ v1 = 1 \/ v1 = 2 \/ v1 = 3 \/ v1 = 4 \/ v1 = 5 \/
               v1 = 6 \/ v1 = 7 \/ v1 = 8 \/ v1 = 9 \/ v1 = 10 \/ v1 = 11 \/
               v1 = 12) by lia.
  assert (E2 : v2 = 0 \/ v2 = 1 \/ v2 = 2 \/ v2 = 3 \/ v2 = 4 \/ v2 = 5 \/
               v2 = 6 \/ v2 = 7 \/ v2 = 8 \/ v2 = 9 \/ v2 = 10 \/ v2 = 11 \/
               v2 = 12) by lia.
  clear H0 H12.
  repeat (destruct E1 as [->|E1]);
    repeat (destruct E2 as [->|E2]); try subst v1; try subst v2;
    try (exfalso; lia); vm_compute; split; discriminate.
Qed.

(** Floor division by a smaller positive divisor moves the quotient away
    from zero, on the side the dividend is on. *)
Lemma floordiv_antitone (s d1 d2 : Z) :
  0 < d2 <= d1 ->
  (0 <= s -> 0 <= s / d1 <= s / d2) /\ (s < 0 -> s / d2 <= s / d1 < 0).
Proof.
  intros Hd. split; intros Hs.
  - split; [apply Z.div_pos; lia|apply Z.div_le_compat_l; lia].
  - pose proof (Z.div_mod s d1 ltac:(lia)) as E.
    pose proof (Z.mod_pos_bound s d1 ltac:(lia)) as M.
    assert (Hq : s / d1 < 0) by (apply Z.div_lt_upper_bound; lia).
    split; [|exact Hq].
    assert (s / d2 < s / d1 + 1); [|lia].
    apply Z.div_lt_upper_bound; nia.
Qed.

Lemma Forall2_map_same {A} (R : Z -> Z -> Prop) (g h : A -> Z) (l : list A) :
  (forall x, In x l -> R (g x) (h x)) -> Forall2 R (map g l) (map h l).
Proof.
  induction l as [|x l IH]; intros H; cbn [map]; constructor.
  - apply H. now left.
  - apply IH. intros y Hy. apply H. now right.
Qed.

(** X14: a higher level is never quieter. Two playbacks without a thread
    of the same file from its first frame, on the same backend, write as
    many values; each value written at the higher level is at least as far
    from the centre as the one written at the lower level, on the same
    side of it. The centre is 128 (pulse) or 2048 (converter) on the
    16-bit path and 0 on the 8-bit path, which scales the unsigned sample
    itself. *)
Theorem higher_level_not_quieter pace sch1 sch2 f b pwm (w1 w2 : World) :
  ready_to_stream f b pwm w1 ->
  ready_to_stream f b pwm w2 ->
  Wave.soundpos f = 0 ->
  threading (self w1) = false ->
  threading (self w2) = false ->
  Wave.sampwidth f = 1 \/ Wave.sampwidth f = 2 ->
  volume (self w1) <= volume (self w2) ->
  let centre := if Wave.sampwidth f =? 1 then 0
                else if pwm then 128 else 2048 in
  exists out1 out2,
    hw (world_of (play pace sch1 w1)) = hw w1 ++ out1 /\
    hw (world_of (play pace sch2 w2)) = hw w2 ++ out2 /\
    Forall2 (not_quieter centre) (values out1) (values out2).
Proof.
  intros Hw1 Hw2 Hcur Ht1 Ht2 Hsw Hle centre.
  destruct (play_alone_prefix pace sch1 f b pwm w1 Hw1 Hcur Ht1) as [A8 A16].
  destruct (play_alone_prefix pace sch2 f b pwm w2 Hw2 Hcur Ht2) as [B8 B16].
  pose proof (rs_volume _ _ _ _ Hw1) as Hv1.
  pose proof (rs_volume _ _ _ _ Hw2) as Hv2.
  pose proof (divisor_antitone _ _ (proj1 Hv1) Hle (proj2 Hv2)) as Hd.
  unfold centre.
  destruct Hsw as [Hs|Hs]; rewrite Hs.
  - destruct (A8 Hs) as [_ HA]. destruct (B8 Hs) as [_ HB].
    do 2 eexists. split; [exact HA|]. split; [exact HB|].
    rewrite !values_expected8. apply Forall2_map_same. intros s _.
    change (1 =? 1) with true. cbv iota.
    destruct (floordiv_antitone s (divisor (volume (self w1)))
                (divisor (volume (self w2))) ltac:(lia)) as [P N].
    unfold not_quieter. destruct (Z.lt_ge_cases s 0) as [Hn|Hp].
    + specialize (N Hn). lia.
    + specialize (P Hp). lia.
  - destruct (A16 Hs) as [_ HA]. destruct (B16 Hs) as [_ HB].
    do 2 eexists. split; [exact HA|]. split; [exact HB|].
    rewrite !values_expected16. apply Forall2_map_same. intros s _.
    change (2 =? 1) with false. cbv iota.
    unfold not_quieter. destruct pwm.
    + destruct (floordiv_antitone s (divisor (volume (self w1)) * 128)
                  (divisor (volume (self w2)) * 128) ltac:(lia)) as [P N].
      destruct (Z.lt_ge_cases s 0) as [Hn|Hp].
      * specialize (N Hn). lia.
      * specialize (P Hp). lia.
    + destruct (floordiv_antitone s (divisor (volume (self w1)) * 16)
                  (divisor (volume (self w2)) * 16) ltac:(lia)) as [P N].
      destruct (Z.lt_ge_cases s 0) as [Hn|Hp].
      * specialize (N Hn). lia.
      * specialize (P Hp). lia.
Qed.

(** * The further properties on sample sessions *)

Lemma set_volume_ready f b pwm (v : Z) (w : World) :
  ready_to_stream f b pwm w -> 0 <= v <= 12 ->
  ready_to_stream f b pwm (world_of (set_volume v w)) /\
  volume (self (world_of (set_volume v w))) = v /\
  threading (self (world_of (set_volume v w))) = threading (self w) /\
  hw (world_of (set_volume v w)) = hw w.
Proof.
  intros [] Hv. unfold set_volume.
  destruct (Z.leb_spec 0 v); [|lia]. destruct (Z.leb_spec v 12); [|lia].
  cbn. split; [split; cbn; assumption|auto].
Qed.

(** X1 on a name the flash does not have, where the library raises
    [OSError], and on a file that is not a WAVE file, where it raises
    [wave.Error]. *)
Lemma failed_begin_leaves_player_inert_witness :
  let w0 := boot (AUDIO_PLAYER "nofile.wav" true false false) in
  let w1 := boot (AUDIO_PLAYER "notes.txt" true false false) in
  (Bench.disk "nofile.wav" = None /\
   begin Demo.pclk1 Bench.disk Bench.open_error w0 = Raise Py.OSError w0 /\
   play Demo.pace alone
     (world_of (begin Demo.pclk1 Bench.disk Bench.open_error w0)) = Return tt w0) /\
  (Bench.disk "notes.txt" = None /\
   begin Demo.pclk1 Bench.disk Bench.open_error w1 = Raise Py.WaveError w1 /\
   play Demo.pace alone
     (world_of (begin Demo.pclk1 Bench.disk Bench.open_error w1)) = Return tt w1).
Proof.
  split; (split; [reflexivity|]).
  - destruct (failed_begin_leaves_player_inert Demo.pclk1 Bench.disk
                Bench.open_error Demo.pace alone "nofile.wav" true false false
                eq_refl) as (H1 & H2 & _).
    split; [exact H1|exact H2].
  - destruct (failed_begin_leaves_player_inert Demo.pclk1 Bench.disk
                Bench.open_error Demo.pace alone "notes.txt" true false false
                eq_refl) as (H1 & H2 & _).
    split; [exact H1|exact H2].
Defined.

(** X2 on four calls made on a player that has begun. *)
Lemma controls_keep_player_intact_witness :
  let w := Demo.started "tone8.wav" true false false in
  let w' := world_of (interleave [VolumeUp; Stop; SetVolume 3; VolumeDown] w) in
  0 <= volume (self w) <= 12 /\
  0 <= volume (self w') <= 12 /\ io w' = io w.
Proof.
  assert (H : 0 <= volume (self (Demo.started "tone8.wav" true false false)) <= 12)
    by (vm_compute; split; discriminate).
  split; [exact H|].
  destruct (controls_keep_player_intact [VolumeUp; Stop; SetVolume 3; VolumeDown]
              _ H) as (H1 & _ & H2 & _).
  split; [exact H1|exact H2].
Defined.

(** X3 at the level the constructor sets. *)
Lemma volume_up_down_round_trip_witness :
  let w := Demo.started "tone8.wav" true false false in
  0 <= volume (self w) < 12 /\
  world_of (volume_down (world_of (volume_up w))) = w.
Proof.
  assert (H : 0 <= volume (self (Demo.started "tone8.wav" true false false)) < 12)
    by (vm_compute; split; [discriminate|reflexivity]).
  split; [exact H|].
  exact (proj1 (volume_up_down_round_trip _) H).
Defined.

(** X4 on a player that has begun. *)
Lemma stop_before_play_is_forgotten_witness :
  let w := Demo.started "tone8.wav" true false false in
  ready (self w) = true /\ loop (self w) = false /\
  play Demo.pace alone (world_of (stop w)) = play Demo.pace alone w.
Proof.
  assert (Hr : ready (self (Demo.started "tone8.wav" true false false)) = true)
    by (vm_compute; reflexivity).
  assert (Hl : loop (self (Demo.started "tone8.wav" true false false)) = false)
    by (vm_compute; reflexivity).
  split; [exact Hr|]. split; [exact Hl|].
  exact (proj2 (proj2 (stop_before_play_is_forgotten Demo.pace alone _ Hr Hl))).
Defined.

(** X5 on a file whose header gives a sample rate of 0. *)
Lemma zero_rate_raises_before_any_output_witness :
  let w := Bench.started "still8.wav" true false false in
  framerate (self w) = Some 0 /\
  _play8 Demo.pace alone w = Raise Py.ZeroDivisionError w.
Proof.
  assert (H : framerate (self (Bench.started "still8.wav" true false false)) = Some 0)
    by (vm_compute; reflexivity).
  split; [exact H|].
  exact (proj1 (zero_rate_raises_before_any_output Demo.pace alone _ H)).
Defined.

(** X6 on the player that has played the 8-bit file of 5000 frames once:
    after a second [begin] the file is at its first frame again and
    [play] returns. *)
Lemma begin_then_play_starts_at_first_frame_witness :
  let w := Demo.played8 in
  let w1 := world_of (begin Demo.pclk1 Demo.disk Demo.open_error w) in
  Demo.disk (filename (self w)) = Some Demo.tone8 /\
  audiofile (self w) = Some (Wave.at_pos Demo.tone8 4096) /\
  audiofile (self w1) = Some (Wave.at_pos Demo.tone8 0) /\
  returns (play Demo.pace alone w1) = true.
Proof.
  assert (Hd : Demo.disk (filename (self Demo.played8)) = Some Demo.tone8)
    by (vm_compute; reflexivity).
  assert (Hwf : Wave.well_formed Demo.tone8)
    by (repeat split; vm_compute; congruence).
  assert (Hr : Wave.framerate Demo.tone8 <> 0) by discriminate.
  assert (Hl : loop (self Demo.played8) = false) by (vm_compute; reflexivity).
  assert (Hb : buffersize (self Demo.played8) = 2048) by (vm_compute; reflexivity).
  assert (Hvs : volumes (self Demo.played8) = [49;31;21;15;11;9;7;6;5;4;3;2;1])
    by (vm_compute; reflexivity).
  assert (Hv : 0 <= volume (self Demo.played8) <= 12)
    by (vm_compute; split; discriminate).
  assert (Ho : pwm_mode (self Demo.played8) = false ->
               pwm_out (self Demo.played8) = None)
    by (intros H; vm_compute in H; discriminate).
  split; [exact Hd|]. split; [vm_compute; reflexivity|].
  destruct (begin_then_play_starts_at_first_frame Demo.pclk1 Demo.disk Demo.open_error Demo.pace
              alone Demo.tone8 2048 Demo.played8 Hd Hwf Hr (or_introl eq_refl)
              Hl Hb eq_refl Hvs Hv Ho) as (_ & H1 & H2 & _).
  split; [exact H1|exact H2].
Defined.

(** X7 on the 8-bit file of 5000 frames, in loop mode on the converter. *)
Lemma loop_session_log_witness :
  let w0 := Demo.started "tone8.wav" false true false in
  let w1 := world_of (play Demo.pace alone w0) in
  Demo.disk "tone8.wav" = Some Demo.tone8 /\
  Wave.well_formed Demo.tone8 /\
  hw w1 = [DacWriteTimed (Wave.data Demo.tone8) 8000] /\
  hw (world_of (stop w1)) =
    [DacWriteTimed (Wave.data Demo.tone8) 8000; DacWrite 0].
Proof.
  assert (Hwf : Wave.well_formed Demo.tone8)
    by (repeat split; vm_compute; congruence).
  split; [reflexivity|]. split; [exact Hwf|].
  destruct (loop_session_log Demo.pclk1 Demo.disk Demo.open_error Demo.pace alone "tone8.wav"
              false Demo.tone8 eq_refl Hwf)
    as (_ & H1 & _ & _ & _ & _ & H2 & _).
  split; [exact H1|exact H2].
Defined.

(** X8 on the same session with a second [play]. *)
Lemma loop_second_play_hands_empty_buffer_witness :
  let w0 := Demo.started "tone8.wav" false true false in
  let w1 := world_of (play Demo.pace alone w0) in
  let w2 := world_of (play Demo.pace alone w1) in
  Demo.disk "tone8.wav" = Some Demo.tone8 /\
  Wave.well_formed Demo.tone8 /\
  hw w2 = hw w1 ++ [DacWriteTimed [] 8000] /\
  io w2 = io w1 ++ [ReadFrames 5000 5000 []].
Proof.
  assert (Hwf : Wave.well_formed Demo.tone8)
    by (repeat split; vm_compute; congruence).
  split; [reflexivity|]. split; [exact Hwf|].
  destruct (loop_second_play_hands_empty_buffer Demo.pclk1 Demo.disk Demo.open_error Demo.pace
              alone "tone8.wav" false Demo.tone8 eq_refl Hwf)
    as (_ & H1 & H2 & _).
  split; [exact H1|exact H2].
Defined.

(** X9 on the 8-bit file of 5000 frames at the level of the constructor:
    the first 4096 frames are played, divided by 3, and 904 are not. *)
Lemma play_plays_leading_frames_witness :
  let w := Demo.started "tone8.wav" true false false in
  let w' := world_of (play Demo.pace alone w) in
  ready_to_stream Demo.tone8 2048 true w /\
  Wave.soundpos Demo.tone8 = 0 /\
  threading (self w) = false /\
  Z.of_nat (chunk_count 2048 5000) * 2048 = 2048 * ((5000 - 1) / 2048) /\
  values (hw w') = values (hw w) ++
    map (fun s => s / divisor (volume (self w)))
        (Py.array_B (Wave.frames Demo.tone8 0
                       (Z.of_nat (chunk_count 2048 5000) * 2048))).
Proof.
  assert (Ht : threading (self (Demo.started "tone8.wav" true false false)) = false)
    by (vm_compute; reflexivity).
  split; [apply tone8_ready|]. split; [reflexivity|]. split; [exact Ht|].
  destruct (play_plays_leading_frames Demo.pace alone Demo.tone8 2048 true _
              (tone8_ready true false) eq_refl Ht) as (H1 & _ & H2 & _).
  split; [exact (proj1 (H1 eq_refl))|exact (proj2 (H2 eq_refl))].
Defined.

(** X10 on the 16-bit file of 5000 frames: 4096 values, each followed by
    a delay of 86 microseconds. *)
Lemma play_paces_every_value_witness :
  let w := Demo.started "tone16.wav" false false false in
  ready_to_stream Demo.tone16 2048 false w /\
  Wave.soundpos Demo.tone16 = 0 /\
  threading (self w) = false /\
  Wave.sampwidth Demo.tone16 = 2 /\
  exists out,
    hw (world_of (play Demo.pace alone w)) = hw w ++ out /\
    length (values out) = 4096%nat /\
    delays out = repeat 86 4096.
Proof.
  assert (Ht : threading (self (Demo.started "tone16.wav" false false false)) = false)
    by (vm_compute; reflexivity).
  split; [apply tone16_ready|]. split; [reflexivity|]. split; [exact Ht|].
  split; [reflexivity|].
  destruct (play_paces_every_value Demo.pace alone Demo.tone16 2048 false _
              (tone16_ready false false) eq_refl Ht (or_intror eq_refl))
    as (out & H1 & _ & H2 & H3).
  exists out. split; [exact H1|]. split; [exact H2|exact H3].
Defined.

(** X11 on the 16-bit file played in a thread on the converter while the
    caller turns the volume up and stops the playback. *)
Lemma converter_values_fit_resolution_witness :
  let w := Demo.started "tone16.wav" false false true in
  ready_to_stream Demo.tone16 2048 false w /\
  exists out,
    hw (world_of (play Demo.pace Demo.stop_after_first w)) = hw w ++ out /\
    Forall (fun x => 0 <= x < 2 ^ adatawidth (self w)) (values out).
Proof.
  split; [apply tone16_ready|].
  exact (converter_values_fit_resolution Demo.pace Demo.stop_after_first
           Demo.tone16 2048 _ (tone16_ready false true) (or_intror eq_refl)).
Defined.

(** X12 on the same file played in a thread on the pulse output. *)
Lemma pulse_widths_range_witness :
  let w := Demo.started "tone16.wav" true false true in
  ready_to_stream Demo.tone16 2048 true w /\
  exists out,
    hw (world_of (play Demo.pace Demo.stop_after_first w)) = hw w ++ out /\
    Forall (fun x => -128 <= x <= 383) (values out).
Proof.
  split; [apply tone16_ready|].
  destruct (pulse_widths_range Demo.pace Demo.stop_after_first
              Demo.tone16 2048 _ (tone16_ready true true) (or_intror eq_refl))
    as (out & H1 & _ & H2).
  exists out. split; [exact H1|exact (proj1 (H2 eq_refl))].
Defined.

(** X13 on the 16-bit file, whose first sample is 16384, at level 12. *)
Lemma top_level_pulse_leaves_period_witness :
  let w := world_of (set_volume 12 (Demo.started "tone16.wav" true false false)) in
  ready_to_stream Demo.tone16 2048 true w /\
  volume (self w) = 12 /\
  In 16384 (Py.array_h (Wave.frames Demo.tone16 0
              (Z.of_nat (chunk_count 2048 5000) * 2048))) /\
  exists x, In x (values (hw (world_of (play Demo.pace alone w)))) /\ 255 < x.
Proof.
  destruct (set_volume_ready Demo.tone16 2048 true 12 _ (tone16_ready true false)
              ltac:(lia)) as (Hw & Hv & Ht & _).
  assert (Hin : In 16384 (Py.array_h (Wave.frames Demo.tone16 0
                   (Z.of_nat (chunk_count 2048 5000) * 2048))))
    by (vm_compute; left; reflexivity).
  split; [exact Hw|]. split; [exact Hv|]. split; [exact Hin|].
  refine (proj1 (top_level_pulse_leaves_period Demo.pace alone Demo.tone16 2048
                   _ 16384 Hw eq_refl _ eq_refl Hv Hin) _).
  - rewrite Ht. vm_compute. reflexivity.
  - lia.
Defined.

(** X14 on the 8-bit file played at level 10 and at level 12. *)
Lemma higher_level_not_quieter_witness :
  let w1 := Demo.started "tone8.wav" true false false in
  let w2 := world_of (set_volume 12 w1) in
  ready_to_stream Demo.tone8 2048 true w1 /\
  ready_to_stream Demo.tone8 2048 true w2 /\
  volume (self w1) <= volume (self w2) /\
  exists out1 out2,
    hw (world_of (play Demo.pace alone w1)) = hw w1 ++ out1 /\
    hw (world_of (play Demo.pace alone w2)) = hw w2 ++ out2 /\
    Forall2 (not_quieter 0) (values out1) (values out2).
Proof.
  destruct (set_volume_ready Demo.tone8 2048 true 12 _ (tone8_ready true false)
              ltac:(lia)) as (Hw & Hv & Ht & _).
  assert (Ht1 : threading (self (Demo.started "tone8.wav" true false false)) = false)
    by (vm_compute; reflexivity).
  assert (Hle : volume (self (Demo.started "tone8.wav" true false false)) <=
                volume (self (world_of (set_volume 12
                  (Demo.started "tone8.wav" true false false)))))
    by (rewrite Hv; vm_compute; discriminate).
  split; [apply tone8_ready|]. split; [exact Hw|]. split; [exact Hle|].
  exact (higher_level_not_quieter Demo.pace alone alone Demo.tone8 2048 true
           _ _ (tone8_ready true false) Hw eq_refl Ht1
           (eq_trans Ht Ht1) (or_introl eq_refl) Hle).
Defined.

(** * What a playback leaves alone *)

Lemma keeps_ret {A} (a : A) : keeps (ret a).
Proof. intros w. reflexivity. Qed.

Lemma keeps_raise {A} (e : Py.exn) : keeps (@raise A e).
Proof. intros w. reflexivity. Qed.

Lemma keeps_bind {A B} (m : M A) (k : A -> M B) :
  keeps m -> (forall a, keeps (k a)) -> keeps (bind m k).
Proof.
  intros Hm Hk w. unfold bind. specialize (Hm w).
  destruct (m w) as [a w'|e w']; cbn [world_of] in *.
  - now rewrite Hk.
  - exact Hm.
Qed.

Lemma keeps_attr {A} (f : Player -> A) : keeps (attr f).
Proof. intros w. reflexivity. Qed.

Lemma keeps_deref {A} (e : Py.exn) (f : Player -> option A) : keeps (deref e f).
Proof. intros w. unfold deref. destruct (f (self w)); reflexivity. Qed.

Lemma keeps_lift {A} (e : Py.exn) (o : option A) : keeps (lift e o).
Proof. destruct o; [apply keeps_ret|apply keeps_raise]. Qed.

Lemma keeps_emit (e : hw_event) : keeps (emit e).
Proof. intros w. reflexivity. Qed.

Lemma keeps_log (o : file_op) : keeps (log o).
Proof. intros w. reflexivity. Qed.

Lemma keeps_assign (g : Player -> Player) :
  (forall p, settings (g p) = settings p) -> keeps (assign g).
Proof. intros H w. apply H. Qed.

Lemma keeps_audiofile_readframes (n : Z) : keeps (audiofile_readframes n).
Proof.
  intros [p h l]. unfold audiofile_readframes, bind, deref, assign, log, ret.
  cbn [self]. destruct (audiofile p) eqn:E; [|reflexivity].
  destruct p. cbn in *. subst. reflexivity.
Qed.

Lemma keeps_audiofile_setpos (c : Z) : keeps (audiofile_setpos c).
Proof.
  intros [p h l]. unfold audiofile_setpos, bind, deref, assign, log, lift.
  cbn [self]. destruct (audiofile p) as [f|] eqn:E; [|reflexivity].
  unfold Wave.setpos. destruct ((c <? 0) || (Wave.nframes f <? c)).
  - reflexivity.
  - destruct p. cbn in *. subst. reflexivity.
Qed.

Lemma keeps_dac_write (v : Z) : keeps (dac_write v).
Proof.
  unfold dac_write. apply keeps_bind; [apply keeps_deref|].
  intros _. apply keeps_emit.
Qed.

Lemma keeps_pwm_out_pulse_width (v : Z) : keeps (pwm_out_pulse_width v).
Proof.
  unfold pwm_out_pulse_width. apply keeps_bind; [apply keeps_deref|].
  intros _. apply keeps_emit.
Qed.

Lemma keeps_call (c : command) : keeps (call c).
Proof.
  destruct c; cbn [call].
  - unfold stop. apply keeps_bind; [apply keeps_attr|]. intros r.
    destruct (negb r); [apply keeps_ret|].
    apply keeps_bind; [apply keeps_assign; now intros []|]. intros _.
    apply keeps_bind; [apply keeps_attr|]. intros l.
    destruct l; [apply keeps_dac_write|apply keeps_ret].
  - unfold volume_up. apply keeps_bind; [apply keeps_attr|]. intros v.
    destruct (v <? 12); [apply keeps_assign; now intros []|apply keeps_ret].
  - unfold volume_down. apply keeps_bind; [apply keeps_attr|]. intros v.
    destruct (v >? 0); [apply keeps_assign; now intros []|apply keeps_ret].
  - unfold set_volume.
    destruct ((0 <=? v) && (v <=? 12));
      [apply keeps_assign; now intros []|apply keeps_ret].
Qed.

Lemma keeps_interleave (cs : list command) : keeps (interleave cs).
Proof.
  intros w. unfold interleave. cbn [world_of]. revert w.
  induction cs as [|c cs IH]; intros w; cbn [fold_left]; [reflexivity|].
  rewrite IH. apply keeps_call.
Qed.

Lemma keeps_custom_delay (t : Z) : keeps (custom_delay t).
Proof. apply keeps_emit. Qed.

Lemma keeps_play8_samples (idx buf : list Z) (vol : Z) :
  keeps (_play8_samples idx buf vol).
Proof.
  induction idx as [|i idx IH]; cbn [_play8_samples]; [apply keeps_ret|].
  apply keeps_bind; [apply keeps_lift|intros s].
  apply keeps_bind; [apply keeps_lift|intros q].
  apply keeps_bind; [apply keeps_attr|intros out].
  apply keeps_bind;
    [destruct (Py.truthy out);
       [apply keeps_pwm_out_pulse_width|apply keeps_dac_write]|intros _].
  apply keeps_bind; [apply keeps_deref|intros t].
  apply keeps_bind; [apply keeps_custom_delay|intros _]. exact IH.
Qed.

Lemma keeps_play16_samples (idx buf : list Z) (vol : Z) :
  keeps (_play16_samples idx buf vol).
Proof.
  induction idx as [|i idx IH]; cbn [_play16_samples]; [apply keeps_ret|].
  apply keeps_bind; [apply keeps_attr|intros out].
  apply keeps_bind.
  - destruct (Py.truthy out);
      (apply keeps_bind; [apply keeps_lift|intros s]);
      (apply keeps_bind; [apply keeps_lift|intros q]);
      [apply keeps_pwm_out_pulse_width|apply keeps_dac_write].
  - intros _.
    apply keeps_bind; [apply keeps_deref|intros t].
    apply keeps_bind; [apply keeps_custom_delay|intros _]. exact IH.
Qed.

Lemma keeps_framedata (x : option (list byte)) : keeps (assign (with_framedata x)).
Proof. apply keeps_assign. now intros []. Qed.

Lemma keeps_period (x : option Z) : keeps (assign (with_period x)).
Proof. apply keeps_assign. now intros []. Qed.

Lemma keeps_fstop (x : bool) : keeps (assign (with_fstop x)).
Proof. apply keeps_assign. now intros []. Qed.

Lemma keeps_play8_chunks (sch : schedule) (k : nat) (positions : list Z) :
  keeps (_play8_chunks sch k positions).
Proof.
  revert k. induction positions as [|c rest IH]; intros k;
    cbn [_play8_chunks]; [apply keeps_ret|].
  apply keeps_bind; [apply keeps_interleave|intros _].
  apply keeps_bind; [apply keeps_attr|intros halt].
  destruct halt; [apply keeps_ret|].
  apply keeps_bind; [apply keeps_attr|intros n].
  apply keeps_bind; [apply keeps_audiofile_readframes|intros bytes].
  apply keeps_bind; [apply keeps_framedata|intros _].
  apply keeps_bind; [apply keeps_audiofile_setpos|intros _].
  apply keeps_bind; [apply keeps_interleave|intros _].
  apply keeps_bind; [apply keeps_attr|intros v].
  apply keeps_bind; [apply keeps_attr|intros table].
  apply keeps_bind; [apply keeps_lift|intros vol].
  apply keeps_bind; [apply keeps_attr|intros m].
  apply keeps_bind; [apply keeps_lift|intros idx].
  apply keeps_bind; [apply keeps_play8_samples|intros _]. apply IH.
Qed.

Lemma keeps_play16_chunks (sch : schedule) (k : nat) (positions : list Z) :
  keeps (_play16_chunks sch k positions).
Proof.
  revert k. induction positions as [|c rest IH]; intros k;
    cbn [_play16_chunks]; [apply keeps_ret|].
  apply keeps_bind; [apply keeps_interleave|intros _].
  apply keeps_bind; [apply keeps_attr|intros halt].
  destruct halt; [apply keeps_ret|].
  apply keeps_bind; [apply keeps_attr|intros n].
  apply keeps_bind; [apply keeps_audiofile_readframes|intros bytes].
  apply keeps_bind; [apply keeps_framedata|intros _].
  apply keeps_bind; [apply keeps_audiofile_setpos|intros _].
  apply keeps_bind; [apply keeps_interleave|intros _].
  apply keeps_bind; [apply keeps_attr|intros v].
  apply keeps_bind; [apply keeps_attr|intros table].
  apply keeps_bind; [apply keeps_lift|intros vol].
  apply keeps_bind; [apply keeps_attr|intros out].
  apply keeps_bind; [apply keeps_attr|intros m].
  apply keeps_bind; [apply keeps_lift|intros idx].
  apply keeps_bind; [apply keeps_play16_samples|intros _]. apply IH.
Qed.

Lemma keeps_play8 pace sch : keeps (_play8 pace sch).
Proof.
  unfold _play8.
  apply keeps_bind; [apply keeps_deref|intros rate].
  apply keeps_bind;
    [destruct (rate =? 0); [apply keeps_raise|apply keeps_period]|intros _].
  apply keeps_bind; [apply keeps_attr|intros n].
  apply keeps_bind; [apply keeps_deref|intros total].
  apply keeps_bind; [apply keeps_lift|intros positions].
  apply keeps_play8_chunks.
Qed.

Lemma keeps_play16 pace sch : keeps (_play16 pace sch).
Proof.
  unfold _play16.
  apply keeps_bind; [apply keeps_deref|intros rate].
  apply keeps_bind;
    [destruct (rate =? 0); [apply keeps_raise|apply keeps_period]|intros _].
  apply keeps_bind; [apply keeps_attr|intros n].
  apply keeps_bind; [apply keeps_deref|intros total].
  apply keeps_bind; [apply keeps_lift|intros positions].
  apply keeps_play16_chunks.
Qed.

Lemma keeps_start_new_thread (body : M unit) :
  keeps body -> keeps (start_new_thread body).
Proof.
  intros H w. unfold start_new_thread. cbn [world_of self].
  rewrite <- (H w). now destruct (self (world_of (body w))).
Qed.

Lemma keeps_play pace sch : keeps (play pace sch).
Proof.
  unfold play.
  apply keeps_bind; [apply keeps_attr|intros r].
  destruct (negb r); [apply keeps_ret|].
  apply keeps_bind; [apply keeps_fstop|intros _].
  apply keeps_bind; [apply keeps_attr|intros l].
  destruct l.
  - apply keeps_bind; [apply keeps_deref|intros total].
    apply keeps_bind; [apply keeps_audiofile_readframes|intros bytes].
    apply keeps_bind; [apply keeps_framedata|intros _].
    apply keeps_bind; [apply keeps_deref|intros d].
    apply keeps_bind; [apply keeps_deref|intros rate].
    apply keeps_emit.
  - apply keeps_bind; [apply keeps_attr|intros width].
    apply keeps_bind; [apply keeps_attr|intros thread].
    destruct (width =? 8), thread.
    + apply keeps_start_new_thread, keeps_play8.
    + apply keeps_play8.
    + apply keeps_start_new_thread, keeps_play16.
    + apply keeps_play16.
Qed.

(** X15: [play] never touches what the constructor and [begin] have set,
    in any mode, on any player, whether it returns or raises and whatever
    the other context calls meanwhile: the file name, the mode flags, the
    peripherals, the sample width, the buffer size, the ready flag, the
    volume table, the frame count and the sample rate stay as they are, and
    the open file is the same file, with only its cursor moved. *)
Theorem play_leaves_settings pace sch (w : World) :
  let p := self w in
  let p' := self (world_of (play pace sch w)) in
  filename p' = filename p /\ pwm_mode p' = pwm_mode p /\ loop p' = loop p /\
  dac p' = dac p /\ pwm_out p' = pwm_out p /\ timer p' = timer p /\
  adatawidth p' = adatawidth p /\ buffersize p' = buffersize p /\
  ready p' = ready p /\ threading p' = threading p /\
  volumes p' = volumes p /\ total_frames p' = total_frames p /\
  framerate p' = framerate p /\
  option_map (fun f => Wave.at_pos f 0) (audiofile p') =
    option_map (fun f => Wave.at_pos f 0) (audiofile p).
Proof.
  intros p p'. pose proof (keeps_play pace sch w) as H.
  change (settings p' = settings p) in H.
  repeat split.
  - exact (f_equal filename H).
  - exact (f_equal pwm_mode H).
  - exact (f_equal loop H).
  - exact (f_equal dac H).
  - exact (f_equal pwm_out H).
  - exact (f_equal timer H).
  - exact (f_equal adatawidth H).
  - exact (f_equal buffersize H).
  - exact (f_equal ready H).
  - exact (f_equal threading H).
  - exact (f_equal volumes H).
  - exact (f_equal total_frames H).
  - exact (f_equal framerate H).
  - exact (f_equal audiofile H).
Qed.

(** * The player after a playback *)

Lemma at_entry_range (sch : schedule) (s : control) (k : nat) :
  0 <= fst s <= 12 -> 0 <= fst (at_entry sch s k) <= 12.
Proof.
  intros H. destruct k; cbn [at_entry]; [exact H|].
  apply at_snapshot_range, H.
Qed.

Lemma at_entry_alone (s : control) (k : nat) : at_entry alone s k = s.
Proof. destruct k; [reflexivity|apply at_snapshot_alone]. Qed.

Section FinalState.

Variables (f : Wave.Wave_read) (b : Z) (pwm : bool) (t : Z).
Variables (sch : schedule) (s0 : control).
Hypothesis file_ok : Wave.well_formed f.
Hypothesis cursor_ok : 0 <= Wave.soundpos f <= Wave.nframes f.
Hypothesis b_positive : 0 < b.
Hypothesis level_ok : 0 <= fst s0 <= 12.

(** The outer loop of [_play8] leaves the player inside a streaming loop,
    with the cursor where the last chunk that reached the output has left
    it, whether the loop returns or raises. *)
Lemma _play8_chunks_state (n k : nat) (w : World) :
  Wave.sampwidth f = 1 ->
  streaming f b pwm t (at_entry sch s0 k) (chunk_start f b k) w ->
  (forall j, (j < k + n)%nat -> position b j < Wave.nframes f) ->
  exists s',
    0 <= fst s' <= 12 /\ (sch = alone -> s' = s0) /\
    streaming f b pwm t s'
      (chunk_start f b (k + written_from sch s0 f b k n))
      (world_of (_play8_chunks sch k (map (position b) (seq k n)) w)).
Proof.
  intros Hsw. revert k w. induction n as [|n IH]; intros k w Hw Hpos.
  - exists (at_entry sch s0 k). cbn. rewrite Nat.add_0_r.
    split; [apply at_entry_range, level_ok|].
    split; [intros ->; apply at_entry_alone|exact Hw].
  - cbn [seq map _play8_chunks written_from].
    destruct (snd (at_test sch s0 k)) eqn:Hgo.
    + destruct (interleave_streaming _ _ _ _ _ _ (before_test sch k) w Hw)
        as (w1 & E1 & S1 & H1 & I1).
      rewrite <- at_test_entry in S1.
      pose proof (streaming_fstop _ _ _ _ _ _ _ S1) as F1. rewrite Hgo in F1.
      unfold bind at 1. rewrite E1. unfold bind at 1, attr at 1.
      rewrite F1. exists (at_test sch s0 k). cbn [world_of ret].
      rewrite Nat.add_0_r.
      split; [apply at_test_range, level_ok|].
      split; [intros ->; apply at_test_alone|exact S1].
    + assert (Hk : position b k < Wave.nframes f) by (apply Hpos; lia).
      destruct (chunk_prologue f b pwm t sch s0 file_ok cursor_ok b_positive
                  level_ok k w Hw ltac:(lia) Hgo)
        as (w1 & w2 & w3 & w4 & E1 & F1 & B1 & E2 & E3 & E4 & S4 & H4 & I4).
      destruct (interleave_streaming _ _ _ _ _ _ (before_snapshot sch k) w4 S4)
        as (w5 & E5 & S5 & H5 & I5).
      fold (at_snapshot sch s0 k) in S5.
      pose proof (at_snapshot_range sch s0 k level_ok) as Hv.
      destruct (index_volumes _ Hv) as [Hdiv Hpos'].
      pose proof (chunk_frames f b s0 file_ok cursor_ok b_positive level_ok k
                    ltac:(lia))
        as Hlen.
      rewrite Hsw in Hlen.
      pose proof (chunk_start_range f b s0 cursor_ok b_positive level_ok k
                    ltac:(lia)) as Hc.
      unfold bind at 1. rewrite E1. unfold bind at 1, attr at 1. rewrite F1.
      unfold bind at 1, attr at 1. rewrite B1.
      unfold bind at 1. rewrite E2. unfold bind at 1. rewrite E3.
      unfold bind at 1. rewrite E4. unfold bind at 1. rewrite E5.
      unfold bind at 1, attr at 1. unfold bind at 1, attr at 1.
      rewrite (streaming_volume _ _ _ _ _ _ _ S5).
      pose proof (st_volumes _ _ _ _ _ _ _ S5) as Hv5.
      pose proof (st_buffersize _ _ _ _ _ _ _ S5) as Hb5.
      rewrite Hv5, Hdiv. cbn [lift]. unfold bind at 1, ret at 1.
      unfold bind at 1, attr at 1. rewrite Hb5, range_from_zero by assumption.
      cbn [lift]. unfold bind at 1, ret at 1. unfold bind at 1.
      rewrite (_play8_samples_run pwm t);
        [ | lia | exact (streaming_configured _ _ _ _ _ _ _ S5) | lia ].
      cbn [skipn]. rewrite firstn_all2 by (rewrite length_array_B; lia).
      rewrite length_array_B. unfold full.
      destruct (Z.leb_spec (chunk_start f b k + b) (Wave.nframes f)) as [Hfull|Hshort].
      * rewrite (proj2 (Nat.leb_le _ _)) by lia. cbn [finish].
        match goal with
        | |- context [wrote ?l w5] =>
            destruct (IH (S k) (wrote l w5)) as (s' & R' & A' & S');
            [ apply streaming_wrote; rewrite chunk_start_succ; exact S5
            | intros j Hj; apply Hpos; lia | ]
        end.
        exists s'. split; [exact R'|]. split; [exact A'|].
        replace (k + S (written_from sch s0 f b (S k) n))%nat
          with (S k + written_from sch s0 f b (S k) n)%nat by lia.
        exact S'.
      * rewrite (proj2 (Nat.leb_gt _ _)) by lia. cbn [finish world_of].
        exists (at_snapshot sch s0 k).
        split; [exact Hv|]. split; [intros ->; apply at_snapshot_alone|].
        replace (k + 1)%nat with (S k) by lia.
        apply streaming_wrote. rewrite chunk_start_succ. exact S5.
Qed.

(** The outer loop of [_play16], likewise. *)
Lemma _play16_chunks_state (n k : nat) (w : World) :
  Wave.sampwidth f = 2 ->
  streaming f b pwm t (at_entry sch s0 k) (chunk_start f b k) w ->
  (forall j, (j < k + n)%nat -> position b j < Wave.nframes f) ->
  exists s',
    0 <= fst s' <= 12 /\ (sch = alone -> s' = s0) /\
    streaming f b pwm t s'
      (chunk_start f b (k + written_from sch s0 f b k n))
      (world_of (_play16_chunks sch k (map (position b) (seq k n)) w)).
Proof.
  intros Hsw. revert k w. induction n as [|n IH]; intros k w Hw Hpos.
  - exists (at_entry sch s0 k). cbn. rewrite Nat.add_0_r.
    split; [apply at_entry_range, level_ok|].
    split; [intros ->; apply at_entry_alone|exact Hw].
  - cbn [seq map _play16_chunks written_from].
    destruct (snd (at_test sch s0 k)) eqn:Hgo.
    + destruct (interleave_streaming _ _ _ _ _ _ (before_test sch k) w Hw)
        as (w1 & E1 & S1 & H1 & I1).
      rewrite <- at_test_entry in S1.
      pose proof (streaming_fstop _ _ _ _ _ _ _ S1) as F1. rewrite Hgo in F1.
      unfold bind at 1. rewrite E1. unfold bind at 1, attr at 1.
      rewrite F1. exists (at_test sch s0 k). cbn [world_of ret].
      rewrite Nat.add_0_r.
      split; [apply at_test_range, level_ok|].
      split; [intros ->; apply at_test_alone|exact S1].
    + assert (Hk : position b k < Wave.nframes f) by (apply Hpos; lia).
      destruct (chunk_prologue f b pwm t sch s0 file_ok cursor_ok b_positive
                  level_ok k w Hw ltac:(lia) Hgo)
        as (w1 & w2 & w3 & w4 & E1 & F1 & B1 & E2 & E3 & E4 & S4 & H4 & I4).
      destruct (interleave_streaming _ _ _ _ _ _ (before_snapshot sch k) w4 S4)
        as (w5 & E5 & S5 & H5 & I5).
      fold (at_snapshot sch s0 k) in S5.
      pose proof (at_snapshot_range sch s0 k level_ok) as Hv.
      destruct (index_volumes _ Hv) as [Hdiv Hpos'].
      pose proof (chunk_frames f b s0 file_ok cursor_ok b_positive level_ok k
                    ltac:(lia))
        as Hlen.
      rewrite Hsw in Hlen.
      pose proof (chunk_start_range f b s0 cursor_ok b_positive level_ok k
                    ltac:(lia)) as Hc.
      assert (Hbuf : length (Py.array_h (chunk f b k)) =
                     Z.to_nat (Z.min b (Wave.nframes f - chunk_start f b k)))
        by (apply length_array_h; lia).
      unfold bind at 1. rewrite E1. unfold bind at 1, attr at 1. rewrite F1.
      unfold bind at 1, attr at 1. rewrite B1.
      unfold bind at 1. rewrite E2. unfold bind at 1. rewrite E3.
      unfold bind at 1. rewrite E4. unfold bind at 1. rewrite E5.
      unfold bind at 1, attr at 1. unfold bind at 1, attr at 1.
      rewrite (streaming_volume _ _ _ _ _ _ _ S5).
      pose proof (st_volumes _ _ _ _ _ _ _ S5) as Hv5.
      pose proof (st_buffersize _ _ _ _ _ _ _ S5) as Hb5.
      pose proof (st_pwm_out _ _ _ _ _ _ _ S5) as Ho5.
      rewrite Hv5, Hdiv. cbn [lift]. unfold bind at 1, ret at 1.
      unfold bind at 1, attr at 1. rewrite Ho5.
      unfold bind at 1, attr at 1. rewrite Hb5, range_from_zero by assumption.
      cbn [lift]. unfold bind at 1, ret at 1. unfold bind at 1.
      rewrite (_play16_samples_run pwm t);
        [ | destruct pwm; lia | exact (streaming_configured _ _ _ _ _ _ _ S5) | lia ].
      cbn [skipn]. rewrite firstn_all2 by lia.
      rewrite Hbuf. unfold full.
      destruct (Z.leb_spec (chunk_start f b k + b) (Wave.nframes f)) as [Hfull|Hshort].
      * rewrite (proj2 (Nat.leb_le _ _)) by lia. cbn [finish].
        match goal with
        | |- context [wrote ?l w5] =>
            destruct (IH (S k) (wrote l w5)) as (s' & R' & A' & S');
            [ apply streaming_wrote; rewrite chunk_start_succ; exact S5
            | intros j Hj; apply Hpos; lia | ]
        end.
        exists s'. split; [exact R'|]. split; [exact A'|].
        replace (k + S (written_from sch s0 f b (S k) n))%nat
          with (S k + written_from sch s0 f b (S k) n)%nat by lia.
        exact S'.
      * rewrite (proj2 (Nat.leb_gt _ _)) by lia. cbn [finish world_of].
        exists (at_snapshot sch s0 k).
        split; [exact Hv|]. split; [intros ->; apply at_snapshot_alone|].
        replace (k + 1)%nat with (S k) by lia.
        apply streaming_wrote. rewrite chunk_start_succ. exact S5.
Qed.

End FinalState.

Section AfterPlay.

Variable pace : Z -> Z -> Z.
Variables (f : Wave.Wave_read) (b : Z) (pwm : bool) (sch : schedule).

Lemma _play8_state (w : World) :
  ready_to_stream f b pwm w -> Wave.sampwidth f = 1 ->
  exists s',
    0 <= fst s' <= 12 /\ (sch = alone -> s' = control_of (self w)) /\
    streaming f b pwm (pace (Wave.framerate f) 90) s'
      (chunk_start f b (written sch (control_of (self w)) f b))
      (world_of (_play8 pace sch w)).
Proof.
  intros Hw Hsw.
  pose proof (enter_streaming pace f b pwm 90 w Hw) as Hs.
  destruct Hw as [Hr Hl Hb Hpos Hvs Hv Ha Hc Hwf Htf Hfr Hrate Hwd Ho Hd].
  unfold _play8. unfold bind at 1, deref at 1. rewrite Hfr.
  destruct (Z.eqb_spec (Wave.framerate f) 0) as [|_]; [contradiction|].
  unfold bind at 1, assign at 1. unfold bind at 1, attr at 1.
  cbn [self with_period buffersize]. rewrite Hb.
  unfold bind at 1, deref at 1. cbn [self total_frames with_period].
  rewrite Htf, range_positions by assumption.
  cbn [lift]. unfold bind at 1, ret at 1.
  apply (_play8_chunks_state f b pwm _ sch (control_of (self w))
           Hwf Hc Hpos Hv (chunk_count b (Wave.nframes f)) 0 _ Hsw Hs).
  intros j Hj. apply position_below; [assumption|lia].
Qed.

Lemma _play16_state (w : World) :
  ready_to_stream f b pwm w -> Wave.sampwidth f = 2 ->
  exists s',
    0 <= fst s' <= 12 /\ (sch = alone -> s' = control_of (self w)) /\
    streaming f b pwm (pace (Wave.framerate f) 95) s'
      (chunk_start f b (written sch (control_of (self w)) f b))
      (world_of (_play16 pace sch w)).
Proof.
  intros Hw Hsw.
  pose proof (enter_streaming pace f b pwm 95 w Hw) as Hs.
  destruct Hw as [Hr Hl Hb Hpos Hvs Hv Ha Hc Hwf Htf Hfr Hrate Hwd Ho Hd].
  unfold _play16. unfold bind at 1, deref at 1. rewrite Hfr.
  destruct (Z.eqb_spec (Wave.framerate f) 0) as [|_]; [contradiction|].
  unfold bind at 1, assign at 1. unfold bind at 1, attr at 1.
  cbn [self with_period buffersize]. rewrite Hb.
  unfold bind at 1, deref at 1. cbn [self total_frames with_period].
  rewrite Htf, range_positions by assumption.
  cbn [lift]. unfold bind at 1, ret at 1.
  apply (_play16_chunks_state f b pwm _ sch (control_of (self w))
           Hwf Hc Hpos Hv (chunk_count b (Wave.nframes f)) 0 _ Hsw Hs).
  intros j Hj. apply position_below; [assumption|lia].
Qed.

End AfterPlay.

Lemma cursor_after (sch : schedule) (s : control) f b :
  0 < b -> 0 <= Wave.soundpos f <= Wave.nframes f ->
  0 <= chunk_start f b (written sch s f b) <= Wave.nframes f.
Proof.
  intros Hb Hc.
  pose proof (written_le sch s f b) as H1.
  pose proof (streamed_le sch s b (Wave.nframes f)) as H2.
  destruct (written sch s f b) as [|j] eqn:E; [exact Hc|].
  rewrite chunk_start_succ.
  pose proof (position_below b (Wave.nframes f) j Hb ltac:(lia)).
  unfold position in *. nia.
Qed.

(** A [play] without a thread leaves the player ready to stream, at the
    level it had, with the cursor of its file where the last chunk that
    reached the output has left it. *)
Lemma play_alone_state pace sch f b pwm (w : World) :
  ready_to_stream f b pwm w ->
  Wave.sampwidth f = 1 \/ Wave.sampwidth f = 2 ->
  threading (self w) = false ->
  let m := written alone (volume (self w), false) f b in
  let w1 := world_of (play pace sch w) in
  ready_to_stream (Wave.at_pos f (chunk_start f b m)) b pwm w1 /\
  threading (self w1) = false /\
  volume (self w1) = volume (self w).
Proof.
  intros Hw Hsw Hth m w1.
  pose proof (keeps_play pace sch w) as K. fold w1 in K.
  pose proof (ready_to_stream_fstop f b pwm false w Hw) as Hw0.
  assert (S : streaming f b pwm
                (pace (Wave.framerate f) (if Wave.sampwidth f >? 1 then 95 else 90))
                (volume (self w), false) (chunk_start f b m) w1).
  { unfold w1. rewrite (play_dispatch pace sch f b pwm w Hw). cbv zeta.
    rewrite Hth.
    destruct Hsw as [Hs|Hs]; rewrite Hs;
      [change (1 >? 1) with false|change (2 >? 1) with true]; cbv iota.
    - destruct (_play8_state pace f b pwm alone _ Hw0 Hs) as (s' & _ & A & S).
      rewrite (A eq_refl) in S. exact S.
    - destruct (_play16_state pace f b pwm alone _ Hw0 Hs) as (s' & _ & A & S).
      rewrite (A eq_refl) in S. exact S. }
  destruct Hw as [Hr Hl Hb Hpos Hvs Hv Ha Hc Hwf Htf Hfr Hrate Hwd Ho Hd].
  split; [|split].
  - split.
    + exact (st_ready _ _ _ _ _ _ _ S).
    + exact (st_loop _ _ _ _ _ _ _ S).
    + exact (st_buffersize _ _ _ _ _ _ _ S).
    + exact Hpos.
    + exact (st_volumes _ _ _ _ _ _ _ S).
    + rewrite (streaming_volume _ _ _ _ _ _ _ S). exact Hv.
    + exact (st_audiofile _ _ _ _ _ _ _ S).
    + cbn [Wave.soundpos Wave.nframes Wave.at_pos].
      apply cursor_after; assumption.
    + exact Hwf.
    + exact (eq_trans (f_equal total_frames K) Htf).
    + exact (eq_trans (f_equal framerate K) Hfr).
    + exact Hrate.
    + exact (eq_trans (f_equal adatawidth K) Hwd).
    + exact (st_pwm_out _ _ _ _ _ _ _ S).
    + exact (st_dac _ _ _ _ _ _ _ S).
  - exact (eq_trans (f_equal threading K) Hth).
  - exact (streaming_volume _ _ _ _ _ _ _ S).
Qed.

Lemma frames_tail (f : Wave.Wave_read) (c b : Z) :
  Wave.well_formed f -> 0 <= c <= Wave.nframes f -> Wave.nframes f <= c + b ->
  Wave.frames f c (c + b) = Wave.frames f c (Wave.nframes f).
Proof.
  intros (Hs & Hn & Hlen) Hc Hb. unfold Wave.frames.
  rewrite !firstn_all2; [reflexivity| |]; rewrite length_skipn; nia.
Qed.

Lemma div_of_pred (total b : Z) :
  0 < b -> total mod b <> 0 -> (total - 1) / b = total / b.
Proof.
  intros Hb Hm.
  pose proof (Z.div_mod total b ltac:(lia)) as E.
  pose proof (Z.mod_pos_bound total b Hb) as M.
  symmetry. apply (Z.div_unique (total - 1) b (total / b) (total mod b - 1)); lia.
Qed.

(** A file longer than the buffer whose length is not a multiple of it,
    played once from its first frame without a thread: where the cursor
    is afterwards, and what the next loop finds there. *)
Lemma after_first_pass (s : control) f b :
  0 < b -> Wave.soundpos f = 0 ->
  b < Wave.nframes f -> Wave.nframes f mod b <> 0 ->
  snd s = false ->
  let c := b * (Wave.nframes f / b) in
  let f1 := Wave.at_pos f c in
  chunk_start f b (written alone s f b) = c /\
  0 < c < Wave.nframes f /\ Wave.nframes f < c + b /\
  written alone s f1 b = 1%nat /\
  completes alone s f1 b = false.
Proof.
  intros Hb Hcur Hlong Hmod Hgo c f1.
  pose proof (Z.div_mod (Wave.nframes f) b ltac:(lia)) as E.
  pose proof (Z.mod_pos_bound (Wave.nframes f) b Hb) as M.
  pose proof (chunk_count_eq b (Wave.nframes f) Hb ltac:(lia)) as Hn.
  rewrite div_of_pred in Hn by assumption.
  assert (Hq : 1 <= Wave.nframes f / b)
    by (apply Z.div_le_lower_bound; lia).
  assert (Hc : 0 < c < Wave.nframes f /\ Wave.nframes f < c + b)
    by (unfold c; nia).
  destruct (written_first_pass alone s f b Hb Hcur) as [Hw _].
  destruct s as [v stopped]. cbn [snd] in Hgo. subst stopped.
  rewrite streamed_alone in Hw.
  split; [|split; [tauto|split; [tauto|]]].
  - rewrite Hw.
    destruct (chunk_count b (Wave.nframes f)) as [|j] eqn:Ej; [lia|].
    rewrite chunk_start_succ. unfold position, c. lia.
  - unfold written, completes.
    change (Wave.nframes f1) with (Wave.nframes f).
    destruct (chunk_count b (Wave.nframes f)) as [|j] eqn:Ej; [lia|].
    cbn [written_from completes_from]. rewrite at_test_alone. cbn [snd].
    unfold full. cbn [chunk_start].
    change (Wave.soundpos f1) with c. change (Wave.nframes f1) with (Wave.nframes f).
    destruct (Z.leb_spec (c + b) (Wave.nframes f)); [lia|]. split; reflexivity.
Qed.

(** X16: [play] never rewinds, so the frames one playback leaves out are
    where the next one starts.  For a file longer than the buffer whose
    length is not a multiple of it, played twice without a thread after
    [begin]: the second [play] makes one read, at frame
    [c = b * (total // b)], which returns the frames [c, total) that the
    first playback did not play; it writes their values, at the level the
    player has, re-seeks to frame [b], and raises [IndexError] at the first
    index past the short buffer. *)
Theorem second_play_plays_the_rest pace sch1 sch2 f b pwm (w : World) :
  ready_to_stream f b pwm w ->
  Wave.soundpos f = 0 ->
  threading (self w) = false ->
  Wave.sampwidth f = 1 \/ Wave.sampwidth f = 2 ->
  b < Wave.nframes f ->
  Wave.nframes f mod b <> 0 ->
  let total := Wave.nframes f in
  let c := b * (total / b) in
  let v := volume (self w) in
  let w1 := world_of (play pace sch1 w) in
  exists w2,
    play pace sch2 w1 = Raise Py.IndexError w2 /\
    io w2 = io w1 ++ [ReadFrames c b (Wave.frames f c total); SetPos b] /\
    (Wave.sampwidth f = 1 ->
     values (hw w2) = values (hw w1) ++
       map (fun s => s / divisor v) (Py.array_B (Wave.frames f c total))) /\
    (Wave.sampwidth f = 2 ->
     values (hw w2) = values (hw w1) ++
       map (fun s => if pwm then 128 + s / (divisor v * 128)
                     else 2048 + s / (divisor v * 16))
           (Py.array_h (Wave.frames f c total))).
Proof.
  intros Hw Hcur Hth Hsw Hlong Hmod total c v w1.
  pose proof (rs_positive _ _ _ _ Hw) as Hb.
  pose proof (rs_well_formed _ _ _ _ Hw) as Hwf.
  destruct (play_alone_state pace sch1 f b pwm w Hw Hsw Hth) as (Hw1 & Hth1 & Hv1).
  fold w1 in Hw1, Hth1, Hv1.
  destruct (after_first_pass (volume (self w), false) f b Hb Hcur Hlong Hmod
              eq_refl) as (Hc & Hrange & Hshort & Hwr & Hco).
  fold total c in Hc, Hrange, Hshort, Hwr, Hco.
  rewrite Hc in Hw1.
  pose proof (ready_to_stream_fstop _ b pwm false w1 Hw1) as Hw1'.
  assert (Hctl : control_of (self (mkWorld (with_fstop false (self w1)) (hw w1) (io w1)))
                 = (volume (self w), false)).
  { unfold control_of. cbn [self with_fstop volume fstop]. now rewrite Hv1. }
  assert (Hchunk : chunk (Wave.at_pos f c) b 0 = Wave.frames f c total).
  { unfold chunk. cbn [chunk_start]. change (Wave.soundpos (Wave.at_pos f c)) with c.
    change (Wave.frames (Wave.at_pos f c) c (c + b)) with (Wave.frames f c (c + b)).
    apply frames_tail; [assumption|lia|unfold total; lia]. }
  assert (Hio : expected_reads (Wave.at_pos f c) b 1 =
                [ReadFrames c b (Wave.frames f c total); SetPos b]).
  { unfold expected_reads. cbn [seq flat_map app]. unfold chunk_ops.
    rewrite Hchunk. cbn [chunk_start]. change (Wave.soundpos (Wave.at_pos f c)) with c.
    replace (position b 0) with b by (unfold position; lia). reflexivity. }
  rewrite (play_dispatch pace sch2 _ b pwm w1 Hw1). cbv zeta. rewrite Hth1.
  change (Wave.sampwidth (Wave.at_pos f c)) with (Wave.sampwidth f).
  destruct Hsw as [Hs|Hs]; rewrite Hs;
    [change (1 >? 1) with false|change (2 >? 1) with true]; cbv iota.
  - destruct (_play8_run pace _ b pwm alone _ Hw1' Hs) as (w2 & E & H & I).
    rewrite Hctl, Hwr in H, I. rewrite Hctl, Hco in E.
    exists w2. split; [exact E|]. split; [rewrite I, Hio; reflexivity|].
    split; [intros _|intros H2; lia].
    rewrite H. unfold expected_output. cbn [seq flat_map hw].
    rewrite app_nil_r, at_snapshot_alone, values_app, values_expected8, Hchunk.
    reflexivity.
  - destruct (_play16_run pace _ b pwm alone _ Hw1' Hs) as (w2 & E & H & I).
    rewrite Hctl, Hwr in H, I. rewrite Hctl, Hco in E.
    exists w2. split; [exact E|]. split; [rewrite I, Hio; reflexivity|].
    split; [intros H1; lia|intros _].
    rewrite H. unfold expected_output. cbn [seq flat_map hw].
    rewrite app_nil_r, at_snapshot_alone, values_app, values_expected16, Hchunk.
    reflexivity.
Qed.

(** X16 on the 8-bit file of 5000 frames: the second [play] reads at frame
    4096, gets the 904 frames that are left, and raises. *)
Lemma second_play_plays_the_rest_witness :
  let w := Demo.started "tone8.wav" true false false in
  let w1 := world_of (play Demo.pace alone w) in
  ready_to_stream Demo.tone8 2048 true w /\
  threading (self w) = false /\
  2048 < Wave.nframes Demo.tone8 /\
  Wave.nframes Demo.tone8 mod 2048 <> 0 /\
  exists w2,
    play Demo.pace alone w1 = Raise Py.IndexError w2 /\
    io w2 = io w1 ++
      [ReadFrames 4096 2048 (Wave.frames Demo.tone8 4096 5000); SetPos 2048].
Proof.
  assert (Ht : threading (self (Demo.started "tone8.wav" true false false)) = false)
    by (vm_compute; reflexivity).
  assert (Hl : 2048 < Wave.nframes Demo.tone8) by (vm_compute; reflexivity).
  assert (Hm : Wave.nframes Demo.tone8 mod 2048 <> 0)
    by (vm_compute; discriminate).
  split; [apply tone8_ready|]. split; [exact Ht|].
  split; [exact Hl|]. split; [exact Hm|].
  destruct (second_play_plays_the_rest Demo.pace alone alone Demo.tone8 2048
              true _ (tone8_ready true false) eq_refl Ht (or_introl eq_refl)
              Hl Hm) as (w2 & E & I & _).
  exists w2. split; [exact E|exact I].
Defined.

(** * The period *)










